(** * GladTeX, [gleetex/image.py]: the per-formula rendering pipeline

    A shallow embedding of the module that drives [latex] and [dvipng]
    for one formula: [remove_all], [call], the [Tex2img] class with its
    option setters, [create_dvi], [create_png], [convert],
    [get_positioning_info] and [parse_log].

    Conventions of the embedding.
    - A Python [str] is represented by its UTF-8 encoding, a [string] of
      8-bit characters; [bytes.decode(sys.getdefaultencoding())] is then
      the identity on well-formed UTF-8 and raises otherwise.  The
      characters the module looks for by name (newline, ['!'], [' '], the
      letters of the markers) are ASCII, so [split], [startswith] and
      [join] act on the encoding exactly as on the text.  The digits of
      the pattern for the output of [dvipng] are those of Unicode; there
      the text is taken character by character.
    - Exceptions are values of [exn]; a computation that may raise
      returns a [result]; a computation that also touches the file system
      or the working directory is a function on [world].
    - The external programs are a parameter ([exec]) of the section that
      contains the pipeline, and so is the table of decimal digits of the
      interpreter ([decimal]).

    The pipeline is followed by the parts of the command line script,
    [gladtex.py], that can be read without the rest of the package. *)

From Stdlib Require Import ZArith QArith Ascii String List Bool.
From Stdlib Require Import Numbers.DecimalString.
From stdpp Require Import base option gmap strings list fin_maps.

Set Warnings "-register-all".

Local Open Scope string_scope.
Local Open Scope list_scope.

(** ** Text primitives *)

Module Text.

(** The newline character, ['\n']. *)
Definition nl : ascii := Ascii.ascii_of_nat 10.

(** [s.startswith(p)] *)
Fixpoint startswith (s p : string) {struct p} : bool :=
  match p with
  | EmptyString => true
  | String a p' =>
      match s with
      | String b s' => Ascii.eqb a b && startswith s' p'
      | EmptyString => false
      end
  end.
Arguments startswith : simpl never.

(** [s.split('\n')]: one piece more than there are newlines; the empty
    text gives the one-element list with the empty piece. *)
Fixpoint split_lines (s : string) : list string :=
  match s with
  | EmptyString => [EmptyString]
  | String c r =>
      if Ascii.eqb c nl then EmptyString :: split_lines r
      else match split_lines r with
           | h :: t => String c h :: t
           | [] => [String c EmptyString]
           end
  end.

(** [sep.join(pieces)] *)
Fixpoint join (sep : string) (pieces : list string) : string :=
  match pieces with
  | [] => EmptyString
  | [p] => p
  | p :: rest => p +:+ sep +:+ join sep rest
  end.

(** [s[2:]] *)
Definition drop2 (s : string) : string :=
  match s with
  | String _ (String _ r) => r
  | _ => EmptyString
  end.

End Text.

(** ** [Tex2img.parse_log] *)

Module ParseLog.
Import Text.

(** The three tests of the inner [if] (lines 168-170). *)
Definition is_trailer (line : string) : bool :=
  startswith line "No pages of"
  || startswith line "Output written"
  || startswith line "!  ==> Fatal error o".

(** The [for] loop of lines 162-174.  [copy] and [lines] are the two
    loop-carried variables; [break] returns what was collected.  In the
    first branch the source rebinds the loop variable
    ([line = line[2:]]) and sets [copy]; nothing is appended there. *)
Fixpoint loop (todo : list string) (copy : bool) (lines : list string)
  : list string :=
  match todo with
  | [] => lines
  | line :: rest =>
      if startswith line "! " then
        let line := drop2 line in
        loop rest true lines
      else if copy then
        if is_trailer line then lines
        else loop rest copy (lines ++ [line])
      else loop rest copy lines
  end.

(** The same list in closed form: the lines after the first line that
    starts with ["! "], up to the first one that starts with
    ["No pages of"] or ["Output written"], without the lines that start
    with ["! "]. *)
Definition is_marker (line : string) : bool := startswith line "! ".

Fixpoint after_first_marker (lines : list string) : list string :=
  match lines with
  | [] => []
  | line :: rest => if is_marker line then rest else after_first_marker rest
  end.

Fixpoint until_trailer (lines : list string) : list string :=
  match lines with
  | [] => []
  | line :: rest =>
      if negb (is_marker line)
         && (startswith line "No pages of" || startswith line "Output written")
      then []
      else line :: until_trailer rest
  end.

Definition extract (lines : list string) : list string :=
  List.filter (fun line => negb (is_marker line))
    (until_trailer (after_first_marker lines)).

(** [parse_log(self, logdata)]; [None] is Python's [None]. *)
Definition parse_log (logdata : string) : option string :=
  if String.eqb logdata "" then None
  else Some (join (String nl "") (loop (split_lines logdata) false [])).

End ParseLog.

(** ** Python values and exceptions *)

Module Py.

(** The classes the module tests values against or that arguments can
    have. *)
Inductive pytype :=
  | TNoneType | TBool | TInt | TFloat | TStr | TList | TTuple
  | TType | TFunction.

(** Values that reach the setters and fill the result dictionary.  A
    finite [float] is the rational it denotes; [PyFunction] stands for a
    function object such as the [lambda] of [__check_rgb]. *)
Inductive pyval :=
  | PyNone
  | PyBool (b : bool)
  | PyInt (z : Z)
  | PyFloat (q : Q)
  | PyStr (s : string)
  | PyList (items : list pyval)
  | PyTuple (items : list pyval)
  | PyType (t : pytype)
  | PyFunction (name : string).

(** The exception classes that occur, with the class tests of the
    [except] clauses: [UnicodeDecodeError] and [UnicodeEncodeError] are
    subclasses of [ValueError], [IndexError] and [LookupError] stand
    apart, and [subprocess.SubprocessError] is not an [OSError]. *)
Inductive exn :=
  | OSError
  | SubprocessError (msg : string)
  | ValueError (msg : string)
  | TypeError (msg : string)
  | IndexError
  | LookupError
  | UnicodeDecodeError
  | UnicodeEncodeError.

Definition is_OSError (e : exn) : bool :=
  match e with OSError => true | _ => false end.

Definition is_SubprocessError (e : exn) : bool :=
  match e with SubprocessError _ => true | _ => false end.

(** [e.args]: the argument tuple of the exception object, for the
    exceptions built from one message. *)
Definition args (e : exn) : list string :=
  match e with
  | SubprocessError m | ValueError m | TypeError m => [m]
  | _ => []
  end.

Inductive result (A : Type) :=
  | Ok (a : A)
  | Raise (e : exn).
Arguments Ok {A} a.
Arguments Raise {A} e.

Definition bind {A B} (r : result A) (k : A -> result B) : result B :=
  match r with
  | Ok a => k a
  | Raise e => Raise e
  end.

Definition raised {A} (r : result A) : Prop :=
  match r with Ok _ => False | Raise _ => True end.

Definition is_SubprocessError_result {A} (r : result A) : Prop :=
  match r with Raise (SubprocessError _) => True | _ => False end.

(** [v > 0] for a number [v] ([True] counts as 1); [false] for what is
    not a number. *)
Definition is_positive_number (v : pyval) : bool :=
  match v with
  | PyInt z => (0 <? z)%Z
  | PyFloat q => negb (Qle_bool q 0)
  | PyBool b => b
  | _ => false
  end.

(** [isinstance(v, int) and v >= 0], for a value that is an integer
    object. *)
Definition is_nonnegative_int (v : pyval) : bool :=
  match v with
  | PyInt z => (0 <=? z)%Z
  | PyBool _ => true
  | _ => false
  end.

Definition type_of (v : pyval) : pytype :=
  match v with
  | PyNone => TNoneType
  | PyBool _ => TBool
  | PyInt _ => TInt
  | PyFloat _ => TFloat
  | PyStr _ => TStr
  | PyList _ => TList
  | PyTuple _ => TTuple
  | PyType _ => TType
  | PyFunction _ => TFunction
  end.

Definition pytype_eqb (a b : pytype) : bool :=
  match a, b with
  | TNoneType, TNoneType | TBool, TBool | TInt, TInt | TFloat, TFloat
  | TStr, TStr | TList, TList | TTuple, TTuple | TType, TType
  | TFunction, TFunction => true
  | _, _ => false
  end.

(** [issubclass(a, b)] on the classes above: [bool] derives from [int]. *)
Definition issubclass (a b : pytype) : bool :=
  pytype_eqb a b || (pytype_eqb a TBool && pytype_eqb b TInt).

Definition isinstance_msg : string :=
  "isinstance() arg 2 must be a type, a tuple of types, or a union".

(** The built-in [isinstance(v, classinfo)].  [classinfo] must be a
    class or a tuple of such (searched left to right, stopping at the
    first hit); anything else, a list included, raises [TypeError]. *)
Fixpoint isinstance (v classinfo : pyval) : result bool :=
  match classinfo with
  | PyType t => Ok (issubclass (type_of v) t)
  | PyTuple cs =>
      (fix any (cs : list pyval) : result bool :=
         match cs with
         | [] => Ok false
         | c :: cs' =>
             match isinstance v c with
             | Ok true => Ok true
             | Ok false => any cs'
             | Raise e => Raise e
             end
         end) cs
  | _ => Raise (TypeError isinstance_msg)
  end.

(** The built-in [len]. *)
Definition len (v : pyval) : result nat :=
  match v with
  | PyStr s => Ok (String.length s)
  | PyList l | PyTuple l => Ok (List.length l)
  | _ => Raise (TypeError "object has no len()")
  end.

(** The built-in [all], which takes exactly one argument, an iterable;
    the truth value of an item is [bool(item)]. *)
Definition truthy (v : pyval) : bool :=
  match v with
  | PyNone => false
  | PyBool b => b
  | PyInt z => negb (Z.eqb z 0)
  | PyFloat q => negb (Qeq_bool q 0)
  | PyStr s => negb (String.eqb s "")
  | PyList l | PyTuple l => negb (Nat.eqb (List.length l) 0)
  | PyType _ | PyFunction _ => true
  end.

Definition all (arguments : list pyval) : result bool :=
  match arguments with
  | [PyList l] | [PyTuple l] => Ok (forallb truthy l)
  | [PyStr s] => Ok true
  | [_] => Raise (TypeError "object is not iterable")
  | _ => Raise (TypeError "all() takes exactly one argument")
  end.

(** [seq[i]] for a constant index. *)
Definition getitem (v : pyval) (i : nat) : result pyval :=
  match v with
  | PyList l | PyTuple l =>
      match nth_error l i with
      | Some x => Ok x
      | None => Raise IndexError
      end
  | PyStr s =>
      match String.get i s with
      | Some c => Ok (PyStr (String c ""))
      | None => Raise IndexError
      end
  | _ => Raise (TypeError "object is not subscriptable")
  end.

(** [str(z)] for an integer. *)
Definition str_of_Z (z : Z) : string := NilZero.string_of_int (Z.to_int z).

End Py.

(** ** [bytes.decode]: well-formed UTF-8 *)

Module Utf8.

Definition byte (c : ascii) : N := Ascii.N_of_ascii c.

Definition between (lo hi : N) (c : ascii) : bool :=
  (lo <=? byte c)%N && (byte c <=? hi)%N.

(** The well-formed byte sequences of the Unicode standard: no overlong
    forms, no surrogates, nothing above U+10FFFF.  The strict decoder
    accepts exactly these. *)
Fixpoint well_formed (s : string) : bool :=
  match s with
  | EmptyString => true
  | String b0 s1 =>
      if between 0 127 b0 then well_formed s1
      else
        match s1 with
        | EmptyString => false
        | String b1 s2 =>
            if between 194 223 b0 then between 128 191 b1 && well_formed s2
            else
              match s2 with
              | EmptyString => false
              | String b2 s3 =>
                  if between 224 239 b0 then
                    (if between 224 224 b0 then between 160 191 b1
                     else if between 237 237 b0 then between 128 159 b1
                     else between 128 191 b1)
                    && between 128 191 b2 && well_formed s3
                  else
                    match s3 with
                    | EmptyString => false
                    | String b3 s4 =>
                        between 240 244 b0
                        && (if between 240 240 b0 then between 144 191 b1
                            else if between 244 244 b0 then between 128 143 b1
                            else between 128 191 b1)
                        && between 128 191 b2 && between 128 191 b3
                        && well_formed s4
                    end
              end
        end
  end.

(** [d.decode(sys.getdefaultencoding())]; the default encoding of
    Python 3 is UTF-8 and the error mode is strict. *)
Definition decode (d : string) : Py.result string :=
  if well_formed d then Py.Ok d else Py.Raise Py.UnicodeDecodeError.

(** A continuation byte, [10xxxxxx]. *)
Definition is_continuation (b : ascii) : bool := between 128 191 b.

(** Does the text start at a character, not in the middle of one? *)
Definition boundary (s : string) : bool :=
  match s with
  | String b _ => negb (is_continuation b)
  | EmptyString => true
  end.

(** The characters of a text, each as its encoding: a byte with the
    continuation bytes that follow it.  For a [str], which is
    well-formed, these are its code points in order. *)
Fixpoint chars (s : string) : list string :=
  match s with
  | EmptyString => []
  | String b r =>
      if boundary r then String b EmptyString :: chars r
      else match chars r with
           | h :: t => String b h :: t
           | [] => [String b EmptyString]
           end
  end.

(** The shape of one character: a byte followed by continuation bytes
    only. *)
Fixpoint only_continuation (s : string) : bool :=
  match s with
  | EmptyString => true
  | String b r => is_continuation b && only_continuation r
  end.

Definition is_chunk (c : string) : bool :=
  match c with
  | String _ r => only_continuation r
  | EmptyString => false
  end.

(** Characters put together again. *)
Fixpoint cat (pieces : list string) : string :=
  match pieces with
  | [] => EmptyString
  | p :: rest => p +:+ cat rest
  end.

(** The code point that a character encodes: the bits of the first
    byte below its length mark, then six bits of every further byte. *)
Definition payload (b : ascii) : N :=
  let n := byte b in
  if (n <? 128)%N then n
  else if (n <? 224)%N then (n - 192)%N
  else if (n <? 240)%N then (n - 224)%N
  else (n - 240)%N.

Fixpoint shift_in (acc : N) (r : string) : N :=
  match r with
  | EmptyString => acc
  | String b r' => shift_in (acc * 64 + (byte b - 128))%N r'
  end.

Definition code_point (c : string) : N :=
  match c with
  | String b r => shift_in (payload b) r
  | EmptyString => 0%N
  end.

End Utf8.

(** ** [os.path] (the POSIX flavour) *)

Module PosixPath.

Definition sep : ascii := "/"%char.
Definition extsep : ascii := "."%char.

(** [s.rfind(c)]: the index of the last occurrence, or [-1]. *)
Fixpoint rfind (c : ascii) (s : string) : Z :=
  match s with
  | EmptyString => (-1)%Z
  | String a r =>
      let i := rfind c r in
      if (0 <=? i)%Z then (i + 1)%Z
      else if Ascii.eqb a c then 0%Z else (-1)%Z
  end.

(** The slices [s[:i]] and [s[i:]] for [0 <= i]. *)
Definition upto (i : Z) (s : string) : string :=
  String.substring 0 (Z.to_nat i) s.
Definition from (i : Z) (s : string) : string :=
  String.substring (Z.to_nat i) (String.length s - Z.to_nat i) s.

(** [s.rstrip('/')] *)
Fixpoint rstrip (s : string) : string :=
  match s with
  | EmptyString => EmptyString
  | String a r =>
      match rstrip r with
      | EmptyString => if Ascii.eqb a sep then EmptyString else String a EmptyString
      | r' => String a r'
      end
  end.

(** [s == '/' * len(s)] *)
Fixpoint only_seps (s : string) : bool :=
  match s with
  | EmptyString => true
  | String a r => Ascii.eqb a sep && only_seps r
  end.

Definition isabs (p : string) : bool := Text.startswith p "/".

Definition endswith_sep (p : string) : bool :=
  (rfind sep p =? Z.of_nat (String.length p) - 1)%Z
  && negb (String.eqb p "").

(** [os.path.join(a, b)] *)
Definition join (a b : string) : string :=
  if isabs b then b
  else if String.eqb a "" || endswith_sep a then a +:+ b
  else a +:+ "/" +:+ b.

(** [os.path.split(p)] *)
Definition split (p : string) : string * string :=
  let i := (rfind sep p + 1)%Z in
  let head := upto i p in
  let tail := from i p in
  let head :=
    if negb (String.eqb head "") && negb (only_seps head)
    then rstrip head else head in
  (head, tail).

(** The [while] loop of [splitext]: is there a character other than a
    dot in [p[k:dot]]? *)
Fixpoint has_non_dot (s : string) : bool :=
  match s with
  | EmptyString => false
  | String a r => negb (Ascii.eqb a extsep) || has_non_dot r
  end.

(** [os.path.splitext(p)] *)
Definition splitext (p : string) : string * string :=
  let sepIndex := rfind sep p in
  let dotIndex := rfind extsep p in
  if (sepIndex <? dotIndex)%Z
     && has_non_dot (String.substring (Z.to_nat (sepIndex + 1))
                       (Z.to_nat (dotIndex - (sepIndex + 1))) p)
  then (upto dotIndex p, from dotIndex p)
  else (p, EmptyString).

End PosixPath.

(** ** The file system and the working directory *)

Module OS.
Import Py.

(** What the module can observe of the machine: the regular files (by
    absolute path, with their contents), the directories, and the
    working directory of the process.  Paths are compared as text once
    made absolute; [.], [..], repeated separators and links are not
    normalised.  Path arguments are text without NUL.  Permissions are
    not part of the picture: a file that exists can be removed. *)
Record world := World {
  files : gmap string string;
  dirs : gset string;
  cwd : string
}.

Definition set_files (f : gmap string string) (w : world) : world :=
  World f (dirs w) (cwd w).
Definition set_cwd (d : string) (w : world) : world :=
  World (files w) (dirs w) d.

(** A relative path is taken from the working directory. *)
Definition resolve (w : world) (p : string) : string :=
  PosixPath.join (cwd w) p.

Definition exists_file (w : world) (p : string) : bool :=
  bool_decide (is_Some (files w !! resolve w p)).

(** Computations on the world that may raise. *)
Definition io (A : Type) : Type := world -> result A * world.

Definition ret {A} (a : A) : io A := fun w => (Ok a, w).

Definition raise {A} (e : exn) : io A := fun w => (Raise e, w).

Definition iobind {A B} (m : io A) (k : A -> io B) : io B :=
  fun w =>
    match m w with
    | (Ok a, w') => k a w'
    | (Raise e, w') => (Raise e, w')
    end.

(** [try: body / except C: handler]: [handler e] is [Some h] when the
    clause catches [e]; what [h] raises propagates. *)
Definition try_except {A} (body : io A) (handler : exn -> option (io A))
  : io A :=
  fun w =>
    match body w with
    | (Ok a, w') => (Ok a, w')
    | (Raise e, w') =>
        match handler e with
        | Some h => h w'
        | None => (Raise e, w')
        end
    end.

(** [try: body / finally: final]: [final] runs on every exit of [body];
    an exception of [final] replaces the pending outcome. *)
Definition try_finally {A} (body : io A) (final : io unit) : io A :=
  fun w =>
    match body w with
    | (r, w') =>
        match final w' with
        | (Ok _, w'') => (r, w'')
        | (Raise e, w'') => (Raise e, w'')
        end
    end.

(** [os.remove(p)]: deletes a regular file; fails with an [OSError]
    when there is none at [p]. *)
Definition remove (p : string) : io unit :=
  fun w =>
    let a := resolve w p in
    match files w !! a with
    | Some _ => (Ok tt, set_files (delete a (files w)) w)
    | None => (Raise OSError, w)
    end.

(** [os.getcwd()] *)
Definition getcwd : io string := fun w => (Ok (cwd w), w).

(** [os.chdir(p)]: fails with an [OSError] unless [p] names a
    directory. *)
Definition chdir (p : string) : io unit :=
  fun w =>
    let a := resolve w p in
    if negb (String.eqb p "") && bool_decide (a ∈ dirs w)
    then (Ok tt, set_cwd a w)
    else (Raise OSError, w).

(** [with open(p, mode='w', encoding=enc) as f: f.write(text)], for an
    encoder [encode] (the codec registry of the runtime: [LookupError]
    for an unknown name, [UnicodeEncodeError] for text outside the
    codec).  Opening creates or truncates the file, and needs the
    parent directory to exist and [p] not to be a directory; when the
    encoder raises the file is left empty. *)
Definition write_text (encode : string -> string -> result string)
    (p enc text : string) : io unit :=
  fun w =>
    let a := resolve w p in
    if bool_decide (fst (PosixPath.split a) ∈ dirs w)
       && negb (bool_decide (a ∈ dirs w))
    then
      match encode enc text with
      | Ok data => (Ok tt, set_files (<[a := data]> (files w)) w)
      | Raise e => (Raise e, set_files (<[a := ""]> (files w)) w)
      end
    else (Raise OSError, w).

(** What running a program to completion leaves behind: the files and
    directories afterwards, what it wrote on its two output streams, and
    its exit status. *)
Record outcome := Outcome {
  out_files : gmap string string;
  out_dirs : gset string;
  out_stdout : string;
  out_stderr : string;
  out_status : Z
}.

(** The world that a finished program leaves to its caller: its files
    and directories, the caller's working directory. *)
Definition left_by (proc : outcome) (w : world) : world :=
  World (out_files proc) (out_dirs proc) (cwd w).

End OS.

Declare Scope io_scope.
Delimit Scope io_scope with io.
Notation "x <- m ;; k" := (OS.iobind m (fun x => k))
  (at level 100, m at next level, right associativity) : io_scope.
Notation "m ;; k" := (OS.iobind m (fun _ => k))
  (at level 100, right associativity) : io_scope.

(** ** Pattern pieces on ASCII text *)

Module AsciiPattern.

(** [\d] on a text in ASCII, where the ten ASCII digits are the only
    decimal digits there are. *)
Definition is_digit (c : ascii) : bool := Utf8.between 48 57 c.

Fixpoint all_digits (s : string) : bool :=
  match s with
  | EmptyString => true
  | String c r => is_digit c && all_digits r
  end.

(** A literal piece [p] of a pattern, in ASCII, at the head of [s]:
    what follows it.  (An ASCII character is one byte, and that byte
    occurs in no other character, so this holds on every text.) *)
Fixpoint literal (p s : string) {struct p} : option string :=
  match p, s with
  | EmptyString, _ => Some s
  | String a p', String b s' => if Ascii.eqb a b then literal p' s' else None
  | String _ _, EmptyString => None
  end.

(** The longest run of digits at the head of [s], and the rest. *)
Fixpoint span_digits (s : string) : string * string :=
  match s with
  | String c r =>
      if is_digit c then
        let '(d, rest) := span_digits r in (String c d, rest)
      else (EmptyString, s)
  | EmptyString => (EmptyString, EmptyString)
  end.

(** [\d+], greedy. *)
Definition group (s : string) : option (string * string) :=
  match span_digits s with
  | (EmptyString, _) => None
  | (d, rest) => Some (d, rest)
  end.

Definition is_number (s : string) : bool :=
  negb (String.eqb s "") && all_digits s.

Definition digit_ahead (s : string) : bool :=
  match s with
  | String c _ => is_digit c
  | EmptyString => false
  end.

End AsciiPattern.

(** ** [Tex2img.DVIPNG_REGEX] *)

Module DvipngRegex.

Section Digits.

(** The pattern is a [str] pattern compiled without flags, so [\d]
    stands for every decimal digit of Unicode (category Nd), as the
    database of the interpreter has them.  The ten ASCII digits are
    the decimal digits below 128 in every version of the database;
    [decimal] tells which code points from 128 on are decimal
    digits. *)
Variable decimal : N -> bool.

(** [\d] on one character, given by its encoding. *)
Definition is_digit (c : string) : bool :=
  Utf8.well_formed c
  && (let n := Utf8.code_point c in
      if (n <? 128)%N then (48 <=? n)%N && (n <=? 57)%N else decimal n).

Definition all_digits (s : string) : bool :=
  forallb is_digit (Utf8.chars s).

(** The longest run of digits at the head of a list of characters, and
    the rest. *)
Fixpoint span_chars (cs : list string) : list string * list string :=
  match cs with
  | c :: rest =>
      if is_digit c then
        let '(d, r) := span_chars rest in (c :: d, r)
      else ([], cs)
  | [] => ([], [])
  end.

(** The longest run of digits at the head of [s], and the rest. *)
Definition span_digits (s : string) : string * string :=
  let '(d, rest) := span_chars (Utf8.chars s) in (Utf8.cat d, Utf8.cat rest).

(** A group [(\d+)]: greedy, at least one digit.  Every piece that
    follows a group in the pattern begins with a blank, so giving back
    digits never rescues a match and the longest run is the only
    candidate. *)
Definition group (s : string) : option (string * string) :=
  match span_digits s with
  | (EmptyString, _) => None
  | (d, rest) => Some (d, rest)
  end.

(** [DVIPNG_REGEX.search(line)] followed by [.groups()].  The pattern
    is [^ depth=(\d+) height=(\d+) width=(\d+)], compiled without
    flags: [^] ties the match to the start of [line]. *)
Definition search (line : string) : option (list string) :=
  r0 ← AsciiPattern.literal " depth=" line;
  '(d, r1) ← group r0;
  r2 ← AsciiPattern.literal " height=" r1;
  '(h, r3) ← group r2;
  r4 ← AsciiPattern.literal " width=" r3;
  '(w, _) ← group r4;
  Some [d; h; w].

(** What the pattern means, read off its text: [line] starts with the
    three labelled numbers [d], [h] and [w], each a non-empty run of
    digits, and goes on with the characters of [tail].  The greedy
    last group takes all the digits there are. *)
Definition is_number (s : string) : bool :=
  negb (String.eqb s "") && all_digits s.

Definition digit_ahead (s : string) : bool :=
  match Utf8.chars s with
  | c :: _ => is_digit c
  | [] => false
  end.

Definition matches (line d h w : string) : Prop :=
  is_number d = true /\ is_number h = true /\ is_number w = true /\
  exists tail,
    Utf8.boundary tail = true /\
    line = " depth=" +:+ d +:+ " height=" +:+ h +:+ " width=" +:+ w +:+ tail.

Definition unmatched (line : string) : Prop :=
  forall d h w, ~ matches line d h w.

(** The match that is reported for a line: the one in which the width
    is not followed by a further digit. *)
Definition reads (line d h w : string) : Prop :=
  is_number d = true /\ is_number h = true /\ is_number w = true /\
  exists tail,
    Utf8.boundary tail = true /\ digit_ahead tail = false /\
    line = " depth=" +:+ d +:+ " height=" +:+ h +:+ " width=" +:+ w +:+ tail.

End Digits.

End DvipngRegex.

(** ** The module [gleetex.image] *)

Module Image.
Import Py OS.
Local Open Scope io_scope.

(** The instance attributes set by [__init__]. *)
Record Tex2img := MkTex2img {
  tex_document : string;
  output_name : string;
  encoding : string;
  parsed_data : option (gmap string pyval);
  dpi : pyval;
  keep_log : bool;
  background : string;
  foreground : string
}.

Definition set_parsed_data (d : option (gmap string pyval)) (self : Tex2img) :=
  MkTex2img (tex_document self) (output_name self) (encoding self) d
    (dpi self) (keep_log self) (background self) (foreground self).
Definition with_dpi (v : pyval) (self : Tex2img) :=
  MkTex2img (tex_document self) (output_name self) (encoding self)
    (parsed_data self) v (keep_log self) (background self) (foreground self).
Definition set_background (c : string) (self : Tex2img) :=
  MkTex2img (tex_document self) (output_name self) (encoding self)
    (parsed_data self) (dpi self) (keep_log self) c (foreground self).
Definition set_foreground (c : string) (self : Tex2img) :=
  MkTex2img (tex_document self) (output_name self) (encoding self)
    (parsed_data self) (dpi self) (keep_log self) (background self) c.

(** [Tex2img.__init__(tex_document, output_fn, encoding)] *)
Definition init (tex_document output_fn encoding : string) : Tex2img :=
  MkTex2img tex_document output_fn encoding None (PyInt 100) false
    "transparent" "rgb 0 0 0".

(** [set_dpi(self, dpi)] *)
Definition set_dpi (self : Tex2img) (dpi : pyval) : result Tex2img :=
  bind (isinstance dpi (PyType TInt)) (fun is_int =>
  if negb is_int then Raise (TypeError "Dpi must be an integer")
  else Ok (with_dpi dpi self)).

(** [set_transparency(self, flag)] *)
Definition set_transparency (self : Tex2img) (flag : pyval) : result Tex2img :=
  bind (isinstance flag (PyType TBool)) (fun is_bool =>
  if negb is_bool then Raise (ValueError "Argument must be of type bool!")
  else Ok (set_background (if truthy flag then "transparent" else "rgb 1 1 1")
             self)).

(** [__check_rgb(self, rgb_list)].  The class test is written with the
    list [[list, tuple]] and [all] is called with two arguments, the
    [lambda] and the list. *)
Definition check_rgb (rgb_list : pyval) : result unit :=
  bind (isinstance rgb_list (PyList [PyType TList; PyType TTuple]))
    (fun is_seq =>
  bind (if negb is_seq then Ok true
        else bind (len rgb_list) (fun n => Ok (negb (Nat.eqb n 3))))
    (fun bad =>
  if bad
  then Raise (ValueError
         "A list with three broken decimals between 0 and 1 expected.")
  else
    bind (all [PyFunction "<lambda>"; rgb_list]) (fun ok =>
    if negb ok then Raise (ValueError "RGB values must between 0 and 1")
    else Ok tt))).

Section Pipeline.

(** The runtime and the machine around the module.
    - [str_other]: [str(v)] for the values whose text form is not
      spelled out here (floats, containers, classes, functions);
    - [encode]: the codecs behind [open(..., encoding=...)];
    - [exec]: running a command line to completion in a world, [None]
      when the program cannot be started;
    - [decimal]: the decimal digits beyond ASCII in the Unicode
      database of the interpreter, which is what [\d] goes by. *)
Variable str_other : pyval -> string.
Variable encode : string -> string -> result string.
Variable exec : list string -> world -> option outcome.
Variable decimal : N -> bool.

(** [str(v)] *)
Definition str (v : pyval) : string :=
  match v with
  | PyStr s => s
  | PyInt z => str_of_Z z
  | PyBool true => "True"
  | PyBool false => "False"
  | PyNone => "None"
  | _ => str_other v
  end.

(** ['rgb {0[0]} {0[1]} {0[2]}'.format(rgb_list)] *)
Definition format_rgb (rgb_list : pyval) : result string :=
  bind (getitem rgb_list 0) (fun r =>
  bind (getitem rgb_list 1) (fun g =>
  bind (getitem rgb_list 2) (fun b =>
  Ok ("rgb " +:+ str r +:+ " " +:+ str g +:+ " " +:+ str b)))).

(** [set_background_color(self, rgb_list)] *)
Definition set_background_color (self : Tex2img) (rgb_list : pyval)
  : result Tex2img :=
  bind (check_rgb rgb_list) (fun _ =>
  bind (format_rgb rgb_list) (fun c =>
  Ok (set_background c self))).

(** [set_foreground_color(self, rgb_list)] *)
Definition set_foreground_color (self : Tex2img) (rgb_list : pyval)
  : result Tex2img :=
  bind (check_rgb rgb_list) (fun _ =>
  bind (format_rgb rgb_list) (fun c =>
  Ok (set_foreground c self))).

(** The loop of [remove_all], without its guard. *)
Fixpoint remove_each (fs : list string) : io unit :=
  match fs with
  | [] => ret tt
  | file :: rest => OS.remove file ;; remove_each rest
  end.

(** [remove_all], called with the files as its arguments. *)
Definition remove_all (fs : list string) : io unit :=
  try_except (remove_each fs)
    (fun e => if is_OSError e then Some (ret tt) else None).

(** The comprehension of [call]: the non-empty streams, decoded in
    order. *)
Fixpoint decode_each (ds : list string) : result (list string) :=
  match ds with
  | [] => Ok []
  | d :: rest =>
      if String.eqb d "" then decode_each rest
      else bind (Utf8.decode d) (fun t =>
           bind (decode_each rest) (fun ts => Ok (t :: ts)))
  end.

(** What the comprehension keeps of the two streams. *)
Definition kept_streams (proc : outcome) : list string :=
  List.filter (fun d => negb (String.eqb d ""))
    [out_stdout proc; out_stderr proc].

Definition call_message (cmd data : list string) : string :=
  "Error while executing " +:+ Text.join " " cmd
    +:+ Text.join (String Text.nl "") data.

(** [call(cmd)] *)
Definition call (cmd : list string) : io (list string) :=
  fun w =>
    match exec cmd w with
    | None => (Raise OSError, w)
    | Some proc =>
        let w' := left_by proc w in
        match decode_each [out_stdout proc; out_stderr proc] with
        | Raise e => (Raise e, w')
        | Ok data =>
            if negb (Z.eqb (out_status proc) 0)
            then (Raise (SubprocessError (call_message cmd data)), w')
            else (Ok data, w')
        end
    end.

(** The three names derived from [dvi_fn] at lines 91-94. *)
Definition derived_fn (dvi_fn ext : string) : string :=
  let '(path, basename) := PosixPath.split dvi_fn in
  PosixPath.join path (fst (PosixPath.splitext basename) +:+ ext).
Definition tex_fn (dvi_fn : string) : string := derived_fn dvi_fn ".tex".
Definition aux_fn (dvi_fn : string) : string := derived_fn dvi_fn ".aux".
Definition log_fn (dvi_fn : string) : string := derived_fn dvi_fn ".log".

Definition latex_cmd (dvi_fn : string) : list string :=
  ["latex"; "-halt-on-error"; tex_fn dvi_fn].

(** Lines 107-112: the message of the error that [create_dvi] raises,
    from the caught exception [e]. *)
Definition latex_error (e : exn) : exn :=
  let msg := "" in
  let msg :=
    match args e with
    | a0 :: _ =>
        match ParseLog.parse_log a0 with
        | Some data => if negb (String.eqb data "") then msg +:+ data else msg
        | None => msg
        end
    | [] => msg
    end in
  SubprocessError msg.

(** Lines 98-100: the working directory is remembered and, when
    [dvi_fn] has a directory part other than it, changed to that. *)
Definition enter_directory (path : string) : io string :=
  cwd <- getcwd ;;
  (if negb (String.eqb cwd path) && negb (String.eqb path "")
   then chdir path else ret tt) ;;
  ret cwd.

(** Lines 101-112: the [try] block with its [except] clause. *)
Definition run_latex (self : Tex2img) (dvi_fn : string) : io unit :=
  try_except (call (latex_cmd dvi_fn) ;; ret tt)
    (fun e =>
       if is_SubprocessError e then Some (
         remove_all [dvi_fn] ;;
         (if negb (keep_log self) then remove_all [log_fn dvi_fn]
          else ret tt) ;;
         raise (latex_error e))
       else None).

(** [create_dvi(self, dvi_fn)] *)
Definition create_dvi (self : Tex2img) (dvi_fn : string) : io unit :=
  let path := fst (PosixPath.split dvi_fn) in
  write_text encode (tex_fn dvi_fn) (encoding self) (tex_document self) ;;
  cwd <- enter_directory path ;;
  try_finally (run_latex self dvi_fn)
    (remove_all [tex_fn dvi_fn; aux_fn dvi_fn] ;; chdir cwd) ;;
  remove_all [log_fn dvi_fn].

Definition dvipng_cmd (self : Tex2img) (dvi_fn : string) : list string :=
  ["dvipng"; "-q*"; "-D"; str (dpi self);
   "-bg"; background self; "-fg"; foreground self;
   "--height*"; "--depth*"; "--width*";
   "-o"; output_name self; dvi_fn].

(** The [for] loop of [create_png]: the groups of the first line that
    the pattern finds. *)
Fixpoint scan (lines : list string) : option (list string) :=
  match lines with
  | [] => None
  | line :: rest =>
      match DvipngRegex.search decimal line with
      | Some found => Some found
      | None => scan rest
      end
  end.

(** [dict(pairs)]: later pairs overwrite earlier ones. *)
Definition dict (pairs : list (string * pyval)) : gmap string pyval :=
  fold_left (fun d kv => <[fst kv := snd kv]> d) pairs ∅.

(** [dict(zip(['depth', 'height', 'width'], found.groups()))]; the
    groups of a match object are [str] objects. *)
Definition geometry (groups : list string) : gmap string pyval :=
  dict (zip ["depth"; "height"; "width"] (map PyStr groups)).

(** Lines 133-137, on the value [data] that [call] returned. *)
Definition parse_geometry (data : list string) : result (gmap string pyval) :=
  match data with
  | [] => Raise IndexError
  | first :: _ =>
      match scan (Text.split_lines first) with
      | Some found => Ok (geometry found)
      | None => Raise (ValueError "Could not parse dvi output")
      end
  end.

(** [create_png(self, dvi_fn)] *)
Definition create_png (self : Tex2img) (dvi_fn : string)
  : io (gmap string pyval) :=
  let cmd := dvipng_cmd self dvi_fn in
  data <- try_finally
            (try_except (call cmd)
               (fun e =>
                  if is_SubprocessError e
                  then Some (remove_all [output_name self] ;; raise e)
                  else None))
            (remove_all [dvi_fn]) ;;
  fun w => (parse_geometry data, w).

(** The text that [create_png] looks at, [data[0]]: what the program
    wrote on its standard output or, when that is nothing, what it
    wrote on its error stream. *)
Definition first_stream (proc : outcome) : string :=
  if String.eqb (out_stdout proc) "" then out_stderr proc
  else out_stdout proc.

(** [found] is what the first matching line of the output of [dvipng],
    run on [dvi_fn] in [w1] with exit status 0, gives for the three
    keys. *)
Definition read_from_dvipng (self : Tex2img) (dvi_fn : string) (w1 : world)
    (found : gmap string pyval) : Prop :=
  exists proc text pre line post d h wd,
    exec (dvipng_cmd self dvi_fn) w1 = Some proc /\
    out_status proc = 0%Z /\
    Utf8.well_formed (out_stdout proc) = true /\
    Utf8.well_formed (out_stderr proc) = true /\
    text = first_stream proc /\
    Text.split_lines text = pre ++ line :: post /\
    Forall (DvipngRegex.unmatched decimal) pre /\
    DvipngRegex.reads decimal line d h wd /\
    found = {[ "depth" := PyStr d; "height" := PyStr h; "width" := PyStr wd ]}.

(** The name of the intermediate file in [convert];
    [os.path.join] of a single path is that path. *)
Definition dvi_name (self : Tex2img) : string :=
  fst (PosixPath.splitext (output_name self)) +:+ ".dvi".

(** [convert(self)]: the object is updated only by the assignment that
    follows a normal return of [create_png]. *)
Definition convert (self : Tex2img) (w : world)
  : result unit * Tex2img * world :=
  let dvi := dvi_name self in
  match
    try_except (create_dvi self dvi ;; create_png self dvi)
      (fun e =>
         if is_OSError e
         then Some (remove_all [output_name self] ;; raise e)
         else None) w
  with
  | (Ok found, w') => (Ok tt, set_parsed_data (Some found) self, w')
  | (Raise e, w') => (Raise e, self, w')
  end.

(** [get_positioning_info(self)] *)
Definition get_positioning_info (self : Tex2img)
  : option (gmap string pyval) :=
  parsed_data self.

(** *** Sequences of method calls on one instance *)

Inductive method :=
  | SetDpi (v : pyval)
  | SetTransparency (v : pyval)
  | SetBackgroundColor (v : pyval)
  | SetForegroundColor (v : pyval)
  | CreateDvi (dvi_fn : string)
  | CreatePng (dvi_fn : string)
  | Convert
  | GetPositioningInfo
  | ParseLog (logdata : string).

(** A setter that raises leaves the object as it was. *)
Definition after_setter (self : Tex2img) (r : result Tex2img) : Tex2img :=
  match r with Ok self' => self' | Raise _ => self end.

(** One call: the object and the world afterwards, whether it returned
    or raised. *)
Definition step (m : method) (st : Tex2img * world) : Tex2img * world :=
  let '(self, w) := st in
  match m with
  | SetDpi v => (after_setter self (set_dpi self v), w)
  | SetTransparency v => (after_setter self (set_transparency self v), w)
  | SetBackgroundColor v =>
      (after_setter self (set_background_color self v), w)
  | SetForegroundColor v =>
      (after_setter self (set_foreground_color self v), w)
  | CreateDvi fn => (self, snd (create_dvi self fn w))
  | CreatePng fn => (self, snd (create_png self fn w))
  | Convert => let '(_, self', w') := convert self w in (self', w')
  | GetPositioningInfo | ParseLog _ => (self, w)
  end.

(** Did this call return from a [convert]? *)
Definition converts (m : method) (st : Tex2img * world) : bool :=
  match m with
  | Convert =>
      match convert (fst st) (snd st) with
      | (Ok _, _, _) => true
      | _ => false
      end
  | _ => false
  end.

Fixpoint run (ms : list method) (st : Tex2img * world) : Tex2img * world :=
  match ms with
  | [] => st
  | m :: rest => run rest (step m st)
  end.

(** Has some [convert] among the calls [ms], made in order from [st],
    completed normally? *)
Fixpoint converted (ms : list method) (st : Tex2img * world) : bool :=
  match ms with
  | [] => false
  | m :: rest => converts m st || converted rest (step m st)
  end.

End Pipeline.
End Image.

(** ** Stand-ins for the machine, for running the pipeline on examples *)

Module Doubles.
Import Py OS Image.

(** Several lines as one text. *)
Definition unlines (ls : list string) : string :=
  Text.join (String Text.nl "") ls.

(** The decimal digits beyond ASCII of Unicode 14.0: the code points at
    which a run of the digits zero to nine starts. *)
Definition digit_runs : list N :=
  [1632; 1776; 1984; 2406; 2534; 2662; 2790; 2918; 3046; 3174; 3302;
   3430; 3558; 3664; 3792; 3872; 4160; 4240; 6112; 6160; 6470; 6608;
   6784; 6800; 6992; 7088; 7232; 7248; 42528; 43216; 43264; 43472; 43504;
   43600; 44016; 65296; 66720; 68912; 69734; 69872; 69942; 70096; 70384;
   70736; 70864; 71248; 71360; 71472; 71904; 72016; 72784; 73040; 73120;
   92768; 92864; 93008; 120782; 120792; 120802; 120812; 120822; 123200;
   123632; 125264; 130032]%N.

Definition unicode_digit (n : N) : bool :=
  existsb (fun zero => (zero <=? n)%N && (n <? zero + 10)%N) digit_runs.


(** A byte that no UTF-8 text contains. *)
Definition bad_byte : string := String (Ascii.ascii_of_nat 255) "".

(** A program that writes the given files (absolute names), prints
    [out] and [err], and exits with [status]. *)
Definition program (writes : list (string * string)) (out err : string)
    (status : Z) (w : world) : outcome :=
  Outcome (fold_left (fun fs kv => <[fst kv := snd kv]> fs) writes (files w))
    (dirs w) out err status.

(** A machine on which [latex] and [dvipng] are the two given programs
    and no other command exists. *)
Definition machine (latex dvipng : world -> outcome)
  : list string -> world -> option outcome :=
  fun cmd w =>
    match cmd with
    | "latex" :: _ => Some (latex w)
    | "dvipng" :: _ => Some (dvipng w)
    | _ => None
    end.

(** The codec of the examples: the text is already in UTF-8. *)
Definition utf8_codec (enc text : string) : result string := Ok text.

(** A text form for the values whose [str] is left to the runtime; no
    example prints such a value. *)
Definition no_str (v : pyval) : string := "".

(** An empty disk with the directory [/work], which is also the working
    directory. *)
Definition empty_disk : world := World ∅ {["/"; "/work"]} "/work".

(** A [latex] that succeeds, leaving [f.dvi], [f.aux] and [f.log]. *)
Definition latex_ok : world -> outcome :=
  program [("/work/f.dvi", "dvi"); ("/work/f.aux", "aux");
           ("/work/f.log", "log")]
    "This is pdfTeX" "" 0.

(** What [latex -halt-on-error] prints for a formula with an undefined
    control sequence. *)
Definition failing_log : string :=
  unlines ["This is pdfTeX, Version 3.14 (preloaded format=latex)";
           "(./f.tex";
           "! Undefined control sequence.";
           "l.3 $\foo";
           "         $";
           "No pages of output.";
           "Transcript written on f.log."].

(** The end of such a run when the engine reports the stop itself. *)
Definition halted_log : string :=
  unlines ["(./f.tex";
           "! Undefined control sequence.";
           "l.3 $\foo";
           "!  ==> Fatal error occurred, no output PDF file produced!";
           "Transcript written on f.log."].

(** A [latex] that fails in that way, leaving [f.aux] and [f.log]. *)
Definition latex_fails : world -> outcome :=
  program [("/work/f.aux", "aux"); ("/work/f.log", "log")]
    failing_log "" 1.

(** A [dvipng] that writes the image and reports its geometry. *)
Definition dvipng_ok : world -> outcome :=
  program [("/work/f.png", "png")]
    (unlines ["This is dvipng"; " depth=3 height=12 width=40"; ""]) "" 0.


(** A [dvipng] that fails after creating the image file, with a
    message in UTF-8, and one whose message is not UTF-8. *)
Definition dvipng_fails : world -> outcome :=
  program [("/work/f.png", "")] "" "dvipng: Fatal error" 1.
Definition dvipng_fails_garbled : world -> outcome :=
  program [("/work/f.png", "")] "" bad_byte 1.

(** A program that prints one undecodable byte and exits with 0. *)
Definition garbled_ok : world -> outcome := program [] bad_byte "" 0.

(** A [latex] started in [/work/out] on the name [out/f.tex]: there is
    no such file there, and it gives up. *)
Definition latex_lost : world -> outcome :=
  program [("/work/out/texput.log", "log")]
    "! I can't find file `out/f.tex'." "" 1.

(** The disk with a further directory, [/work/out]. *)
Definition disk_with_out : world :=
  World ∅ {["/"; "/work"; "/work/out"]} "/work".

(** The instance of the examples, as [__init__] makes it. *)
Definition formula : Tex2img := init "\documentclass{article}" "f.png" "UTF-8".

(** The same instance with the keep-logs attribute on.  The class has
    no method that sets it; it is assigned from outside, under its
    mangled name [_Tex2img__keep_log]. *)
Definition keeping_log (self : Tex2img) : Tex2img :=
  MkTex2img (tex_document self) (output_name self) (encoding self)
    (parsed_data self) (dpi self) true (background self) (foreground self).

End Doubles.

(** ** Further stand-ins and notions for the properties of [image.py] *)

Module Reach.
Import Py OS Image.

(** What the public methods can make of an instance created with the
    given arguments: the three constructor arguments stay, the
    keep-logs attribute stays off, the foreground stays black, the
    background is one of the two texts of [set_transparency], and the
    resolution is an instance of [int]. *)
Definition configured (tex_document output_fn encoding : string)
    (self : Tex2img) : Prop :=
  Image.tex_document self = tex_document /\
  Image.output_name self = output_fn /\
  Image.encoding self = encoding /\
  Image.keep_log self = false /\
  Image.foreground self = "rgb 0 0 0" /\
  (Image.background self = "transparent"
   \/ Image.background self = "rgb 1 1 1") /\
  issubclass (type_of (Image.dpi self)) TInt = true.

(** A machine without [latex] and [dvipng]. *)
Definition no_tools : list string -> world -> option outcome :=
  fun _ _ => None.

(** A disk on which an image of an earlier run is left. *)
Definition disk_with_image : world :=
  set_files {[ "/work/f.png" := "old" ]} Doubles.empty_disk.

End Reach.


(** * [gladtex.py]: the command line front end

    [format_ordinal], [Main.exit], [Main.validate_options],
    [Main.get_input_output], [Main.set_options] and the argument list
    that [main] hands to [Main.run].  These use the standard library
    alone, but for [set_options]: the converter it configures belongs
    to a module that is not part of this development and is a
    parameter.  The option object is the [argparse] namespace that
    [_parse_args] declares: [input] is the positional argument, a
    [str]; an option that was not given is [None]; a switch is a
    [bool].

    A computation of the script writes on the two output streams and
    ends by returning or by an exception that nothing in the script
    catches, [SystemExit] among them. *)

Module Gladtex.
Import OS.

Inductive stop :=
  | SystemExit (status : Z)
  | AttributeError (msg : string)
  | TypeError (msg : string)
  | IndexError (msg : string)
  | UnicodeDecodeError (reason : string)
  | IsADirectoryError
  | NotADirectoryError
  | FileNotFoundError.

Inductive answer (A : Type) :=
  | Return (a : A)
  | Stop (e : stop).
Arguments Return {A} a.
Arguments Stop {A} e.

(** What has been written on [sys.stdout] and [sys.stderr]. *)
Record console := Console {
  stdout : string;
  stderr : string
}.

Definition prog (A : Type) : Type := console -> answer A * console.

Definition ret {A} (a : A) : prog A := fun c => (Return a, c).

Definition stopping {A} (e : stop) : prog A := fun c => (Stop e, c).

Definition bind {A B} (m : prog A) (k : A -> prog B) : prog B :=
  fun c =>
    match m c with
    | (Return a, c') => k a c'
    | (Stop e, c') => (Stop e, c')
    end.

Definition lift {A} (r : answer A) : prog A := fun c => (r, c).

(** [sys.stdout.write(text)], [sys.stderr.write(text)], [print(text)]
    and [sys.exit(status)]. *)
Definition write_stdout (text : string) : prog unit :=
  fun c => (Return tt, Console (stdout c +:+ text) (stderr c)).

Definition write_stderr (text : string) : prog unit :=
  fun c => (Return tt, Console (stdout c) (stderr c +:+ text)).

Definition print (text : string) : prog unit :=
  write_stdout (text +:+ String Text.nl "").

Definition sys_exit {A} (status : Z) : prog A := stopping (SystemExit status).

(** [bool(v)] for an option value, [None] or a [str]. *)
Definition given (v : option string) : bool :=
  match v with
  | Some s => negb (String.eqb s "")
  | None => false
  end.

(** [s.endswith(suffix)] *)
Fixpoint endswith (s suffix : string) : bool :=
  String.eqb s suffix
  || match s with
     | String _ r => endswith r suffix
     | EmptyString => false
     end.

(** [s.split(c)] for a one-character separator. *)
Fixpoint split_char (c : ascii) (s : string) : list string :=
  match s with
  | EmptyString => [EmptyString]
  | String a r =>
      if Ascii.eqb a c then EmptyString :: split_char c r
      else match split_char c r with
           | h :: t => String a h :: t
           | [] => [String a EmptyString]
           end
  end.

(** [seq[i]] for an integer [i]: a negative index counts from the
    end. *)
Definition index {A} (seq : list A) (i : Z) : answer A :=
  let n := Z.of_nat (List.length seq) in
  let j := if (i <? 0)%Z then (i + n)%Z else i in
  if (0 <=? j)%Z && (j <? n)%Z then
    match nth_error seq (Z.to_nat j) with
    | Some x => Return x
    | None => Stop (IndexError "list index out of range")
    end
  else Stop (IndexError "list index out of range").

(** Lines 25-27, for an [int] argument; [%] is the floored remainder,
    as [Z.modulo] for a positive divisor. *)
Definition endings : list string :=
  ["th"; "st"; "nd"; "rd"] ++ repeat "th" 6.

Definition format_ordinal (number : Z) : answer string :=
  match index endings (number mod 10) with
  | Return ending => Return (Py.str_of_Z number +:+ ending)
  | Stop e => Stop e
  end.

(** Lines 99-104, [Main.exit]. *)
Definition exit {A} (text : string) (status : Z) : prog A :=
  bind (write_stderr text) (fun _ =>
  bind (if endswith text (String Text.nl "") then ret tt
        else write_stderr (String Text.nl "")) (fun _ =>
  sys_exit status)).

(** ** The colour pattern of [validate_options] *)

(** One [\d(?:\.\d+)?] at the head of [s]: what follows it.  The
    optional part is greedy; what comes after it in the pattern is a
    comma or the end of the pattern, so giving back digits or the whole
    part never rescues a match. *)
Definition number (s : string) : option string :=
  match s with
  | String c r =>
      if AsciiPattern.is_digit c then
        match r with
        | String p r' =>
            if Ascii.eqb p "."%char then
              match AsciiPattern.group r' with
              | Some (_, rest) => Some rest
              | None => Some r
              end
            else Some r
        | EmptyString => Some r
        end
      else None
  | EmptyString => None
  end.

(** [color_regex.match(s)] as a truth value, for the pattern
    [^\d(?:\.\d+)?,\d(?:\.\d+)?,\d(?:\.\d+)?], on a text in
    ASCII. *)
Definition color_regex_match (s : string) : bool :=
  match
    r1 ← number s;
    r2 ← AsciiPattern.literal "," r1;
    r3 ← number r2;
    r4 ← AsciiPattern.literal "," r3;
    number r4
  with
  | Some _ => true
  | None => false
  end.

(** What the pattern means, read off its text: a decimal is one digit,
    alone or followed by a dot and one or more digits; a text matches
    when it starts with three decimals separated by commas. *)
Definition is_decimal (x : string) : Prop :=
  exists c,
    AsciiPattern.is_digit c = true /\
    (x = String c ""
     \/ exists frac,
          AsciiPattern.is_number frac = true /\ x = String c ("." +:+ frac)).

Definition color_matches (s : string) : Prop :=
  exists r g b tail,
    is_decimal r /\ is_decimal g /\ is_decimal b /\
    s = r +:+ "," +:+ g +:+ "," +:+ b +:+ tail.

(** ** The option object *)

(** The attributes of the namespace that the modelled methods read,
    with the types that [_parse_args] gives them: a switch is a
    [bool], [-r] has the default ['115'], the other options are [None]
    unless given. *)
Record options := Options {
  input : string;
  output : option string;
  directory : option string;
  encoding : option string;
  pandocfilter : bool;
  background_color : option string;
  foreground_color : option string;
  preamble : option string;
  latex_maths_env : option string;
  svg : bool;
  keep_latex_source : bool;
  dpi : string;
  replace_nonascii : bool
}.

Definition color_message (switch : string) : string :=
  "Option " +:+ switch +:+ " requires a string in the format "
    +:+ "num,num,num where num is a broken decimal between 0 "
    +:+ "and 1.".

Definition rejected (v : option string) : bool :=
  match v with
  | Some s => negb (String.eqb s "") && negb (color_regex_match s)
  | None => false
  end.

(** Lines 106-120. *)
Definition validate_options (opts : options) : prog unit :=
  bind (if rejected (background_color opts)
        then bind (print (color_message "-b")) (fun _ => sys_exit 12)
        else ret tt) (fun _ =>
  if rejected (foreground_color opts)
  then bind (print (color_message "-c")) (fun _ => sys_exit 13)
  else ret tt).

(** ** [get_input_output] *)

(** The document that is read: a [str], or [bytes] when the file was
    opened in binary mode. *)
Inductive document :=
  | Text (s : string)
  | Bytes (b : string).

(** A name of something in the working directory: no [/] in it, and
    not empty, [.] or [..]. *)
Definition bare_name (p : string) : bool :=
  (PosixPath.rfind PosixPath.sep p =? -1)%Z
  && negb (String.eqb p "") && negb (String.eqb p ".")
  && negb (String.eqb p "..").

(** The names that the lookup of [p] passes through: what
    [os.path.dirname] gives of [p], applied again and again. *)
Fixpoint passed (n : nat) (p : string) : list string :=
  match n with
  | O => []
  | S n =>
      let d := fst (PosixPath.split p) in
      if String.eqb d "" || String.eqb d p then []
      else d :: passed n d
  end.

(** [open(p)] and [open(p, 'rb')] for reading.  The system refuses a
    name that passes through a regular file, a name that ends in a
    separator and so asks for a directory, a directory, and a name
    that denotes nothing.  Apart from that the name is looked up as
    it is written, as everywhere in [world]: this is what the system
    does for a name without components [.] and [..] and without
    doubled separators, whose directories all exist. *)
Definition open_read (w : world) (p : string) : answer string :=
  if existsb (exists_file w) (passed (String.length p) p)
  then Stop NotADirectoryError
  else if PosixPath.endswith_sep p && negb (PosixPath.only_seps p)
  then
    if bool_decide (resolve w (PosixPath.rstrip p) ∈ dirs w)
    then Stop IsADirectoryError
    else if exists_file w (PosixPath.rstrip p)
    then Stop NotADirectoryError
    else Stop FileNotFoundError
  else
    let a := resolve w p in
    if bool_decide (a ∈ dirs w) then Stop IsADirectoryError
    else match files w !! a with
         | Some content => Return content
         | None => Stop FileNotFoundError
         end.

(** [posixpath.join(a, *p)] *)
Definition posixpath_join (a : string) (p : list string) : string :=
  fold_left PosixPath.join p a.

Definition dirname (p : string) : string := fst (PosixPath.split p).
Definition basename (p : string) : string := snd (PosixPath.split p).

Definition backslash : ascii := Ascii.ascii_of_nat 92.

Definition encoding_hint : string :=
  "Probably this file has a different encoding, try specifying -E.".

Section Reading.

(** The text layer of a file opened in text mode and of [sys.stdin]:
    the bytes decoded with the encoding of the locale and with newlines
    translated, or the message of the [UnicodeDecodeError]. *)
Variable text_of : string -> string + string.

Definition read_text (content : string) : answer document :=
  match text_of content with
  | inl text => Return (Text text)
  | inr reason => Stop (UnicodeDecodeError reason)
  end.

(** Lines 139-144, the body of the [try]. *)
Definition read_file (options : options) (w : world) : answer document :=
  match open_read w (input options) with
  | Return content =>
      if given (encoding options) || pandocfilter options
      then read_text content
      else Return (Bytes content)
  | Stop e => Stop e
  end.

(** Lines 133-153. *)
Definition read_document (options : options) (w : world) (stdin : string)
  : prog document :=
  if String.eqb (input options) "-" then lift (read_text stdin)
  else
    match read_file options w with
    | Stop (UnicodeDecodeError reason) =>
        exit ("Error while reading from " +:+ input options +:+ ": "
                +:+ reason +:+ String Text.nl encoding_hint) 88
    | Stop IsADirectoryError =>
        exit ("Error: cannot open " +:+ input options
                +:+ " for reading: is a directory.") 19
    | Stop FileNotFoundError =>
        exit ("Error: file " +:+ input options +:+ " not found.") 20
    | r => lift r
    end.

(** Lines 156-159: the output name before the directory is cut off. *)
Definition output_of (options : options) : string :=
  if given (output options) then default "-" (output options)
  else if negb (String.eqb (input options) "-")
  then fst (PosixPath.splitext (input options)) +:+ ".html"
  else "-".

(** The messages of the two exceptions that lines 165 and 167 can
    raise. *)
Definition not_a_path : string :=
  "expected str, bytes or os.PathLike object, not builtin_function_or_method".
Definition none_has_no_split : string :=
  "'NoneType' object has no attribute 'split'".

(** Lines 161-165.  On line 165 the name [input] is not a local
    variable: it is the built-in function, which [os.path.dirname]
    refuses. *)
Definition guess_base_path (options : options) (output : string)
  : answer (option string) :=
  let base_path := directory options in
  if negb (given base_path) then
    if given (Gladtex.output options)
       && negb (String.eqb
                  (dirname (default "" (Gladtex.output options))) "")
    then Return (Some (dirname output))
    else if negb (String.eqb (input options) "")
            && negb (String.eqb (dirname (input options)) "")
    then Stop (TypeError not_a_path)
    else Return base_path
  else Return base_path.

(** Lines 166-167. *)
Definition strip_base_path (options : options) (base_path : option string)
  : answer (option string) :=
  if given base_path then
    match directory options with
    | Some d =>
        match split_char backslash d with
        | a :: p => Return (Some (posixpath_join a p))
        | [] => Stop (TypeError "join() missing 1 required argument")
        end
    | None => Stop (AttributeError none_has_no_split)
    end
  else Return base_path.

(** Lines 122-172. *)
Definition get_input_output (options : options) (w : world) (stdin : string)
  : prog (document * option string * string * string) :=
  bind (read_document options w stdin) (fun data =>
  let output := output_of options in
  bind (lift (guess_base_path options output)) (fun base_path =>
  bind (lift (strip_base_path options base_path)) (fun base_path =>
  ret (data, base_path,
       (if pandocfilter options then "pandocfilter" else "html"),
       basename output)))).

End Reading.

(** ** [set_options] *)

(** The names that [gleetex/image.py] binds at module level (lines
    4-32); looking up another name in the module raises. *)
Definition image_names : list string :=
  ["os"; "re"; "subprocess"; "sys"; "remove_all"; "call"; "Tex2img"].

Definition no_attribute (name : string) : string :=
  "module 'gleetex.image' has no attribute '" +:+ name +:+ "'".

Definition image_getattr (name : string) : answer string :=
  if bool_decide (name ∈ image_names) then Return name
  else Stop (AttributeError (no_attribute name)).

Section Converter.

(** The converter that receives the options (an instance of
    [cachedconverter.CachedConverter]) with its two methods, the
    built-in [float] on a [str], and the call of a function of
    [gleetex.image] on a [float]. *)
Variable conv : Type.
Variable pyfloat : Type.

Inductive optval :=
  | OBool (b : bool)
  | OStr (s : string)
  | OFloat (f : pyfloat)
  | OTuple (items : list pyfloat).

Variable set_option : string -> optval -> conv -> answer conv.
Variable set_replace_nonascii : bool -> conv -> answer conv.
Variable float : string -> answer pyfloat.
Variable call_image : string -> pyfloat -> answer pyfloat.

Definition then_do {A B} (r : answer A) (k : A -> answer B) : answer B :=
  match r with
  | Return a => k a
  | Stop e => Stop e
  end.

(** Lines 258-262 for an option that holds text. *)
Definition query_text (name : string) (option : option string) (c : conv)
  : answer conv :=
  match option with
  | Some s =>
      if negb (String.eqb s "") then
        if bool_decide (s ∈ ["True"; "False"; "false"; "true"])
        then set_option name (OBool (String.eqb s "True")) c
        else set_option name (OStr s) c
      else Return c
  | None => Return c
  end.

(** The same lines for a switch: a [bool] is equal to none of the four
    texts. *)
Definition query_switch (name : string) (option : bool) (c : conv)
  : answer conv :=
  if option then set_option name (OBool true) c else Return c.

(** [s[:-2]] *)
Definition drop_last2 (s : string) : string :=
  String.substring 0 (String.length s - 2) s.

(** [tuple(map(float, parts))] *)
Fixpoint floats (parts : list string) : answer (list pyfloat) :=
  match parts with
  | [] => Return []
  | p :: rest =>
      then_do (float p) (fun f =>
      then_do (floats rest) (fun fs => Return (f :: fs)))
  end.

(** Lines 270-273 for one of the two colours. *)
Definition query_color (name : string) (option : option string) (c : conv)
  : answer conv :=
  match option with
  | Some s =>
      if negb (String.eqb s "") then
        then_do (floats (split_char "," s)) (fun t =>
        set_option name (OTuple t) c)
      else Return c
  | None => Return c
  end.

(** Lines 252-275. *)
Definition set_options (c : conv) (options : options) : answer conv :=
  then_do (query_text "preamble" (preamble options) c) (fun c =>
  then_do (query_text "latex_maths_env" (latex_maths_env options) c) (fun c =>
  then_do (query_switch "svg" (svg options) c) (fun c =>
  then_do (query_switch "keep_latex_source" (keep_latex_source options) c)
    (fun c =>
  then_do (if endswith (dpi options) "pt" then
             then_do (image_getattr "fontsize2dpi") (fun fontsize2dpi =>
             then_do (float (drop_last2 (dpi options))) (fun size =>
             call_image fontsize2dpi size))
           else float (dpi options)) (fun dpi =>
  then_do (set_option "dpi" (OFloat dpi) c) (fun c =>
  then_do (query_color "foreground_color" (foreground_color options) c)
    (fun c =>
  then_do (query_color "background_color" (background_color options) c)
    (fun c =>
  if replace_nonascii options then set_replace_nonascii true c
  else Return c)))))))).

End Converter.

(** ** [main] *)

(** Lines 327-331: the argument list that [main] passes to [Main.run],
    from [sys.argv] and [os.environ]. *)
Definition main_args (argv : list string) (environ : gmap string string)
  : answer (list string) :=
  match environ !! "GLADTEX_ARGS" with
  | Some v =>
      match index argv 0 with
      | Return argv0 =>
          let args := [argv0] ++ split_char " " v in
          if negb (bool_decide ("-P" ∈ args)) then
            match index args 0 with
            | Return args0 => Return ([args0] ++ ["-P"] ++ tl args ++ ["-"])
            | Stop e => Stop e
            end
          else Return args
      | Stop e => Stop e
      end
  | None => Return argv
  end.

End Gladtex.

(** ** Notions for the properties of [gladtex.py] *)

Module GladtexNotions.
Import OS Gladtex.

(** A colour option that [validate_options] lets pass: not given,
    empty, or starting as the colour pattern says. *)
Definition accepted (v : option string) : Prop :=
  match v with
  | Some s => s = "" \/ color_matches s
  | None => True
  end.

(** An option text in ASCII.  On such a text the [\d] of a pattern
    stands for the ten ASCII digits and nothing else. *)
Fixpoint is_ascii (s : string) : bool :=
  match s with
  | EmptyString => true
  | String c r => Utf8.between 0 127 c && is_ascii r
  end.

Definition plain (v : option string) : Prop :=
  match v with
  | Some s => is_ascii s = true
  | None => True
  end.

(** Options with nothing but the input name. *)
Definition just (input : string) : options :=
  Options input None None None false None None None None false false "115"
    false.

Definition with_colors (background foreground : option string)
    (o : options) : options :=
  Options (input o) (output o) (directory o) (encoding o) (pandocfilter o)
    background foreground (preamble o) (latex_maths_env o) (svg o)
    (keep_latex_source o) (dpi o) (replace_nonascii o).

Definition with_output (output : option string) (o : options) : options :=
  Options (input o) output (directory o) (encoding o) (pandocfilter o)
    (background_color o) (foreground_color o) (preamble o)
    (latex_maths_env o) (svg o) (keep_latex_source o) (dpi o)
    (replace_nonascii o).

Definition with_directory (directory : option string) (o : options)
  : options :=
  Options (input o) (output o) directory (encoding o) (pandocfilter o)
    (background_color o) (foreground_color o) (preamble o)
    (latex_maths_env o) (svg o) (keep_latex_source o) (dpi o)
    (replace_nonascii o).

Definition with_encoding (encoding : option string) (o : options)
  : options :=
  Options (input o) (output o) (directory o) encoding (pandocfilter o)
    (background_color o) (foreground_color o) (preamble o)
    (latex_maths_env o) (svg o) (keep_latex_source o) (dpi o)
    (replace_nonascii o).

Definition with_dpi (dpi : string) (o : options) : options :=
  Options (input o) (output o) (directory o) (encoding o) (pandocfilter o)
    (background_color o) (foreground_color o) (preamble o)
    (latex_maths_env o) (svg o) (keep_latex_source o) dpi
    (replace_nonascii o).

Definition with_preamble (preamble : option string) (o : options)
  : options :=
  Options (input o) (output o) (directory o) (encoding o) (pandocfilter o)
    (background_color o) (foreground_color o) preamble
    (latex_maths_env o) (svg o) (keep_latex_source o) (dpi o)
    (replace_nonascii o).

(** A converter that records the options it is given, in the order of
    the calls, and a [float] that knows one numeral. *)
Definition recorder : Type := list (string * optval Z).

Definition record_option (name : string) (v : optval Z) (c : recorder)
  : answer recorder := Return (c ++ [(name, v)]).

Definition record_replace (flag : bool) (c : recorder) : answer recorder :=
  Return (c ++ [("replace_nonascii", OBool Z flag)]).

Definition float_115 (s : string) : answer Z :=
  if String.eqb s "115" then Return 115%Z
  else Stop (TypeError "not modelled").

Definition no_function (name : string) (x : Z) : answer Z :=
  Stop (TypeError "not modelled").

Definition quiet : console := Console "" "".

(** A text layer for UTF-8: well-formed bytes are the text. *)
Definition utf8_text (content : string) : string + string :=
  if Utf8.well_formed content then inl content
  else inr "'utf-8' codec can't decode bytes".

(** A disk with a page in the working directory and one in a
    directory below it. *)
Definition disk_with_pages : world :=
  World {[ "/work/a.htex" := "<p><eq>x^2</eq></p>";
           "/work/sub/b.htex" := "<p><eq>y</eq></p>";
           "/work/latin1.htex" := Doubles.bad_byte ]}
    {[ "/"; "/work"; "/work/sub" ]} "/work".

End GladtexNotions.
(** * Properties *)

(** ** Text *)

Module TextFacts.
Import Text.

Lemma split_lines_nonempty s : split_lines s <> [].
Proof.
  destruct s as [|c r]; simpl; [discriminate|].
  destruct (Ascii.eqb c nl); [discriminate|].
  destruct (split_lines r); discriminate.
Qed.

(** Splitting at the newlines and joining with newlines gives the text
    back. *)
Lemma join_split_lines s : join (String nl "") (split_lines s) = s.
Proof.
  induction s as [|c r IH]; simpl; [reflexivity|].
  destruct (Ascii.eqb_spec c nl) as [->|Hc].
  - pose proof (split_lines_nonempty r) as Hne.
    destruct (split_lines r) as [|h t]; [contradiction|].
    simpl in *. now rewrite IH.
  - pose proof (split_lines_nonempty r) as Hne.
    destruct (split_lines r) as [|h t]; [contradiction|].
    destruct t as [|h' t']; simpl in *; now rewrite <- IH.
Qed.

Lemma append_cons x (a b : string) : String x a +:+ b = String x (a +:+ b).
Proof. reflexivity. Qed.

Lemma append_assoc (a b c : string) : (a +:+ b) +:+ c = a +:+ b +:+ c.
Proof.
  induction a as [|x a IH]; [reflexivity|].
  now rewrite !append_cons, IH.
Qed.

Lemma append_nil_r (a : string) : a +:+ "" = a.
Proof.
  induction a as [|x a IH]; [reflexivity|]. now rewrite append_cons, IH.
Qed.

Lemma append_inv_head (a b c : string) : a +:+ b = a +:+ c -> b = c.
Proof.
  induction a as [|x a IH]; intros H; [assumption|].
  rewrite !append_cons in H. injection H as H. auto.
Qed.

Lemma startswith_cons b s a p :
  startswith (String b s) (String a p) = Ascii.eqb a b && startswith s p.
Proof. reflexivity. Qed.

Lemma startswith_append (p s : string) : startswith (p +:+ s) p = true.
Proof.
  induction p as [|a p IH]; [reflexivity|].
  now rewrite append_cons, startswith_cons, Ascii.eqb_refl, IH.
Qed.

End TextFacts.

(** ** [parse_log] *)

Module ParseLogFacts.
Import Text TextFacts ParseLog Doubles.

Lemma loop_cons line rest copy acc :
  loop (line :: rest) copy acc =
    if startswith line "! " then loop rest true acc
    else if copy then
           if is_trailer line then acc else loop rest copy (acc ++ [line])
         else loop rest copy acc.
Proof. reflexivity. Qed.

(** A line that opens with the marker is never appended: whatever the
    log, no line of the extract starts with ["! "]. *)
Lemma loop_keeps_no_marker todo :
  forall copy acc,
    Forall (fun l => startswith l "! " = false) acc ->
    Forall (fun l => startswith l "! " = false) (loop todo copy acc).
Proof.
  induction todo as [|line rest IH]; intros copy acc Hacc; [assumption|].
  rewrite loop_cons.
  destruct (startswith line "! ") eqn:Hm; [now apply IH|].
  destruct copy; [|now apply IH].
  destruct (is_trailer line); [assumption|].
  apply IH. apply Forall_app; split; [assumption|]. now constructor.
Qed.

(** The third trailer test can never succeed where it stands: a line
    that passes it starts with ["! "] and was taken by the first
    branch. *)
Lemma fatal_error_test_is_dead line :
  startswith line "!  ==> Fatal error o" = true -> startswith line "! " = true.
Proof.
  destruct line as [|a [|b r]]; try discriminate.
  - rewrite startswith_cons. now rewrite andb_false_r.
  - rewrite !startswith_cons. intros H. apply andb_prop in H as [-> H].
    apply andb_prop in H as [-> _]. reflexivity.
Qed.

Lemma until_trailer_cons line rest :
  until_trailer (line :: rest) =
    if negb (is_marker line)
       && (startswith line "No pages of" || startswith line "Output written")
    then [] else line :: until_trailer rest.
Proof. reflexivity. Qed.

Lemma filter_cons {A} (f : A -> bool) x l :
  List.filter f (x :: l) = if f x then x :: List.filter f l else List.filter f l.
Proof. reflexivity. Qed.

Lemma loop_copying todo :
  forall acc,
    loop todo true acc =
      acc ++ List.filter (fun l => negb (is_marker l)) (until_trailer todo).
Proof.
  unfold is_marker.
  induction todo as [|line rest IH]; intros acc.
  - simpl. now rewrite app_nil_r.
  - rewrite loop_cons, until_trailer_cons. unfold is_marker.
    destruct (startswith line "! ") eqn:Hm; cbn [negb andb].
    + now rewrite IH, filter_cons, Hm.
    + unfold is_trailer.
      destruct (startswith line "!  ==> Fatal error o") eqn:Hf.
      { apply fatal_error_test_is_dead in Hf. congruence. }
      rewrite orb_false_r.
      destruct (startswith line "No pages of" || startswith line "Output written").
      * simpl. now rewrite app_nil_r.
      * rewrite IH, filter_cons, Hm. cbn [negb]. now rewrite <- app_assoc.
Qed.

(** What the loop of [parse_log] collects. *)
Lemma loop_closed_form lines : loop lines false [] = extract lines.
Proof.
  unfold extract. induction lines as [|line rest IH]; [reflexivity|].
  rewrite loop_cons. cbn [after_first_marker]. unfold is_marker at 2.
  destruct (startswith line "! "); [|assumption].
  now rewrite loop_copying.
Qed.

(** C1: on what [latex] prints for an undefined control sequence, the
    extract is not the region that starts at the first error line: the
    line ["! Undefined control sequence."] is missing from it, also in
    the message of the error that [create_dvi] raises.  And where the
    run ends with the ["Fatal error"] line, that line does not end the
    region: the line after it is part of the extract. *)
Theorem parse_log_misses_the_error_line :
  parse_log (Image.call_message (Image.latex_cmd "f.dvi") [failing_log])
    = Some (unlines ["l.3 $\foo"; "         $"]) /\
  fst (Image.create_dvi utf8_codec (machine latex_fails dvipng_ok) formula
         "f.dvi" empty_disk)
    = Py.Raise (Py.SubprocessError (unlines ["l.3 $\foo"; "         $"])) /\
  parse_log halted_log
    = Some (unlines ["l.3 $\foo"; "Transcript written on f.log."]).
Proof. repeat split; vm_compute; reflexivity. Qed.

End ParseLogFacts.

(** ** The file system *)

Module OSFacts.
Import Py OS.

Lemma remove_result p w :
  OS.remove p w =
    match files w !! resolve w p with
    | Some _ => (Ok tt, set_files (delete (resolve w p) (files w)) w)
    | None => (Raise OSError, w)
    end.
Proof. reflexivity. Qed.

Lemma remove_keeps_cwd p w : cwd (snd (OS.remove p w)) = cwd w.
Proof. rewrite remove_result. now destruct (files w !! resolve w p). Qed.

Lemma remove_keeps_dirs p w : dirs (snd (OS.remove p w)) = dirs w.
Proof. rewrite remove_result. now destruct (files w !! resolve w p). Qed.

(** After [os.remove(p)], returned or raised, there is no file [p]. *)
Lemma remove_absent p w :
  files (snd (OS.remove p w)) !! resolve w p = None.
Proof.
  rewrite remove_result.
  destruct (files w !! resolve w p) eqn:E; simpl; [|assumption].
  apply lookup_delete_eq.
Qed.

(** It touches no other file. *)
Lemma remove_other p w a :
  a <> resolve w p -> files (snd (OS.remove p w)) !! a = files w !! a.
Proof.
  intros Ha. rewrite remove_result.
  destruct (files w !! resolve w p) eqn:E; simpl; [|reflexivity].
  now apply lookup_delete_ne.
Qed.

(** Files only disappear. *)
Lemma remove_shrinks p w a :
  files w !! a = None -> files (snd (OS.remove p w)) !! a = None.
Proof.
  intros Ha. destruct (decide (a = resolve w p)) as [->|Hne].
  - apply remove_absent.
  - now rewrite remove_other.
Qed.

Lemma remove_raises_only_OSError p w e :
  fst (OS.remove p w) = Raise e -> e = OSError.
Proof.
  rewrite remove_result. destruct (files w !! resolve w p); simpl; congruence.
Qed.

End OSFacts.

(** ** [remove_all] *)

Module RemoveAllFacts.
Import Py OS Image OSFacts Doubles.

Lemma remove_each_cons file rest w :
  remove_each (file :: rest) w =
    match OS.remove file w with
    | (Ok _, w') => remove_each rest w'
    | (Raise e, w') => (Raise e, w')
    end.
Proof. reflexivity. Qed.

Lemma remove_each_raises_only_OSError fs :
  forall w e, fst (remove_each fs w) = Raise e -> e = OSError.
Proof.
  induction fs as [|f rest IH]; intros w e; [discriminate|].
  rewrite remove_each_cons.
  destruct (OS.remove f w) as [[[]|e'] w'] eqn:E.
  - apply IH.
  - simpl. intros [= <-].
    apply (remove_raises_only_OSError f w). now rewrite E.
Qed.

(** The guard turns every outcome of the loop into a normal return. *)
Lemma remove_all_eq fs w : remove_all fs w = (Ok tt, snd (remove_each fs w)).
Proof.
  unfold remove_all, try_except.
  destruct (remove_each fs w) as [[[]|e] w'] eqn:E; [reflexivity|].
  assert (e = OSError) as ->.
  { apply (remove_each_raises_only_OSError fs w). now rewrite E. }
  reflexivity.
Qed.

Lemma remove_each_keeps_cwd fs : forall w, cwd (snd (remove_each fs w)) = cwd w.
Proof.
  induction fs as [|f rest IH]; intros w; [reflexivity|].
  rewrite remove_each_cons. pose proof (remove_keeps_cwd f w) as Hc.
  destruct (OS.remove f w) as [[[]|e] w']; simpl in *; [|assumption].
  now rewrite IH.
Qed.

Lemma remove_each_keeps_dirs fs :
  forall w, dirs (snd (remove_each fs w)) = dirs w.
Proof.
  induction fs as [|f rest IH]; intros w; [reflexivity|].
  rewrite remove_each_cons. pose proof (remove_keeps_dirs f w) as Hc.
  destruct (OS.remove f w) as [[[]|e] w']; simpl in *; [|assumption].
  now rewrite IH.
Qed.

Lemma remove_each_shrinks fs a :
  forall w, files w !! a = None -> files (snd (remove_each fs w)) !! a = None.
Proof.
  induction fs as [|f rest IH]; intros w Ha; [assumption|].
  rewrite remove_each_cons. pose proof (remove_shrinks f w a Ha) as Hs.
  destruct (OS.remove f w) as [[[]|e] w']; simpl in *; [|assumption].
  now apply IH.
Qed.

(** Files that are not named in the list are untouched. *)
Lemma remove_each_other fs a :
  forall w, (forall f, In f fs -> a <> resolve w f) ->
            files (snd (remove_each fs w)) !! a = files w !! a.
Proof.
  induction fs as [|f rest IH]; intros w Hne; [reflexivity|].
  rewrite remove_each_cons.
  pose proof (remove_other f w a (Hne f (or_introl eq_refl))) as Ho.
  pose proof (remove_keeps_cwd f w) as Hc.
  destruct (OS.remove f w) as [[[]|e] w']; simpl in *; [|assumption].
  rewrite IH; [assumption|].
  intros g Hg. unfold resolve. rewrite Hc. apply Hne. now right.
Qed.

(** The first file of the list is gone afterwards, in every case. *)
Lemma remove_each_head_absent f rest w :
  files (snd (remove_each (f :: rest) w)) !! resolve w f = None.
Proof.
  rewrite remove_each_cons. pose proof (remove_absent f w) as Ha.
  destruct (OS.remove f w) as [[[]|e] w']; simpl in *; [|assumption].
  now apply remove_each_shrinks.
Qed.

(** The second one is gone provided the first could be removed. *)
Lemma remove_each_second_absent f g rest w :
  is_Some (files w !! resolve w f) ->
  files (snd (remove_each (f :: g :: rest) w)) !! resolve w g = None.
Proof.
  intros [c Hf]. rewrite remove_each_cons, remove_result, Hf.
  pose proof (remove_each_head_absent g rest
                (set_files (delete (resolve w f) (files w)) w)) as H.
  exact H.
Qed.

(** When the loop fails at [f], what follows [f] is not visited. *)
Lemma remove_each_stops pre :
  forall f post w w1,
    remove_each pre w = (Ok tt, w1) ->
    fst (OS.remove f w1) = Raise OSError ->
    remove_each (pre ++ f :: post) w = (Raise OSError, w1).
Proof.
  induction pre as [|p pre IH]; intros f post w w1 Hpre Hf.
  - injection Hpre as <-. simpl app. rewrite remove_each_cons.
    rewrite remove_result in *.
    destruct (files w !! resolve w f); [discriminate|reflexivity].
  - simpl app. rewrite remove_each_cons in *.
    destruct (OS.remove p w) as [[[]|e] w']; [|discriminate].
    now apply IH.
Qed.

(** C10: [remove_all] returns normally whatever the list; and when the
    removal of some file [f] of the list fails, the call ends there:
    the world is the one in which the files before [f] were removed, so
    every file listed after [f] that exists then still exists when
    [remove_all] returns. *)
Theorem remove_all_swallows_and_stops fs w :
  fst (remove_all fs w) = Ok tt /\
  forall pre f post w1,
    fs = pre ++ f :: post ->
    remove_each pre w = (Ok tt, w1) ->
    fst (OS.remove f w1) = Raise OSError ->
    snd (remove_all fs w) = w1 /\
    forall g, In g post ->
      exists_file w1 g = true ->
      exists_file (snd (remove_all fs w)) g = true.
Proof.
  rewrite remove_all_eq. split; [reflexivity|].
  intros pre f post w1 -> Hpre Hf. simpl snd.
  rewrite (remove_each_stops pre f post w w1 Hpre Hf). simpl.
  split; [reflexivity|]. intros g _ Hg. exact Hg.
Qed.

(** [remove_all("/work/a.tex", "/work/b.aux", "/work/c.log")] where
    [b.aux] does not exist: [a.tex] is removed and [c.log] stays. *)
Lemma remove_all_swallows_and_stops_witness :
  let disk := set_files (<["/work/a.tex" := "a"]> (<["/work/c.log" := "c"]> ∅))
                empty_disk in
  fst (remove_all ["a.tex"; "b.aux"; "c.log"] disk) = Ok tt /\
  exists_file (snd (remove_all ["a.tex"; "b.aux"; "c.log"] disk)) "a.tex"
    = false /\
  exists_file (snd (remove_all ["a.tex"; "b.aux"; "c.log"] disk)) "c.log"
    = true.
Proof.
  intros disk.
  destruct (remove_all_swallows_and_stops ["a.tex"; "b.aux"; "c.log"] disk)
    as [Hok Hstop].
  split; [exact Hok|].
  destruct (Hstop ["a.tex"] "b.aux" ["c.log"]
              (set_files (<["/work/c.log" := "c"]> ∅) empty_disk))
    as [Hw Hpost].
  - reflexivity.
  - vm_compute. reflexivity.
  - vm_compute. reflexivity.
  - split.
    + rewrite Hw. vm_compute. reflexivity.
    + apply Hpost; [simpl; auto|]. vm_compute. reflexivity.
Defined.

End RemoveAllFacts.

(** ** [call] *)

Module CallFacts.
Import Py OS Image Doubles.

Lemma decode_each_well_formed ds :
  Forall (fun d => Utf8.well_formed d = true) ds ->
  decode_each ds = Ok (List.filter (fun d => negb (String.eqb d "")) ds).
Proof.
  induction 1 as [|d ds Hd _ IH]; [reflexivity|].
  simpl. destruct (String.eqb d ""); simpl; [assumption|].
  unfold Utf8.decode. rewrite Hd. simpl. now rewrite IH.
Qed.

Lemma decode_each_ill_formed ds :
  Exists (fun d => Utf8.well_formed d = false) ds ->
  decode_each ds = Raise UnicodeDecodeError.
Proof.
  induction ds as [|d ds IH]; intros H; [inversion H|].
  simpl. destruct (String.eqb_spec d "") as [->|Hne].
  - apply IH. apply Exists_cons in H as [Hd|Ht]; [discriminate Hd|exact Ht].
  - unfold Utf8.decode. destruct (Utf8.well_formed d) eqn:Hd; simpl.
    + rewrite IH; [reflexivity|].
      apply Exists_cons in H as [Hd'|Ht]; [congruence|exact Ht].
    + reflexivity.
Qed.

Section WithMachine.
Variable exec : list string -> world -> option outcome.

Lemma call_world cmd w proc :
  exec cmd w = Some proc -> snd (call exec cmd w) = left_by proc w.
Proof.
  intros H. unfold call. rewrite H.
  destruct (decode_each _); [|reflexivity].
  now destruct (negb _).
Qed.

Lemma call_not_started cmd w :
  exec cmd w = None -> call exec cmd w = (Raise OSError, w).
Proof. intros H. unfold call. now rewrite H. Qed.

Lemma call_decoded cmd w proc :
  exec cmd w = Some proc ->
  Utf8.well_formed (out_stdout proc) = true ->
  Utf8.well_formed (out_stderr proc) = true ->
  call exec cmd w =
    (if (out_status proc =? 0)%Z then Ok (kept_streams proc)
     else Raise (SubprocessError (call_message cmd (kept_streams proc))),
     left_by proc w).
Proof.
  intros H Ho He. unfold call. rewrite H.
  rewrite decode_each_well_formed by (repeat constructor; assumption).
  fold (kept_streams proc). now destruct (out_status proc =? 0)%Z.
Qed.

Lemma call_undecodable cmd w proc :
  exec cmd w = Some proc ->
  Utf8.well_formed (out_stdout proc) = false \/
  Utf8.well_formed (out_stderr proc) = false ->
  call exec cmd w = (Raise UnicodeDecodeError, left_by proc w).
Proof.
  intros H Hbad. unfold call. rewrite H.
  rewrite decode_each_ill_formed; [reflexivity|].
  destruct Hbad; [left|right; left]; assumption.
Qed.

(** C7, amended: when what the program wrote on both streams is
    well-formed UTF-8, [call] raises exactly when the exit status is
    not zero (a [SubprocessError] carrying the command and the output),
    and on status zero it returns the decoded non-empty streams. *)
Theorem call_raises_iff_nonzero_status cmd w proc :
  exec cmd w = Some proc ->
  Utf8.well_formed (out_stdout proc) = true ->
  Utf8.well_formed (out_stderr proc) = true ->
  (raised (fst (call exec cmd w)) <-> out_status proc <> 0%Z) /\
  (out_status proc = 0%Z -> fst (call exec cmd w) = Ok (kept_streams proc)) /\
  (out_status proc <> 0%Z ->
   fst (call exec cmd w) =
     Raise (SubprocessError (call_message cmd (kept_streams proc)))).
Proof.
  intros H Ho He. rewrite (call_decoded cmd w proc H Ho He). simpl.
  destruct (Z.eqb_spec (out_status proc) 0) as [E|E]; simpl.
  - split; [split; [intros []|intros Hn; exact (Hn E)]|].
    split; [reflexivity|intros Hn; destruct (Hn E)].
  - split; [split; [intros _; exact E|intros _; exact I]|].
    split; [intros Hz; destruct (E Hz)|reflexivity].
Qed.

End WithMachine.

Lemma call_raises_iff_nonzero_status_witness :
  fst (call (machine latex_ok dvipng_ok) ["latex"; "f.tex"] empty_disk)
    = Ok ["This is pdfTeX"] /\
  fst (call (machine latex_fails dvipng_ok) ["latex"; "f.tex"] empty_disk)
    = Raise (SubprocessError
               ("Error while executing latex f.tex" +:+ failing_log)).
Proof.
  split.
  - apply (call_raises_iff_nonzero_status (machine latex_ok dvipng_ok)
             ["latex"; "f.tex"] empty_disk (latex_ok empty_disk));
      reflexivity.
  - apply (call_raises_iff_nonzero_status (machine latex_fails dvipng_ok)
             ["latex"; "f.tex"] empty_disk (latex_fails empty_disk));
      try reflexivity.
    vm_compute. discriminate.
Defined.

(** C7 as stated fails: a program that prints a byte that is not
    UTF-8 and exits with status 0 makes [call] raise
    ([UnicodeDecodeError], from the comprehension that decodes the
    streams), so raising is not equivalent to a non-zero status. *)
Lemma call_raises_on_status_zero :
  machine garbled_ok garbled_ok ["latex"; "f.tex"] empty_disk
    = Some (garbled_ok empty_disk) /\
  out_status (garbled_ok empty_disk) = 0%Z /\
  fst (call (machine garbled_ok garbled_ok) ["latex"; "f.tex"] empty_disk)
    = Raise UnicodeDecodeError /\
  ~ (raised (fst (call (machine garbled_ok garbled_ok) ["latex"; "f.tex"]
                    empty_disk))
     <-> out_status (garbled_ok empty_disk) <> 0%Z).
Proof.
  split; [reflexivity|]. split; [reflexivity|]. split; [reflexivity|].
  intros [Hraise _]. apply Hraise; [exact I|reflexivity].
Qed.

End CallFacts.

(** ** The option setters *)

Module SetterFacts.
Import Py OS Image Doubles.

(** The class test of [__check_rgb] raises before anything is looked
    at: its second argument is a list. *)
Lemma check_rgb_always_raises rgb_list :
  check_rgb rgb_list = Raise (TypeError isinstance_msg).
Proof. reflexivity. Qed.

Lemma color_setters_always_raise str_other self rgb_list :
  set_background_color str_other self rgb_list = Raise (TypeError isinstance_msg)
  /\ set_foreground_color str_other self rgb_list
     = Raise (TypeError isinstance_msg).
Proof. split; reflexivity. Qed.

(** C4: the triple [[0.5, 0, 1]], as a list and as a tuple, is a
    colour, and both setters reject it with a [TypeError]; no colour is
    ever set. *)
Theorem color_setters_reject_a_valid_triple :
  let rgb := [PyFloat (1 # 2); PyInt 0; PyInt 1] in
  set_background_color no_str formula (PyList rgb)
    = Raise (TypeError isinstance_msg) /\
  set_foreground_color no_str formula (PyList rgb)
    = Raise (TypeError isinstance_msg) /\
  set_background_color no_str formula (PyTuple rgb)
    = Raise (TypeError isinstance_msg) /\
  set_foreground_color no_str formula (PyTuple rgb)
    = Raise (TypeError isinstance_msg).
Proof. repeat split. Qed.

Lemma isinstance_int v :
  isinstance v (PyType TInt) =
    Ok (match v with PyInt _ | PyBool _ => true | _ => false end).
Proof. now destruct v. Qed.

(** C8, amended: [set_dpi] accepts exactly the instances of [int]:
    every integer, whatever its sign, and the two booleans; the value
    is stored as it is and becomes the argument of [-D] in the
    [dvipng] command.  Every other value, a positive float included, is
    rejected with a [TypeError]. *)
Theorem set_dpi_accepts_exactly_int str_other self :
  (forall z, set_dpi self (PyInt z) = Ok (with_dpi (PyInt z) self)) /\
  (forall b, set_dpi self (PyBool b) = Ok (with_dpi (PyBool b) self)) /\
  (forall v, (forall z, v <> PyInt z) -> (forall b, v <> PyBool b) ->
             set_dpi self v = Raise (TypeError "Dpi must be an integer")) /\
  (forall v self' dvi_fn,
     set_dpi self v = Ok self' ->
     dpi self' = v /\
     nth_error (dvipng_cmd str_other self' dvi_fn) 3 = Some (str str_other v)).
Proof.
  repeat split.
  - intros v Hz Hb. unfold set_dpi. rewrite isinstance_int.
    destruct v; try reflexivity; [destruct (Hb b)|destruct (Hz z)]; reflexivity.
  - revert H. unfold set_dpi. rewrite isinstance_int.
    destruct v; simpl; intros [= <-]; reflexivity.
  - revert H. unfold set_dpi. rewrite isinstance_int.
    destruct v; simpl; intros [= <-]; reflexivity.
Qed.

Lemma set_dpi_accepts_exactly_int_witness :
  set_dpi formula (PyFloat (193 # 2)) = Raise (TypeError "Dpi must be an integer")
  /\ nth_error (dvipng_cmd no_str (with_dpi (PyInt 115) formula) "f.dvi") 3
     = Some "115".
Proof.
  destruct (set_dpi_accepts_exactly_int no_str formula)
    as (Hint & _ & Hother & Hstored).
  split.
  - apply Hother; discriminate.
  - apply (Hstored (PyInt 115)). apply Hint.
Defined.

(** C8 as stated fails in both directions: [-5] and [0] are not
    positive and are accepted, [96.5] is a positive number and is
    rejected. *)
Lemma set_dpi_ignores_the_sign :
  ~ (forall v,
       (is_positive_number v = true ->
        exists self', set_dpi formula v = Ok self') /\
       (is_positive_number v = false -> raised (set_dpi formula v)))
  /\ set_dpi formula (PyInt (-5)) = Ok (with_dpi (PyInt (-5)) formula)
  /\ set_dpi formula (PyInt 0) = Ok (with_dpi (PyInt 0) formula)
  /\ is_positive_number (PyFloat (193 # 2)) = true
  /\ set_dpi formula (PyFloat (193 # 2))
     = Raise (TypeError "Dpi must be an integer").
Proof.
  split; [|repeat split].
  intros H. destruct (H (PyInt (-5))) as [_ Hneg].
  exact (Hneg eq_refl).
Qed.

End SetterFacts.

(** ** The geometry pattern *)

Module AsciiPatternFacts.
Import Text TextFacts AsciiPattern.

Lemma option_bind_Some {A B} (x : A) (k : A -> option B) :
  Some x ≫= k = k x.
Proof. reflexivity. Qed.

Lemma literal_cons a p b s :
  literal (String a p) (String b s) =
    if Ascii.eqb a b then literal p s else None.
Proof. reflexivity. Qed.

Lemma literal_spec p : forall s r, literal p s = Some r <-> s = p +:+ r.
Proof.
  induction p as [|a p IH]; intros s r.
  - simpl. split; [intros [= ->]; reflexivity|intros ->; reflexivity].
  - destruct s as [|b s].
    + simpl. split; [discriminate|]. rewrite append_cons. discriminate.
    + rewrite literal_cons, append_cons.
      destruct (Ascii.eqb_spec a b) as [->|Hab].
      * rewrite IH. split; [intros ->; reflexivity|intros [= ->]; reflexivity].
      * split; [discriminate|]. intros [= <- _]. contradiction.
Qed.

Lemma literal_append p r : literal p (p +:+ r) = Some r.
Proof. now apply literal_spec. Qed.

Lemma span_digits_cons c r :
  span_digits (String c r) =
    if is_digit c then (String c (fst (span_digits r)), snd (span_digits r))
    else (EmptyString, String c r).
Proof. simpl. destruct (is_digit c); [|reflexivity]. now destruct (span_digits r). Qed.

(** The run is made of digits, the rest does not start with one, and
    together they are the text. *)
Lemma ascii_span_digits_spec s :
  s = fst (span_digits s) +:+ snd (span_digits s)
  /\ all_digits (fst (span_digits s)) = true
  /\ digit_ahead (snd (span_digits s)) = false.
Proof.
  induction s as [|c r (IH1 & IH2 & IH3)]; [repeat split|].
  rewrite span_digits_cons. destruct (is_digit c) eqn:Hc; simpl.
  - rewrite append_cons, <- IH1, Hc, IH2. repeat split. assumption.
  - rewrite Hc. repeat split.
Qed.

(** Conversely, a run of digits followed by something that is not a
    digit is found as it is. *)
Lemma ascii_span_digits_append d :
  forall tail,
    all_digits d = true -> digit_ahead tail = false ->
    span_digits (d +:+ tail) = (d, tail).
Proof.
  induction d as [|c d IH]; intros tail Hd Ht.
  - change ("" +:+ tail) with tail.
    destruct tail as [|c r]; [reflexivity|].
    rewrite span_digits_cons. simpl in Ht. now rewrite Ht.
  - simpl in Hd. apply andb_prop in Hd as [Hc Hd].
    rewrite append_cons, span_digits_cons, Hc, (IH tail Hd Ht). reflexivity.
Qed.

Lemma ascii_all_digits_append a b :
  all_digits (a +:+ b) = all_digits a && all_digits b.
Proof.
  induction a as [|c a IH]; [reflexivity|].
  rewrite append_cons. simpl. now rewrite IH, andb_assoc.
Qed.

Lemma ascii_group_spec s d rest :
  group s = Some (d, rest) <->
  s = d +:+ rest /\ is_number d = true /\ digit_ahead rest = false.
Proof.
  unfold group, is_number.
  destruct (ascii_span_digits_spec s) as (Hs & Hd & Hr).
  destruct (span_digits s) as [run rest'] eqn:E. simpl in *.
  split.
  - destruct run as [|c run]; [discriminate|]. intros [= <- <-].
    repeat split; assumption.
  - intros (-> & Hn & Hrest). apply andb_prop in Hn as [Hne Hn].
    rewrite (ascii_span_digits_append d rest Hn Hrest) in E.
    injection E as <- <-.
    destruct d; [discriminate Hne|reflexivity].
Qed.

(** A number followed by a blank is read in full. *)
Lemma ascii_group_before_blank d p r :
  is_number d = true -> group (d +:+ String " " p +:+ r) = Some (d, String " " p +:+ r).
Proof. intros Hd. apply ascii_group_spec. repeat split. assumption. Qed.

(** A number followed by anything is read together with the digits
    that follow it. *)
Lemma ascii_group_greedy w tail :
  is_number w = true ->
  exists more rest,
    group (w +:+ tail) = Some (w +:+ more, rest)
    /\ tail = more +:+ rest /\ is_number (w +:+ more) = true.
Proof.
  intros Hw. destruct (ascii_span_digits_spec tail) as (Ht & Hd & Hr).
  exists (fst (span_digits tail)), (snd (span_digits tail)).
  assert (is_number (w +:+ fst (span_digits tail)) = true) as Hn.
  { unfold is_number in *. apply andb_prop in Hw as [Hne Hw].
    rewrite ascii_all_digits_append, Hw, Hd.
    destruct w; [discriminate Hne|reflexivity]. }
  split; [|split; assumption].
  apply ascii_group_spec. split; [|split; assumption].
  now rewrite append_assoc, <- Ht.
Qed.

End AsciiPatternFacts.

(** ** Characters of a text *)

Module Utf8Facts.
Import Text TextFacts Utf8.

Lemma chars_cons b r :
  chars (String b r) =
    if boundary r then String b "" :: chars r
    else match chars r with
         | h :: t => String b h :: t
         | [] => [String b ""]
         end.
Proof. reflexivity. Qed.

Lemma cat_app l1 l2 : cat (l1 ++ l2) = cat l1 +:+ cat l2.
Proof.
  induction l1 as [|p l1 IH]; [reflexivity|].
  simpl. now rewrite IH, append_assoc.
Qed.

(** The characters, put together, are the text. *)
Lemma cat_chars s : cat (chars s) = s.
Proof.
  induction s as [|b r IH]; [reflexivity|].
  rewrite chars_cons. destruct (boundary r) eqn:Hb.
  - simpl. now rewrite append_cons, IH.
  - destruct (chars r) as [|h t].
    + simpl in IH. subst r. discriminate Hb.
    + simpl in *. now rewrite append_cons, IH.
Qed.

Lemma chars_nil s : chars s = [] -> s = "".
Proof. intros H. rewrite <- (cat_chars s), H. reflexivity. Qed.

(** A text that starts at a character can be split off. *)
Lemma chars_app a b :
  boundary b = true -> chars (a +:+ b) = chars a ++ chars b.
Proof.
  intros Hb. induction a as [|x a IH]; [reflexivity|].
  rewrite append_cons, !chars_cons, IH.
  destruct a as [|y a'].
  - change ("" +:+ b) with b. now rewrite Hb.
  - rewrite append_cons.
    change (boundary (String y (a' +:+ b))) with (boundary (String y a')).
    destruct (boundary (String y a')); [reflexivity|].
    destruct (chars (String y a')) as [|h t] eqn:E; [|reflexivity].
    apply chars_nil in E. discriminate E.
Qed.

Lemma chars_chunk c : is_chunk c = true -> chars c = [c].
Proof.
  destruct c as [|b r]; [discriminate|]. simpl is_chunk.
  revert b. induction r as [|x r IH]; intros b H; [reflexivity|].
  simpl in H. apply andb_prop in H as [Hx Hr].
  rewrite chars_cons, (IH x Hr).
  unfold boundary. now rewrite Hx.
Qed.

(** Every piece of [chars] has the shape of a character, every piece
    but the first starts at a character, and the first starts as the
    text does. *)
Lemma chars_shape s :
  Forall (fun c => is_chunk c = true) (chars s)
  /\ Forall (fun c => boundary c = true) (tl (chars s))
  /\ match chars s with
     | h :: _ => boundary h = boundary s
     | [] => True
     end.
Proof.
  induction s as [|b r (IH1 & IH2 & IH3)]; [repeat split; constructor|].
  rewrite chars_cons. destruct (boundary r) eqn:Hb.
  - repeat split; [constructor; [reflexivity|assumption]|].
    cbn [tl]. destruct (chars r) as [|h t]; [constructor|].
    constructor; [congruence|exact IH2].
  - destruct (chars r) as [|h t]; [repeat split; repeat constructor|].
    repeat split; [|exact IH2].
    apply Forall_cons in IH1 as [Hh Ht].
    constructor; [|assumption].
    destruct h as [|y h']; [discriminate Hh|].
    simpl in *. apply negb_false_iff in IH3. now rewrite IH3.
Qed.

Lemma chars_head_boundary s h t :
  chars s = h :: t -> boundary h = boundary s.
Proof.
  intros E. destruct (chars_shape s) as (_ & _ & H). now rewrite E in H.
Qed.

Lemma boundary_append c r :
  c <> "" -> boundary (c +:+ r) = boundary c.
Proof. destruct c; [contradiction|reflexivity]. Qed.

Lemma is_chunk_nonempty c : is_chunk c = true -> c <> "".
Proof. destruct c; [discriminate|discriminate]. Qed.

(** Characters that are put together are found again. *)
Lemma chars_cat l :
  forall c,
    is_chunk c = true ->
    Forall (fun x => is_chunk x = true /\ boundary x = true) l ->
    chars (cat (c :: l)) = c :: l.
Proof.
  induction l as [|c' l IH]; intros c Hc Hl.
  - simpl. rewrite append_nil_r. now apply chars_chunk.
  - apply Forall_cons in Hl as [[Hc' Hb'] Hl].
    change (cat (c :: c' :: l)) with (c +:+ cat (c' :: l)).
    rewrite chars_app, (chars_chunk c Hc), (IH c' Hc' Hl); [reflexivity|].
    simpl. now rewrite (boundary_append c' _ (is_chunk_nonempty c' Hc')).
Qed.

(** The characters of a text, cut in two. *)
Lemma chars_split s l1 l2 :
  chars s = l1 ++ l2 ->
  chars (cat l1) = l1 /\ chars (cat l2) = l2
  /\ (l1 <> [] -> boundary (cat l2) = true).
Proof.
  intros E. destruct (chars_shape s) as (Hc & Hb & _). rewrite E in Hc, Hb.
  destruct l1 as [|c l1].
  - simpl in *. subst l2. now rewrite cat_chars.
  - simpl in Hb. apply Forall_cons in Hc as [Hc Hrest].
    assert (Forall (fun x => is_chunk x = true /\ boundary x = true)
              (l1 ++ l2)) as Hall.
    { apply Forall_forall. intros x Hx.
      split; [exact (proj1 (Forall_forall _ _) Hrest x Hx)
             |exact (proj1 (Forall_forall _ _) Hb x Hx)]. }
    apply Forall_app in Hall as [H1 H2].
    split; [now apply chars_cat|].
    destruct l2 as [|c2 l2]; [repeat split|].
    apply Forall_cons in H2 as [[Hc2 Hb2] H2].
    split; [now apply chars_cat|]. intros _.
    simpl. now rewrite (boundary_append c2 _ (is_chunk_nonempty c2 Hc2)).
Qed.

Lemma continuation_is_no_lead b :
  is_continuation b = true ->
  between 0 127 b = false /\ between 194 223 b = false
  /\ between 224 239 b = false /\ between 240 244 b = false.
Proof.
  unfold is_continuation, between. intros H.
  apply andb_prop in H as [Hlo Hhi].
  apply N.leb_le in Hlo, Hhi.
  repeat split; apply andb_false_iff;
    ((left; apply N.leb_gt; lia) || (right; apply N.leb_gt; lia)).
Qed.

(** A well-formed text starts at a character. *)
Lemma well_formed_boundary s : well_formed s = true -> boundary s = true.
Proof.
  destruct s as [|b r]; [reflexivity|]. intros H.
  unfold boundary. destruct (is_continuation b) eqn:Hb; [|reflexivity].
  destruct (continuation_is_no_lead b Hb) as (H1 & H2 & H3 & H4).
  simpl in H. rewrite H1 in H.
  destruct r as [|b1 s2]; [discriminate H|]. rewrite H2 in H.
  destruct s2 as [|b2 s3]; [discriminate H|]. rewrite H3 in H.
  destruct s3 as [|b3 s4]; [discriminate H|]. rewrite H4 in H.
  discriminate H.
Qed.

End Utf8Facts.

(** ** The geometry pattern *)

Module DvipngRegexFacts.
Import Text TextFacts AsciiPattern AsciiPatternFacts Utf8 Utf8Facts.
Import DvipngRegex.

Section WithDigits.
Variable decimal : N -> bool.

Lemma is_digit_boundary c : is_digit decimal c = true -> boundary c = true.
Proof.
  unfold is_digit. intros H. apply andb_prop in H as [H _].
  now apply well_formed_boundary.
Qed.

(** A blank is no digit, whatever the database. *)
Lemma blank_is_no_digit : is_digit decimal " " = false.
Proof. reflexivity. Qed.

Lemma span_chars_cons c rest :
  span_chars decimal (c :: rest) =
    if is_digit decimal c
    then (c :: fst (span_chars decimal rest), snd (span_chars decimal rest))
    else ([], c :: rest).
Proof.
  simpl. destruct (is_digit decimal c); [|reflexivity].
  now destruct (span_chars decimal rest).
Qed.

Lemma span_chars_spec cs :
  cs = fst (span_chars decimal cs) ++ snd (span_chars decimal cs)
  /\ forallb (is_digit decimal) (fst (span_chars decimal cs)) = true
  /\ match snd (span_chars decimal cs) with
     | c :: _ => is_digit decimal c = false
     | [] => True
     end.
Proof.
  induction cs as [|c rest (IH1 & IH2 & IH3)]; [repeat split|].
  rewrite span_chars_cons. destruct (is_digit decimal c) eqn:Hc; simpl.
  - rewrite <- IH1, Hc, IH2. repeat split. assumption.
  - repeat split. assumption.
Qed.

Lemma span_chars_app ds :
  forall rest,
    forallb (is_digit decimal) ds = true ->
    match rest with
    | c :: _ => is_digit decimal c = false
    | [] => True
    end ->
    span_chars decimal (ds ++ rest) = (ds, rest).
Proof.
  induction ds as [|c ds IH]; intros rest Hd Hr.
  - destruct rest as [|c r]; [reflexivity|].
    simpl app. rewrite span_chars_cons. now rewrite Hr.
  - simpl in Hd. apply andb_prop in Hd as [Hc Hd].
    simpl app. rewrite span_chars_cons, Hc, (IH rest Hd Hr). reflexivity.
Qed.

Lemma span_digits_eq s :
  span_digits decimal s
    = (cat (fst (span_chars decimal (chars s))),
       cat (snd (span_chars decimal (chars s)))).
Proof. unfold span_digits. now destruct (span_chars decimal (chars s)). Qed.

(** The run is made of digits, the rest does not start with one, and
    together they are the text. *)
Lemma span_digits_spec s :
  s = fst (span_digits decimal s) +:+ snd (span_digits decimal s)
  /\ all_digits decimal (fst (span_digits decimal s)) = true
  /\ digit_ahead decimal (snd (span_digits decimal s)) = false
  /\ (fst (span_digits decimal s) <> ""
      -> boundary (snd (span_digits decimal s)) = true).
Proof.
  rewrite span_digits_eq. cbn [fst snd].
  destruct (span_chars_spec (chars s)) as (Hs & Hd & Hr).
  destruct (chars_split s _ _ Hs) as (H1 & H2 & H3).
  split; [|split; [|split]].
  - now rewrite <- cat_app, <- Hs, cat_chars.
  - unfold all_digits. now rewrite H1.
  - unfold digit_ahead. rewrite H2.
    destruct (snd (span_chars decimal (chars s))); [reflexivity|assumption].
  - intros Hne. apply H3. intros E. rewrite E in Hne. now apply Hne.
Qed.

(** Conversely, a run of digits followed by something that is not a
    digit is found as it is. *)
Lemma span_digits_append d tail :
  all_digits decimal d = true -> digit_ahead decimal tail = false ->
  boundary tail = true ->
  span_digits decimal (d +:+ tail) = (d, tail).
Proof.
  intros Hd Ht Hb. rewrite span_digits_eq, (chars_app d tail Hb).
  rewrite (span_chars_app (chars d) (chars tail) Hd).
  - cbn [fst snd]. now rewrite !cat_chars.
  - unfold digit_ahead in Ht. destruct (chars tail); [exact I|assumption].
Qed.

Lemma all_digits_append a b :
  boundary b = true ->
  all_digits decimal (a +:+ b)
    = all_digits decimal a && all_digits decimal b.
Proof.
  intros Hb. unfold all_digits. rewrite (chars_app a b Hb).
  apply forallb_app.
Qed.

Lemma all_digits_boundary s :
  all_digits decimal s = true -> boundary s = true.
Proof.
  unfold all_digits. intros H.
  destruct (chars s) as [|h t] eqn:E.
  - apply chars_nil in E. now subst s.
  - rewrite <- (chars_head_boundary s h t E).
    simpl in H. apply andb_prop in H as [H _]. now apply is_digit_boundary.
Qed.

Lemma group_spec s d rest :
  group decimal s = Some (d, rest) <->
  s = d +:+ rest /\ is_number decimal d = true
  /\ digit_ahead decimal rest = false /\ boundary rest = true.
Proof.
  unfold group, is_number.
  destruct (span_digits_spec s) as (Hs & Hd & Hr & Hb).
  destruct (span_digits decimal s) as [run rest'] eqn:E. simpl in *.
  split.
  - destruct run as [|c run]; [discriminate|]. intros [= <- <-].
    repeat split; try assumption. now apply Hb.
  - intros (-> & Hn & Hrest & Hbound). apply andb_prop in Hn as [Hne Hn].
    rewrite (span_digits_append d rest Hn Hrest Hbound) in E.
    injection E as <- <-.
    destruct d; [discriminate Hne|reflexivity].
Qed.

(** A number followed by a blank is read in full. *)
Lemma group_before_blank d r :
  is_number decimal d = true -> boundary r = true ->
  group decimal (d +:+ String " " r) = Some (d, String " " r).
Proof.
  intros Hd Hr. apply group_spec.
  split; [reflexivity|]. split; [assumption|]. split; [|reflexivity].
  unfold digit_ahead. rewrite chars_cons, Hr. apply blank_is_no_digit.
Qed.

(** A number followed by anything is read together with the digits
    that follow it. *)
Lemma group_greedy w tail :
  is_number decimal w = true -> boundary tail = true ->
  exists more rest,
    group decimal (w +:+ tail) = Some (w +:+ more, rest)
    /\ tail = more +:+ rest /\ is_number decimal (w +:+ more) = true.
Proof.
  intros Hw Hb. destruct (span_digits_spec tail) as (Ht & Hd & Hr & Hbr).
  exists (fst (span_digits decimal tail)), (snd (span_digits decimal tail)).
  assert (is_number decimal (w +:+ fst (span_digits decimal tail)) = true)
    as Hn.
  { unfold is_number in *. apply andb_prop in Hw as [Hne Hw].
    rewrite all_digits_append, Hw, Hd by now apply all_digits_boundary.
    destruct w; [discriminate Hne|reflexivity]. }
  split; [|split; assumption].
  apply group_spec. split; [|split; [assumption|split; [assumption|]]].
  - now rewrite append_assoc, <- Ht.
  - destruct (fst (span_digits decimal tail)) as [|c m] eqn:E.
    + change ("" +:+ ?x) with x in Ht. now rewrite <- Ht.
    + apply Hbr. discriminate.
Qed.

(** What [search] finds is a match of the pattern, with the last
    number taken in full. *)
Lemma search_sound line groups :
  search decimal line = Some groups ->
  exists d h w tail,
    groups = [d; h; w] /\ matches decimal line d h w /\
    line = " depth=" +:+ d +:+ " height=" +:+ h +:+ " width=" +:+ w +:+ tail
    /\ digit_ahead decimal tail = false /\ boundary tail = true.
Proof.
  unfold search. intros H.
  apply bind_Some in H as (r0 & E0 & H).
  apply bind_Some in H as ([d r1] & G1 & H).
  apply bind_Some in H as (r2 & E2 & H).
  apply bind_Some in H as ([h r3] & G2 & H).
  apply bind_Some in H as (r4 & E4 & H).
  apply bind_Some in H as ([w tail] & G3 & H).
  injection H as <-.
  apply literal_spec in E0, E2, E4.
  apply group_spec in G1 as (-> & Hd & _), G2 as (-> & Hh & _),
      G3 as (-> & Hw & Htail & Hb).
  subst. exists d, h, w, tail.
  split; [reflexivity|]. split; [|split; [reflexivity|now split]].
  repeat split; try assumption. exists tail. now split.
Qed.

Lemma search_steps d h w tail :
  is_number decimal d = true -> is_number decimal h = true ->
  group decimal (w +:+ tail) = Some (w, tail) ->
  search decimal
    (" depth=" +:+ d +:+ " height=" +:+ h +:+ " width=" +:+ w +:+ tail)
    = Some [d; h; w].
Proof.
  intros Hd Hh Hw. unfold search.
  rewrite literal_append. rewrite option_bind_Some.
  change (" height=" +:+ h +:+ " width=" +:+ w +:+ tail)
    with (String " " ("height=" +:+ h +:+ " width=" +:+ w +:+ tail)).
  rewrite (group_before_blank d
             ("height=" +:+ h +:+ " width=" +:+ w +:+ tail) Hd eq_refl),
    option_bind_Some.
  change (String " " ("height=" +:+ h +:+ " width=" +:+ w +:+ tail))
    with (" height=" +:+ h +:+ " width=" +:+ w +:+ tail).
  rewrite (literal_append " height="), option_bind_Some.
  change (" width=" +:+ w +:+ tail)
    with (String " " ("width=" +:+ w +:+ tail)).
  rewrite (group_before_blank h ("width=" +:+ w +:+ tail) Hh eq_refl),
    option_bind_Some.
  change (String " " ("width=" +:+ w +:+ tail))
    with (" width=" +:+ w +:+ tail).
  rewrite (literal_append " width="), option_bind_Some.
  rewrite Hw. reflexivity.
Qed.

(** A line that matches, with nothing numeric after the width, gives
    its three numbers. *)
Lemma search_complete d h w tail :
  is_number decimal d = true -> is_number decimal h = true ->
  is_number decimal w = true ->
  digit_ahead decimal tail = false -> boundary tail = true ->
  search decimal
    (" depth=" +:+ d +:+ " height=" +:+ h +:+ " width=" +:+ w +:+ tail)
    = Some [d; h; w].
Proof.
  intros Hd Hh Hw Ht Hb. apply search_steps; try assumption.
  apply group_spec. repeat split; assumption.
Qed.

(** [search] fails only on lines that do not match. *)
Lemma search_none line :
  search decimal line = None <-> unmatched decimal line.
Proof.
  split.
  - intros Hnone d h w (Hd & Hh & Hw & tail & Hb & ->).
    destruct (group_greedy w tail Hw Hb) as (more & rest & Hg & -> & Hn).
    rewrite <- (append_assoc w more rest) in Hnone.
    rewrite <- (append_assoc w more rest) in Hg.
    rewrite (search_steps d h (w +:+ more) rest Hd Hh Hg) in Hnone.
    discriminate.
  - intros Hun.
    destruct (search decimal line) as [groups|] eqn:E; [|reflexivity].
    apply search_sound in E as (d & h & w & tail & _ & Hm & _).
    destruct (Hun d h w Hm).
Qed.

Lemma search_reads line d h w :
  search decimal line = Some [d; h; w] <-> reads decimal line d h w.
Proof.
  split.
  - intros H. apply search_sound in H
      as (d' & h' & w' & tail & [= -> -> ->] & (Hd & Hh & Hw & _) & ->
          & Ht & Hb).
    repeat split; try assumption. exists tail. now repeat split.
  - intros (Hd & Hh & Hw & tail & Hb & Ht & ->). now apply search_complete.
Qed.

(** A match in the plain sense extends to the reported one. *)
Lemma matches_reads line d h w :
  matches decimal line d h w ->
  exists more, reads decimal line d h (w +:+ more).
Proof.
  intros (Hd & Hh & Hw & tail & Hb & ->).
  destruct (group_greedy w tail Hw Hb) as (more & rest & Hg & -> & Hn).
  exists more. apply group_spec in Hg as (_ & _ & Hrest & Hbr).
  repeat split; try assumption. exists rest.
  split; [assumption|]. split; [assumption|].
  now rewrite append_assoc.
Qed.

End WithDigits.

End DvipngRegexFacts.

(** ** [create_png] *)

Module CreatePngFacts.
Import Py OS Image Doubles Text DvipngRegex.
Import OSFacts RemoveAllFacts CallFacts DvipngRegexFacts.

Lemma decode_each_raises ds e :
  decode_each ds = Raise e -> e = UnicodeDecodeError.
Proof.
  induction ds as [|d ds IH]; [discriminate|].
  simpl. destruct (String.eqb d ""); [assumption|].
  unfold Utf8.decode. destruct (Utf8.well_formed d); simpl; [|congruence].
  destruct (decode_each ds); simpl; [discriminate|].
  intros [= <-]. now apply IH.
Qed.

(** The dictionary that is returned. *)
Lemma geometry_dict d h w :
  geometry [d; h; w] =
    {[ "depth" := PyStr d; "height" := PyStr h; "width" := PyStr w ]}.
Proof.
  unfold geometry, dict. simpl.
  rewrite (insert_insert_ne _ "width" "height") by discriminate.
  rewrite (insert_insert_ne _ "width" "depth") by discriminate.
  rewrite (insert_insert_ne _ "height" "depth") by discriminate.
  now rewrite insert_empty.
Qed.

Section WithDigits.
Variable decimal : N -> bool.

(** The loop returns at the first line the pattern finds. *)
Lemma scan_first pre line post groups :
  Forall (unmatched decimal) pre -> search decimal line = Some groups ->
  scan decimal (pre ++ line :: post) = Some groups.
Proof.
  induction 1 as [|l pre Hl _ IH]; intros Hs; simpl.
  - now rewrite Hs.
  - apply search_none in Hl. rewrite Hl. now apply IH.
Qed.


Lemma scan_found lines groups :
  scan decimal lines = Some groups ->
  exists pre line post,
    lines = pre ++ line :: post /\ Forall (unmatched decimal) pre
    /\ search decimal line = Some groups.
Proof.
  induction lines as [|l ls IH]; [discriminate|]. simpl.
  destruct (search decimal l) as [g|] eqn:E.
  - intros [= <-]. exists [], l, ls. repeat split; [constructor|assumption].
  - intros H. destruct (IH H) as (pre & line & post & -> & Hpre & Hs).
    exists (l :: pre), line, post. repeat split; [|assumption].
    constructor; [now apply search_none|assumption].
Qed.


(** What lines 133-137 make of a text: the numbers of its first line
    that the pattern finds, or the [ValueError]. *)
Lemma parse_geometry_found text others found :
  parse_geometry decimal (text :: others) = Ok found <->
  exists pre line post d h wd,
    split_lines text = pre ++ line :: post /\
    Forall (unmatched decimal) pre /\ reads decimal line d h wd /\
    found = {[ "depth" := PyStr d; "height" := PyStr h;
               "width" := PyStr wd ]}.
Proof.
  unfold parse_geometry. split.
  - destruct (scan decimal (split_lines text)) as [groups|] eqn:Hscan;
      [|discriminate].
    intros [= <-].
    apply scan_found in Hscan as (pre & line & post & Hl & Hpre & Hsearch).
    destruct (search_sound decimal line groups Hsearch)
      as (d & h & wd & tail & -> & _ & _ & _).
    exists pre, line, post, d, h, wd.
    split; [exact Hl|]. split; [exact Hpre|].
    split; [now apply search_reads|apply geometry_dict].
  - intros (pre & line & post & d & h & wd & -> & Hpre & Hline & ->).
    apply search_reads in Hline.
    rewrite (scan_first pre line post _ Hpre Hline).
    now rewrite geometry_dict.
Qed.


End WithDigits.

(** The streams that [call] hands on, when both decode: the first of
    them is the text that [create_png] looks at. *)
Lemma kept_streams_first proc :
  kept_streams proc
    = if String.eqb (first_stream proc) "" then []
      else first_stream proc :: tl (kept_streams proc).
Proof.
  unfold kept_streams, first_stream. simpl.
  destruct (String.eqb (out_stdout proc) "") eqn:Ho; simpl.
  - destruct (String.eqb (out_stderr proc) ""); reflexivity.
  - now rewrite Ho.
Qed.

Section WithMachine.
Variable str_other : pyval -> string.
Variable exec : list string -> world -> option outcome.
Variable decimal : N -> bool.

Lemma call_keeps_cwd cmd w : cwd (snd (call exec cmd w)) = cwd w.
Proof.
  destruct (exec cmd w) as [proc|] eqn:H.
  - now rewrite (call_world exec cmd w proc H).
  - now rewrite (call_not_started exec cmd w H).
Qed.

Lemma call_result cmd w proc :
  exec cmd w = Some proc ->
  call exec cmd w =
    (match decode_each [out_stdout proc; out_stderr proc] with
     | Raise e => Raise e
     | Ok data =>
         if negb (out_status proc =? 0)%Z
         then Raise (SubprocessError (call_message cmd data))
         else Ok data
     end, left_by proc w).
Proof.
  intros H. unfold call. rewrite H.
  destruct (decode_each _); [|reflexivity]. now destruct (negb _).
Qed.

(** [create_png] where [dvipng] cannot be started. *)
Lemma create_png_not_started self dvi_fn w :
  exec (dvipng_cmd str_other self dvi_fn) w = None ->
  create_png str_other exec decimal self dvi_fn w
    = (Raise OSError, snd (remove_each [dvi_fn] w)).
Proof.
  intros H. unfold create_png, iobind, try_finally, try_except.
  rewrite (call_not_started exec _ w H). simpl is_SubprocessError. cbv iota.
  now rewrite remove_all_eq.
Qed.

(** [create_png] where the output of [dvipng] cannot be decoded. *)
Lemma create_png_undecodable self dvi_fn w proc e :
  exec (dvipng_cmd str_other self dvi_fn) w = Some proc ->
  decode_each [out_stdout proc; out_stderr proc] = Raise e ->
  create_png str_other exec decimal self dvi_fn w
    = (Raise UnicodeDecodeError, snd (remove_each [dvi_fn] (left_by proc w))).
Proof.
  intros H Hd. unfold create_png, iobind, try_finally, try_except.
  rewrite (call_result _ w proc H), Hd.
  rewrite (decode_each_raises _ e Hd). simpl is_SubprocessError. cbv iota.
  now rewrite remove_all_eq.
Qed.

(** [create_png] where [dvipng] exits with status 0. *)
Lemma create_png_exit_zero self dvi_fn w proc data :
  exec (dvipng_cmd str_other self dvi_fn) w = Some proc ->
  decode_each [out_stdout proc; out_stderr proc] = Ok data ->
  out_status proc = 0%Z ->
  create_png str_other exec decimal self dvi_fn w
    = (parse_geometry decimal data,
       snd (remove_each [dvi_fn] (left_by proc w))).
Proof.
  intros H Hd Hs. unfold create_png, iobind, try_finally, try_except.
  rewrite (call_result _ w proc H), Hd, Hs. simpl negb. cbv iota.
  now rewrite remove_all_eq.
Qed.

(** [create_png] where [dvipng] exits with another status. *)
Lemma create_png_exit_nonzero self dvi_fn w proc data :
  exec (dvipng_cmd str_other self dvi_fn) w = Some proc ->
  decode_each [out_stdout proc; out_stderr proc] = Ok data ->
  out_status proc <> 0%Z ->
  create_png str_other exec decimal self dvi_fn w
    = (Raise (SubprocessError
                (call_message (dvipng_cmd str_other self dvi_fn) data)),
       snd (remove_each [dvi_fn]
              (snd (remove_each [output_name self] (left_by proc w))))).
Proof.
  intros H Hd Hs. unfold create_png, iobind, try_finally, try_except.
  rewrite (call_result _ w proc H), Hd.
  apply Z.eqb_neq in Hs. rewrite Hs. simpl negb. cbv iota.
  simpl is_SubprocessError. cbv iota.
  unfold raise. rewrite !remove_all_eq. reflexivity.
Qed.

(** [create_png] after a [dvipng] that ended with status 0, by what it
    wrote. *)
Lemma create_png_after_success self dvi_fn w proc :
  exec (dvipng_cmd str_other self dvi_fn) w = Some proc ->
  out_status proc = 0%Z ->
  fst (create_png str_other exec decimal self dvi_fn w)
    = if Utf8.well_formed (out_stdout proc)
         && Utf8.well_formed (out_stderr proc)
      then parse_geometry decimal (kept_streams proc)
      else Raise UnicodeDecodeError.
Proof.
  intros H Hs.
  destruct (Utf8.well_formed (out_stdout proc)) eqn:Ho;
    [destruct (Utf8.well_formed (out_stderr proc)) eqn:He|]; cbn [andb].
  - assert (decode_each [out_stdout proc; out_stderr proc]
            = Ok (kept_streams proc)) as Hd.
    { apply decode_each_well_formed. repeat constructor; assumption. }
    now rewrite (create_png_exit_zero self dvi_fn w proc _ H Hd Hs).
  - assert (decode_each [out_stdout proc; out_stderr proc]
            = Raise UnicodeDecodeError) as Hd.
    { apply decode_each_ill_formed. right. now left. }
    now rewrite (create_png_undecodable self dvi_fn w proc _ H Hd).
  - assert (decode_each [out_stdout proc; out_stderr proc]
            = Raise UnicodeDecodeError) as Hd.
    { apply decode_each_ill_formed. now left. }
    now rewrite (create_png_undecodable self dvi_fn w proc _ H Hd).
Qed.


(** X27: when [create_png] is over, returned or raised, the [.dvi]
    file does not exist; and when [dvipng] has exited with a non-zero
    status after writing well-formed UTF-8 on its streams,
    [create_png] raises [SubprocessError] and the output image does
    not exist either. *)
Theorem create_png_cleans_up self dvi_fn w :
  files (snd (create_png str_other exec decimal self dvi_fn w)) !! resolve w dvi_fn
    = None /\
  forall proc,
    exec (dvipng_cmd str_other self dvi_fn) w = Some proc ->
    Utf8.well_formed (out_stdout proc) = true ->
    Utf8.well_formed (out_stderr proc) = true ->
    out_status proc <> 0%Z ->
    is_SubprocessError_result (fst (create_png str_other exec decimal self dvi_fn w))
    /\ files (snd (create_png str_other exec decimal self dvi_fn w))
         !! resolve w (output_name self) = None.
Proof.
  split.
  - destruct (exec (dvipng_cmd str_other self dvi_fn) w) as [proc|] eqn:H.
    + destruct (decode_each [out_stdout proc; out_stderr proc])
        as [data|e] eqn:Hd.
      * destruct (Z.eq_dec (out_status proc) 0%Z) as [Hs|Hs].
        -- rewrite (create_png_exit_zero self dvi_fn w proc data H Hd Hs).
           exact (remove_each_head_absent dvi_fn [] (left_by proc w)).
        -- rewrite (create_png_exit_nonzero self dvi_fn w proc data H Hd Hs).
           cbn [snd].
           pose proof (remove_each_head_absent dvi_fn []
             (snd (remove_each [output_name self] (left_by proc w)))) as Ha.
           unfold resolve in *. now rewrite remove_each_keeps_cwd in Ha.
      * rewrite (create_png_undecodable self dvi_fn w proc e H Hd).
        exact (remove_each_head_absent dvi_fn [] (left_by proc w)).
    + rewrite (create_png_not_started self dvi_fn w H).
      exact (remove_each_head_absent dvi_fn [] w).
  - intros proc H Ho He Hs.
    assert (decode_each [out_stdout proc; out_stderr proc]
            = Ok (kept_streams proc)) as Hd.
    { apply decode_each_well_formed. repeat constructor; assumption. }
    rewrite (create_png_exit_nonzero self dvi_fn w proc _ H Hd Hs).
    split; [exact I|]. cbn [snd].
    apply remove_each_shrinks.
    exact (remove_each_head_absent (output_name self) [] (left_by proc w)).
Qed.

End WithMachine.

Lemma create_png_cleans_up_witness :
  files
    (snd (create_png no_str (machine latex_ok dvipng_fails) unicode_digit formula "f.dvi"
            (set_files {[ "/work/f.dvi" := "dvi" ]} empty_disk)))
    !! "/work/f.png" = None.
Proof.
  destruct (create_png_cleans_up no_str (machine latex_ok dvipng_fails) unicode_digit
              formula "f.dvi"
              (set_files {[ "/work/f.dvi" := "dvi" ]} empty_disk))
    as [_ Himage].
  apply (Himage (dvipng_fails
                   (set_files {[ "/work/f.dvi" := "dvi" ]} empty_disk)));
    try reflexivity.
  vm_compute. discriminate.
Defined.

(** C6: a [dvipng] that fails leaves its partial image behind when
    its message is not UTF-8.  The program has created the image file
    and exits with status 1 after printing a byte that is not UTF-8;
    [call] decodes the streams before it looks at the status, so it
    raises [UnicodeDecodeError] and not the [SubprocessError] that its
    docstring promises for a status other than 0.  The [except] clause
    of [create_png] is passed over and the image file stays, also when
    the call comes from [convert]. *)
Theorem create_png_leaves_image_when_output_is_garbled :
  out_status (dvipng_fails_garbled
                (set_files {[ "/work/f.dvi" := "dvi" ]} empty_disk)) = 1%Z /\
  fst (create_png no_str (machine latex_ok dvipng_fails_garbled) unicode_digit formula
         "f.dvi" (set_files {[ "/work/f.dvi" := "dvi" ]} empty_disk))
    = Raise UnicodeDecodeError /\
  exists_file
    (snd (create_png no_str (machine latex_ok dvipng_fails_garbled) unicode_digit formula
            "f.dvi" (set_files {[ "/work/f.dvi" := "dvi" ]} empty_disk)))
    "f.png" = true /\
  exists_file
    (snd (convert no_str utf8_codec (machine latex_ok dvipng_fails_garbled) unicode_digit
            formula empty_disk)) "f.png" = true.
Proof. repeat split; vm_compute; reflexivity. Qed.


End CreatePngFacts.

(** ** [create_dvi] *)

Module CreateDviFacts.
Import Py OS Image Doubles Text.
Import TextFacts OSFacts RemoveAllFacts CallFacts CreatePngFacts.

Lemma chdir_keeps_files p w : files (snd (chdir p w)) = files w.
Proof. unfold chdir. now destruct (_ && _). Qed.

Lemma write_text_ok encode p enc text w w1 :
  write_text encode p enc text w = (Ok tt, w1) ->
  cwd w1 = cwd w /\ dirs w1 = dirs w.
Proof.
  unfold write_text. destruct (_ && _); [|discriminate].
  destruct (encode enc text); intros [= <-]; split; reflexivity.
Qed.

Lemma iobind_eq {A B} (m : io A) (k : A -> io B) w :
  (x <- m ;; k x)%io w =
    match m w with
    | (Ok a, w') => k a w'
    | (Raise e, w') => (Raise e, w')
    end.
Proof. reflexivity. Qed.

(** *** The names derived from [dvi_fn] *)

Lemma isabs_cons c s : PosixPath.isabs (String c s) = Ascii.eqb "/" c.
Proof. unfold PosixPath.isabs. rewrite startswith_cons. apply andb_true_r. Qed.

Lemma join_absolute a b : PosixPath.isabs b = true -> PosixPath.join a b = b.
Proof. intros H. unfold PosixPath.join. now rewrite H. Qed.

Lemma isabs_join a b :
  PosixPath.isabs a = true -> PosixPath.isabs (PosixPath.join a b) = true.
Proof.
  intros Ha. unfold PosixPath.join.
  destruct (PosixPath.isabs b) eqn:Hb; [assumption|].
  destruct a as [|c a]; [discriminate Ha|].
  rewrite isabs_cons in Ha.
  destruct (_ || _); rewrite append_cons, isabs_cons; assumption.
Qed.

Lemma resolve_absolute w p : PosixPath.isabs p = true -> resolve w p = p.
Proof. apply join_absolute. Qed.

(** Joining a directory with names that differ in their extension
    only gives names that differ in their extension only. *)
Lemma join_extension a stem :
  exists stem', forall ext,
    PosixPath.join a (stem +:+ String "." ext) = stem' +:+ String "." ext.
Proof.
  unfold PosixPath.join. destruct stem as [|c stem].
  - destruct (String.eqb a "" || PosixPath.endswith_sep a).
    + exists a. intros ext. reflexivity.
    + exists (a +:+ "/"). intros ext. change ("" +:+ String "." ext)
        with (String "." ext). now rewrite (isabs_cons "."), append_assoc.
  - destruct (Ascii.eqb "/" c) eqn:Hc.
    + exists (String c stem). intros ext.
      now rewrite append_cons, isabs_cons, Hc.
    + destruct (String.eqb a "" || PosixPath.endswith_sep a).
      * exists (a +:+ String c stem). intros ext.
        now rewrite append_cons, isabs_cons, Hc, <- append_cons, append_assoc.
      * exists (a +:+ "/" +:+ String c stem). intros ext.
        rewrite append_cons, isabs_cons, Hc, <- append_cons.
        now rewrite !append_assoc.
Qed.

Lemma resolve_derived w dvi_fn :
  exists stem, forall ext,
    resolve w (derived_fn dvi_fn (String "." ext)) = stem +:+ String "." ext.
Proof.
  unfold derived_fn, resolve.
  destruct (PosixPath.split dvi_fn) as [path basename].
  destruct (join_extension path (fst (PosixPath.splitext basename)))
    as [stem1 H1].
  destruct (join_extension (cwd w) stem1) as [stem2 H2].
  exists stem2. intros ext. now rewrite H1, H2.
Qed.

(** The [.tex], [.aux] and [.log] names are three different files. *)
Lemma derived_names_differ w dvi_fn :
  resolve w (tex_fn dvi_fn) <> resolve w (aux_fn dvi_fn) /\
  resolve w (tex_fn dvi_fn) <> resolve w (log_fn dvi_fn) /\
  resolve w (aux_fn dvi_fn) <> resolve w (log_fn dvi_fn).
Proof.
  unfold tex_fn, aux_fn, log_fn.
  destruct (resolve_derived w dvi_fn) as [stem H]. rewrite !H.
  repeat split; intros E; apply append_inv_head in E; discriminate E.
Qed.

Lemma derived_absolute dvi_fn ext :
  PosixPath.isabs (fst (PosixPath.split dvi_fn)) = true ->
  PosixPath.isabs (derived_fn dvi_fn ext) = true.
Proof.
  unfold derived_fn. destruct (PosixPath.split dvi_fn) as [path basename].
  apply isabs_join.
Qed.

Section WithMachine.
Variable encode : string -> string -> result string.
Variable exec : list string -> world -> option outcome.

(** The four ways the [try] block can end. *)
Lemma run_latex_not_started self dvi_fn w2 :
  exec (latex_cmd dvi_fn) w2 = None ->
  run_latex exec self dvi_fn w2 = (Raise OSError, w2).
Proof.
  intros H. unfold run_latex, try_except. rewrite iobind_eq.
  now rewrite (call_not_started exec _ w2 H).
Qed.

Lemma run_latex_undecodable self dvi_fn w2 proc e :
  exec (latex_cmd dvi_fn) w2 = Some proc ->
  decode_each [out_stdout proc; out_stderr proc] = Raise e ->
  run_latex exec self dvi_fn w2 = (Raise UnicodeDecodeError, left_by proc w2).
Proof.
  intros H Hd. unfold run_latex, try_except. rewrite iobind_eq.
  rewrite (call_result exec _ w2 proc H), Hd.
  now rewrite (decode_each_raises _ e Hd).
Qed.

Lemma run_latex_exit_zero self dvi_fn w2 proc data :
  exec (latex_cmd dvi_fn) w2 = Some proc ->
  decode_each [out_stdout proc; out_stderr proc] = Ok data ->
  out_status proc = 0%Z ->
  run_latex exec self dvi_fn w2 = (Ok tt, left_by proc w2).
Proof.
  intros H Hd Hs. unfold run_latex, try_except. rewrite iobind_eq.
  now rewrite (call_result exec _ w2 proc H), Hd, Hs.
Qed.

Lemma run_latex_exit_nonzero self dvi_fn w2 proc data :
  exec (latex_cmd dvi_fn) w2 = Some proc ->
  decode_each [out_stdout proc; out_stderr proc] = Ok data ->
  out_status proc <> 0%Z ->
  run_latex exec self dvi_fn w2 =
    (Raise (latex_error (SubprocessError (call_message (latex_cmd dvi_fn) data))),
     if keep_log self then snd (remove_each [dvi_fn] (left_by proc w2))
     else snd (remove_each [log_fn dvi_fn]
                 (snd (remove_each [dvi_fn] (left_by proc w2))))).
Proof.
  intros H Hd Hs. unfold run_latex, try_except. rewrite iobind_eq.
  rewrite (call_result exec _ w2 proc H), Hd.
  apply Z.eqb_neq in Hs. rewrite Hs. simpl negb. cbv iota.
  simpl is_SubprocessError. cbv iota.
  rewrite iobind_eq, remove_all_eq, iobind_eq.
  destruct (keep_log self); cbn [negb].
  - reflexivity.
  - now rewrite remove_all_eq.
Qed.

(** [create_dvi], from the [try] statement on. *)
Lemma create_dvi_run self dvi_fn w w1 w2 :
  write_text encode (tex_fn dvi_fn) (encoding self) (tex_document self) w
    = (Ok tt, w1) ->
  enter_directory (fst (PosixPath.split dvi_fn)) w1 = (Ok (cwd w1), w2) ->
  create_dvi encode exec self dvi_fn w =
    let w3 := snd (remove_each [tex_fn dvi_fn; aux_fn dvi_fn]
                     (snd (run_latex exec self dvi_fn w2))) in
    match chdir (cwd w1) w3 with
    | (Raise e, w4) => (Raise e, w4)
    | (Ok _, w4) =>
        match fst (run_latex exec self dvi_fn w2) with
        | Ok _ => (Ok tt, snd (remove_each [log_fn dvi_fn] w4))
        | Raise e => (Raise e, w4)
        end
    end.
Proof.
  intros Hw He. unfold create_dvi.
  rewrite iobind_eq, Hw, iobind_eq, He, iobind_eq.
  unfold try_finally.
  destruct (run_latex exec self dvi_fn w2) as [r wh]. cbn [fst snd].
  rewrite iobind_eq, remove_all_eq.
  destruct (chdir (cwd w1) _) as [[[]|e] w4]; [|reflexivity].
  destruct r as [[]|e]; [|reflexivity].
  now rewrite remove_all_eq.
Qed.

Lemma run_latex_keeps_cwd self dvi_fn w2 :
  cwd (snd (run_latex exec self dvi_fn w2)) = cwd w2.
Proof.
  destruct (exec (latex_cmd dvi_fn) w2) as [proc|] eqn:H.
  - destruct (decode_each [out_stdout proc; out_stderr proc])
      as [data|e] eqn:Hd.
    + destruct (Z.eq_dec (out_status proc) 0%Z) as [Hs|Hs].
      * now rewrite (run_latex_exit_zero self dvi_fn w2 proc data H Hd Hs).
      * rewrite (run_latex_exit_nonzero self dvi_fn w2 proc data H Hd Hs).
        cbn [snd]. destruct (keep_log self);
          now rewrite !remove_each_keeps_cwd.
    + now rewrite (run_latex_undecodable self dvi_fn w2 proc e H Hd).
  - now rewrite (run_latex_not_started self dvi_fn w2 H).
Qed.

Lemma run_latex_dirs self dvi_fn w2 proc :
  exec (latex_cmd dvi_fn) w2 = Some proc ->
  dirs (snd (run_latex exec self dvi_fn w2)) = out_dirs proc.
Proof.
  intros H.
  destruct (decode_each [out_stdout proc; out_stderr proc]) as [data|e] eqn:Hd.
  - destruct (Z.eq_dec (out_status proc) 0%Z) as [Hs|Hs].
    + now rewrite (run_latex_exit_zero self dvi_fn w2 proc data H Hd Hs).
    + rewrite (run_latex_exit_nonzero self dvi_fn w2 proc data H Hd Hs).
      cbn [snd]. destruct (keep_log self);
        now rewrite !remove_each_keeps_dirs.
  - now rewrite (run_latex_undecodable self dvi_fn w2 proc e H Hd).
Qed.

(** The [try] block touches no file other than [dvi_fn] and the log. *)
Lemma run_latex_other self dvi_fn w2 proc a :
  exec (latex_cmd dvi_fn) w2 = Some proc ->
  a <> resolve w2 dvi_fn -> a <> resolve w2 (log_fn dvi_fn) ->
  files (snd (run_latex exec self dvi_fn w2)) !! a = out_files proc !! a.
Proof.
  intros H Hdvi Hlog.
  assert (forall f, a <> resolve w2 f ->
            forall g, In g [f] -> a <> resolve (left_by proc w2) g) as Hone.
  { intros f Hf g [<-|[]]. exact Hf. }
  destruct (decode_each [out_stdout proc; out_stderr proc]) as [data|e] eqn:Hd.
  - destruct (Z.eq_dec (out_status proc) 0%Z) as [Hs|Hs].
    + now rewrite (run_latex_exit_zero self dvi_fn w2 proc data H Hd Hs).
    + rewrite (run_latex_exit_nonzero self dvi_fn w2 proc data H Hd Hs).
      cbn [snd]. destruct (keep_log self).
      * rewrite remove_each_other; [reflexivity|]. now apply Hone.
      * rewrite remove_each_other.
        -- rewrite remove_each_other; [reflexivity|]. now apply Hone.
        -- intros g [<-|[]]. unfold resolve.
           rewrite remove_each_keeps_cwd. exact Hlog.
  - now rewrite (run_latex_undecodable self dvi_fn w2 proc e H Hd).
Qed.

(** With an absolute working directory, and a [dvi_fn] that is a bare
    file name or lies in an absolute directory, the derived names mean
    the same files before and after the change of directory. *)
Lemma stable_names self dvi_fn w w1 w2 :
  PosixPath.isabs (cwd w) = true ->
  fst (PosixPath.split dvi_fn) = ""
  \/ PosixPath.isabs (fst (PosixPath.split dvi_fn)) = true ->
  write_text encode (tex_fn dvi_fn) (encoding self) (tex_document self) w
    = (Ok tt, w1) ->
  enter_directory (fst (PosixPath.split dvi_fn)) w1 = (Ok (cwd w1), w2) ->
  cwd w1 = cwd w /\
  forall v ext,
    cwd v = cwd w2 \/ cwd v = cwd w ->
    resolve v (derived_fn dvi_fn ext) = resolve w (derived_fn dvi_fn ext).
Proof.
  intros Habs Hpath Hw He.
  destruct (write_text_ok _ _ _ _ _ _ Hw) as [Hc1 _].
  split; [assumption|]. intros v ext Hv.
  destruct Hpath as [Hp|Hp].
  - rewrite Hp in He. unfold enter_directory in He.
    rewrite iobind_eq in He. unfold getcwd in He. rewrite iobind_eq in He.
    replace (negb (cwd w1 =? "")%string && negb ("" =? "")%string)
      with false in He by (now rewrite andb_false_r).
    injection He as <-. unfold resolve.
    destruct Hv as [-> | ->]; now rewrite ?Hc1.
  - rewrite !resolve_absolute by now apply derived_absolute.
    reflexivity.
Qed.

(** X26: what [create_dvi] does clean up.  Take an absolute working
    directory and a [dvi_fn] that is a bare file name or lies in an
    absolute directory, and let the document be written, the directory
    entered and [latex] run.  When [create_dvi] is over, returned or
    raised:
    - the [.tex] file does not exist;
    - the [.aux] file does not exist, provided [latex] left the [.tex]
      file in place (and [dvi_fn] is not its name);
    - after a run with exit status 0 the [.log] file does not exist,
      whatever the keep-logs option (the working directory must still
      be there to return to);
    - after a run with another exit status the [.log] file does not
      exist when the option is off, and is as [latex] left it when the
      option is on (and [dvi_fn] is not its name).
    The two statements on the log suppose that [latex] wrote
    well-formed UTF-8. *)
Theorem create_dvi_cleans_up self dvi_fn w w1 w2 proc :
  PosixPath.isabs (cwd w) = true ->
  fst (PosixPath.split dvi_fn) = ""
  \/ PosixPath.isabs (fst (PosixPath.split dvi_fn)) = true ->
  write_text encode (tex_fn dvi_fn) (encoding self) (tex_document self) w
    = (Ok tt, w1) ->
  enter_directory (fst (PosixPath.split dvi_fn)) w1 = (Ok (cwd w1), w2) ->
  exec (latex_cmd dvi_fn) w2 = Some proc ->
  let after := snd (create_dvi encode exec self dvi_fn w) in
  files after !! resolve w (tex_fn dvi_fn) = None /\
  (is_Some (out_files proc !! resolve w (tex_fn dvi_fn)) ->
   resolve w2 dvi_fn <> resolve w (tex_fn dvi_fn) ->
   files after !! resolve w (aux_fn dvi_fn) = None) /\
  (Utf8.well_formed (out_stdout proc) = true ->
   Utf8.well_formed (out_stderr proc) = true ->
   (out_status proc = 0%Z -> cwd w ∈ out_dirs proc ->
    files after !! resolve w (log_fn dvi_fn) = None) /\
   (out_status proc <> 0%Z -> keep_log self = false ->
    files after !! resolve w (log_fn dvi_fn) = None) /\
   (out_status proc <> 0%Z -> keep_log self = true ->
    resolve w2 dvi_fn <> resolve w (log_fn dvi_fn) ->
    files after !! resolve w (log_fn dvi_fn)
      = out_files proc !! resolve w (log_fn dvi_fn))).
Proof.
  intros Habs Hpath Hw He Hx after.
  destruct (stable_names self dvi_fn w w1 w2 Habs Hpath Hw He) as [Hc1 Hst].
  pose proof (run_latex_keeps_cwd self dvi_fn w2) as Hch.
  pose proof (create_dvi_run self dvi_fn w w1 w2 Hw He) as Hrun.
  cbv zeta in Hrun.
  set (wh := snd (run_latex exec self dvi_fn w2)) in *.
  set (w3 := snd (remove_each [tex_fn dvi_fn; aux_fn dvi_fn] wh)) in *.
  assert (cwd w3 = cwd w2) as Hc3.
  { unfold w3. now rewrite remove_each_keeps_cwd. }
  (* the files when [create_dvi] is over are those of [w3], less the
     log in one case *)
  assert (forall a, files w3 !! a = None -> files after !! a = None) as Hshrink.
  { intros a Ha. unfold after. rewrite Hrun.
    pose proof (chdir_keeps_files (cwd w1) w3) as Hk.
    destruct (chdir (cwd w1) w3) as [[[]|e] w4]; cbn [snd] in *.
    - destruct (fst (run_latex exec self dvi_fn w2)); cbn [snd].
      + apply remove_each_shrinks. now rewrite Hk.
      + now rewrite Hk.
    - now rewrite Hk. }
  assert (resolve wh (tex_fn dvi_fn) = resolve w (tex_fn dvi_fn)) as Htex.
  { apply (Hst wh ".tex"). now left. }
  assert (resolve wh (aux_fn dvi_fn) = resolve w (aux_fn dvi_fn)) as Haux.
  { apply (Hst wh ".aux"). now left. }
  assert (resolve w2 (log_fn dvi_fn) = resolve w (log_fn dvi_fn)) as Hlog.
  { apply (Hst w2 ".log"). now left. }
  destruct (derived_names_differ w dvi_fn) as (Hta & Htl & Hal).
  split; [|split].
  - apply Hshrink. rewrite <- Htex. apply remove_each_head_absent.
  - intros Hpresent Hdvi. apply Hshrink. rewrite <- Haux.
    apply remove_each_second_absent. rewrite Htex.
    unfold wh. rewrite (run_latex_other self dvi_fn w2 proc _ Hx);
      [assumption|congruence|congruence].
  - intros Ho Herr.
    assert (decode_each [out_stdout proc; out_stderr proc]
            = Ok (kept_streams proc)) as Hd.
    { apply decode_each_well_formed. repeat constructor; assumption. }
    split; [|split].
    + intros Hs Hback. unfold after. rewrite Hrun.
      assert (chdir (cwd w1) w3 = (Ok tt, set_cwd (cwd w) w3)) as ->.
      { unfold chdir, resolve. rewrite Hc1, (join_absolute _ _ Habs).
        assert (dirs w3 = out_dirs proc) as ->.
        { unfold w3, wh. rewrite remove_each_keeps_dirs.
          now apply run_latex_dirs. }
        rewrite bool_decide_eq_true_2 by assumption.
        destruct (cwd w); [discriminate Habs|reflexivity]. }
      rewrite (run_latex_exit_zero self dvi_fn w2 proc _ Hx Hd Hs).
      cbn [fst snd].
      exact (remove_each_head_absent (log_fn dvi_fn) [] (set_cwd (cwd w) w3)).
    + intros Hs Hk. apply Hshrink. unfold w3. apply remove_each_shrinks.
      unfold wh.
      rewrite (run_latex_exit_nonzero self dvi_fn w2 proc _ Hx Hd Hs), Hk.
      cbn [snd]. rewrite <- Hlog.
      pose proof (remove_each_head_absent (log_fn dvi_fn) []
                    (snd (remove_each [dvi_fn] (left_by proc w2)))) as Ha.
      unfold resolve in *. now rewrite remove_each_keeps_cwd in Ha.
    + intros Hs Hk Hdvi. unfold after. rewrite Hrun.
      pose proof (chdir_keeps_files (cwd w1) w3) as Hkeep.
      assert (files w3 !! resolve w (log_fn dvi_fn)
              = out_files proc !! resolve w (log_fn dvi_fn)) as Hw3.
      { unfold w3. rewrite remove_each_other.
        - unfold wh.
          rewrite (run_latex_exit_nonzero self dvi_fn w2 proc _ Hx Hd Hs), Hk.
          cbn [snd]. rewrite remove_each_other; [reflexivity|].
          intros g [<-|[]]. intros E. apply Hdvi. now rewrite E.
        - intros g [<-|[<-|[]]].
          + rewrite Htex. congruence.
          + rewrite Haux. congruence. }
      rewrite (run_latex_exit_nonzero self dvi_fn w2 proc _ Hx Hd Hs).
      cbn [fst].
      destruct (chdir (cwd w1) w3) as [[[]|e] w4]; cbn [snd] in *;
        now rewrite Hkeep.
Qed.

End WithMachine.

(** A run that fails, with the keep-logs option on: the [.tex] and
    [.aux] files are gone and the log is there; and a run that
    succeeds, with the option off: all three are gone. *)
Lemma create_dvi_cleans_up_witness :
  (files (snd (create_dvi utf8_codec (machine latex_fails dvipng_ok)
                 (keeping_log formula) "f.dvi" empty_disk))
     !! "/work/f.tex" = None /\
   files (snd (create_dvi utf8_codec (machine latex_fails dvipng_ok)
                 (keeping_log formula) "f.dvi" empty_disk))
     !! "/work/f.aux" = None /\
   files (snd (create_dvi utf8_codec (machine latex_fails dvipng_ok)
                 (keeping_log formula) "f.dvi" empty_disk))
     !! "/work/f.log" = Some "log") /\
  (files (snd (create_dvi utf8_codec (machine latex_ok dvipng_ok)
                 formula "f.dvi" empty_disk))
     !! "/work/f.aux" = None /\
   files (snd (create_dvi utf8_codec (machine latex_ok dvipng_ok)
                 formula "f.dvi" empty_disk))
     !! "/work/f.log" = None).
Proof.
  pose (w1 := set_files {[ "/work/f.tex" := "\documentclass{article}" ]}
                empty_disk).
  split.
  - destruct (create_dvi_cleans_up utf8_codec (machine latex_fails dvipng_ok)
                (keeping_log formula) "f.dvi" empty_disk w1 w1
                (latex_fails w1))
      as (Htex & Haux & Hlog); try reflexivity.
    { left. reflexivity. }
    destruct Hlog as (_ & _ & Hkept); try reflexivity.
    split; [exact Htex|]. split.
    + apply Haux; [vm_compute; eauto|vm_compute; discriminate].
    + transitivity (out_files (latex_fails w1)
                      !! resolve empty_disk (log_fn "f.dvi"));
        [|reflexivity].
      apply Hkept; [vm_compute; discriminate|reflexivity|].
      vm_compute. discriminate.
  - destruct (create_dvi_cleans_up utf8_codec (machine latex_ok dvipng_ok)
                formula "f.dvi" empty_disk w1 w1 (latex_ok w1))
      as (_ & Haux & Hlog); try reflexivity.
    { left. reflexivity. }
    destruct Hlog as (Hgone & _ & _); try reflexivity.
    split.
    + apply Haux; [vm_compute; eauto|vm_compute; discriminate].
    + apply Hgone; [reflexivity|]. vm_compute. set_solver.
Defined.

(** With the keep-logs option on, the log of a run that succeeds is
    removed all the same: the option is looked at in the [except]
    clause only. *)
Lemma create_dvi_drops_the_log_of_a_good_run :
  keep_log (keeping_log formula) = true /\
  fst (create_dvi utf8_codec (machine latex_ok dvipng_ok)
         (keeping_log formula) "f.dvi" empty_disk) = Ok tt /\
  files (snd (create_dvi utf8_codec (machine latex_ok dvipng_ok)
                (keeping_log formula) "f.dvi" empty_disk))
    !! "/work/f.log" = None.
Proof. repeat split; vm_compute; reflexivity. Qed.

(** C3: the clean-up of [create_dvi] misses the files when [dvi_fn]
    lies in a relative directory.  The [.tex] file is written as
    [out/f.tex] from the working directory, [/work]; then the working
    directory is changed to [/work/out], and [latex] and the clean-up
    are given the same relative name from there.  So [latex] does not
    find the document, [create_dvi] raises [SubprocessError], and
    [remove_all] fails on a name that denotes no file: the written
    [/work/out/f.tex] is still there when the call is over, though the
    working directory is [/work] again. *)
Theorem create_dvi_leaves_the_tex_file_behind :
  tex_fn "out/f.dvi" = "out/f.tex" /\
  latex_cmd "out/f.dvi" = ["latex"; "-halt-on-error"; "out/f.tex"] /\
  fst (create_dvi utf8_codec (machine latex_lost dvipng_ok) formula
         "out/f.dvi" disk_with_out) = Raise (SubprocessError "") /\
  cwd (snd (create_dvi utf8_codec (machine latex_lost dvipng_ok) formula
              "out/f.dvi" disk_with_out)) = "/work" /\
  files (snd (create_dvi utf8_codec (machine latex_lost dvipng_ok) formula
                "out/f.dvi" disk_with_out))
    !! "/work/out/f.tex" = Some "\documentclass{article}".
Proof. repeat split; vm_compute; reflexivity. Qed.

End CreateDviFacts.

(** ** [convert] and [get_positioning_info] *)

Module ConvertFacts.
Import Py OS Image Doubles Text DvipngRegex.
Import OSFacts RemoveAllFacts CallFacts DvipngRegexFacts CreatePngFacts.
Import CreateDviFacts.

Section WithMachine.
Variable str_other : pyval -> string.
Variable encode : string -> string -> result string.
Variable exec : list string -> world -> option outcome.
Variable decimal : N -> bool.

Lemma create_png_returns self dvi_fn w1 found w' :
  create_png str_other exec decimal self dvi_fn w1 = (Ok found, w') ->
  read_from_dvipng str_other exec decimal self dvi_fn w1 found.
Proof.
  intros Hpng.
  destruct (exec (dvipng_cmd str_other self dvi_fn) w1) as [proc|] eqn:H.
  2: { rewrite (create_png_not_started _ _ _ self dvi_fn w1 H) in Hpng.
       discriminate. }
  destruct (decode_each [out_stdout proc; out_stderr proc]) as [data|e] eqn:Hd.
  2: { rewrite (create_png_undecodable _ _ _ self dvi_fn w1 proc e H Hd)
         in Hpng.
       discriminate. }
  destruct (Z.eq_dec (out_status proc) 0%Z) as [Hs|Hs].
  2: { rewrite (create_png_exit_nonzero _ _ _ self dvi_fn w1 proc data H Hd Hs)
         in Hpng. discriminate. }
  pose proof (create_png_after_success str_other exec decimal self dvi_fn w1
                proc H Hs) as Hfst.
  rewrite Hpng in Hfst. cbn [fst] in Hfst.
  destruct (Utf8.well_formed (out_stdout proc)) eqn:Ho;
    [|discriminate Hfst].
  destruct (Utf8.well_formed (out_stderr proc)) eqn:He;
    [|discriminate Hfst].
  cbn [andb] in Hfst. rewrite kept_streams_first in Hfst.
  destruct (String.eqb (first_stream proc) ""); [discriminate Hfst|].
  symmetry in Hfst.
  apply parse_geometry_found in Hfst
    as (pre & line & post & d & h & wd & Hl & Hpre & Hr & ->).
  exists proc, (first_stream proc), pre, line, post, d, h, wd.
  split; [exact H|]. split; [exact Hs|]. split; [exact Ho|].
  split; [exact He|]. split; [reflexivity|]. split; [exact Hl|].
  split; [exact Hpre|]. split; [exact Hr|reflexivity].
Qed.

(** [convert] returns only when both steps have returned, and then
    stores what [create_png] returned. *)
Lemma convert_returns self w self' w' :
  convert str_other encode exec decimal self w = (Ok tt, self', w') ->
  exists w1 found,
    create_dvi encode exec self (dvi_name self) w = (Ok tt, w1) /\
    create_png str_other exec decimal self (dvi_name self) w1 = (Ok found, w') /\
    self' = set_parsed_data (Some found) self.
Proof.
  unfold convert, try_except. rewrite iobind_eq.
  destruct (create_dvi encode exec self (dvi_name self) w)
    as [[[]|e] w1] eqn:Hdvi.
  - destruct (create_png str_other exec decimal self (dvi_name self) w1)
      as [[found|e] w2] eqn:Hpng.
    + intros [= <- <-]. exists w1, found. repeat split. assumption.
    + destruct (is_OSError e).
      * rewrite iobind_eq, remove_all_eq. discriminate.
      * discriminate.
  - destruct (is_OSError e).
    + rewrite iobind_eq, remove_all_eq. discriminate.
    + discriminate.
Qed.

(** A [convert] that raises leaves the object as it was. *)
Lemma convert_raises self w e self' w' :
  convert str_other encode exec decimal self w = (Raise e, self', w') -> self' = self.
Proof.
  unfold convert.
  destruct (try_except _ _ w) as [[found|e'] w2]; congruence.
Qed.

Lemma after_setter_parsed_data self r :
  (forall self', r = Ok self' -> parsed_data self' = parsed_data self) ->
  parsed_data (after_setter self r) = parsed_data self.
Proof. destruct r; simpl; auto. Qed.

(** Nothing but a [convert] that returns changes the stored value. *)
Lemma step_keeps_parsed_data m st :
  converts str_other encode exec decimal m st = false ->
  parsed_data (fst (step str_other encode exec decimal m st)) = parsed_data (fst st).
Proof.
  destruct st as [self w]. destruct m; simpl; intros Hc; try reflexivity.
  - apply after_setter_parsed_data. unfold set_dpi.
    destruct (isinstance v (PyType TInt)) as [[]|]; simpl; intros s [= <-];
      reflexivity.
  - apply after_setter_parsed_data. unfold set_transparency.
    destruct (isinstance v (PyType TBool)) as [[]|]; simpl; intros s [= <-];
      reflexivity.
  - destruct (convert str_other encode exec decimal self w) as [[[[]|e] self'] w'] eqn:E;
      [discriminate|].
    simpl. now rewrite (convert_raises self w e self' w' E).
Qed.

Lemma run_keeps_parsed_data ms :
  forall st,
    converted str_other encode exec decimal ms st = false ->
    parsed_data (fst (run str_other encode exec decimal ms st)) = parsed_data (fst st).
Proof.
  induction ms as [|m ms IH]; intros st H; [reflexivity|].
  simpl in H. apply orb_false_elim in H as [Hm Hms].
  simpl. rewrite (IH _ Hms). now apply step_keeps_parsed_data.
Qed.

(** C5, amended: after a [convert] that returned,
    [get_positioning_info] gives a dictionary with exactly the keys
    [depth], [height] and [width], and each value is a [str] made of
    one or more decimal digits, in the sense of the pattern's [\d]
    (any decimal digit of Unicode): the numeral as [dvipng] printed
    it, not converted to an integer. *)
Theorem geometry_values_are_numerals self w self' w' :
  convert str_other encode exec decimal self w = (Ok tt, self', w') ->
  exists d h wd,
    get_positioning_info self' =
      Some {[ "depth" := PyStr d; "height" := PyStr h; "width" := PyStr wd ]}
    /\ is_number decimal d = true /\ is_number decimal h = true
    /\ is_number decimal wd = true.
Proof.
  intros H. apply convert_returns in H as (w1 & found & _ & Hpng & ->).
  apply create_png_returns in Hpng
    as (proc & text & pre & line & post & d & h & wd
        & _ & _ & _ & _ & _ & _ & _ & (Hd & Hh & Hw & _) & ->).
  exists d, h, wd. repeat split; assumption.
Qed.

(** C9: [get_positioning_info] gives [None] on a new instance and
    after any calls among which no [convert] has returned; a [convert]
    that returns has run [create_dvi] and then [create_png], and from
    then on, until another [convert] returns, [get_positioning_info]
    gives the dictionary read from the output of that run of
    [dvipng]. *)
Theorem positioning_info_follows_convert :
  (forall tex_document output_fn encoding w ms,
     converted str_other encode exec decimal ms
       (init tex_document output_fn encoding, w) = false ->
     get_positioning_info
       (fst (run str_other encode exec decimal ms
               (init tex_document output_fn encoding, w))) = None) /\
  (forall self w self' w',
     convert str_other encode exec decimal self w = (Ok tt, self', w') ->
     exists w1 found,
       create_dvi encode exec self (dvi_name self) w = (Ok tt, w1) /\
       read_from_dvipng str_other exec decimal self (dvi_name self) w1 found /\
       forall ms,
         converted str_other encode exec decimal ms (self', w') = false ->
         get_positioning_info
           (fst (run str_other encode exec decimal ms (self', w'))) = Some found).
Proof.
  split.
  - intros tex_document output_fn encoding w ms H.
    unfold get_positioning_info. now rewrite run_keeps_parsed_data.
  - intros self w self' w' H.
    apply convert_returns in H as (w1 & found & Hdvi & Hpng & ->).
    exists w1, found. split; [assumption|].
    split; [now apply create_png_returns in Hpng|].
    intros ms Hms. unfold get_positioning_info.
    now rewrite run_keeps_parsed_data.
Qed.

End WithMachine.

Lemma geometry_values_are_numerals_witness :
  exists d h wd,
    get_positioning_info
      (snd (fst (convert no_str utf8_codec (machine latex_ok dvipng_ok) unicode_digit
                   formula empty_disk))) =
      Some {[ "depth" := PyStr d; "height" := PyStr h; "width" := PyStr wd ]}
    /\ is_number unicode_digit d = true /\ is_number unicode_digit h = true
    /\ is_number unicode_digit wd = true.
Proof.
  apply (geometry_values_are_numerals no_str utf8_codec
           (machine latex_ok dvipng_ok) unicode_digit formula empty_disk _
           (set_files {[ "/work/f.png" := "png" ]} empty_disk)).
  vm_compute. reflexivity.
Defined.

(** C5 as stated fails: after the conversion of the example the three
    values are the texts ["3"], ["12"] and ["40"], and a text is not
    an integer. *)
Lemma geometry_values_are_not_integers :
  get_positioning_info
    (snd (fst (convert no_str utf8_codec (machine latex_ok dvipng_ok) unicode_digit
                 formula empty_disk))) =
    Some {[ "depth" := PyStr "3"; "height" := PyStr "12";
            "width" := PyStr "40" ]} /\
  ~ (exists found,
       get_positioning_info
         (snd (fst (convert no_str utf8_codec (machine latex_ok dvipng_ok) unicode_digit
                      formula empty_disk))) = Some found /\
       forall key, In key ["width"; "height"; "depth"] ->
         exists v, found !! key = Some v /\ is_nonnegative_int v = true).
Proof.
  assert (get_positioning_info
    (snd (fst (convert no_str utf8_codec (machine latex_ok dvipng_ok) unicode_digit
                 formula empty_disk))) =
    Some {[ "depth" := PyStr "3"; "height" := PyStr "12";
            "width" := PyStr "40" ]}) as E by (vm_compute; reflexivity).
  split; [exact E|].
  intros (found & Hf & Hint). rewrite E in Hf. injection Hf as <-.
  destruct (Hint "width") as (v & Hv & Hi); [simpl; auto|].
  vm_compute in Hv. injection Hv as <-. discriminate Hi.
Qed.

(** Calls on a new instance without a [convert]; and a conversion of
    the example followed by a change of resolution and a rejected
    colour: the geometry of the conversion is still there. *)
Lemma positioning_info_follows_convert_witness :
  get_positioning_info
    (fst (run no_str utf8_codec (machine latex_ok dvipng_ok) unicode_digit
            [SetDpi (PyInt 115); CreateDvi "f.dvi"; GetPositioningInfo]
            (init "x" "f.png" "UTF-8", empty_disk))) = None /\
  get_positioning_info
    (fst (run no_str utf8_codec (machine latex_ok dvipng_ok) unicode_digit
            [SetDpi (PyInt 115); SetBackgroundColor PyNone]
            (snd (fst (convert no_str utf8_codec (machine latex_ok dvipng_ok) unicode_digit
                         formula empty_disk)),
             set_files {[ "/work/f.png" := "png" ]} empty_disk)))
    = Some {[ "depth" := PyStr "3"; "height" := PyStr "12";
              "width" := PyStr "40" ]}.
Proof.
  destruct (positioning_info_follows_convert no_str utf8_codec
              (machine latex_ok dvipng_ok) unicode_digit) as [Hnew Hdone].
  split.
  - apply Hnew. vm_compute. reflexivity.
  - destruct (Hdone formula empty_disk
                (snd (fst (convert no_str utf8_codec
                             (machine latex_ok dvipng_ok) unicode_digit formula empty_disk)))
                (set_files {[ "/work/f.png" := "png" ]} empty_disk))
      as (w1 & found & _ & _ & Hkeep); [vm_compute; reflexivity|].
    rewrite (Hkeep [SetDpi (PyInt 115); SetBackgroundColor PyNone])
      in * by (vm_compute; reflexivity).
    pose proof (Hkeep []) as H0. simpl in H0.
    rewrite <- H0 by reflexivity. vm_compute. reflexivity.
Defined.

End ConvertFacts.

(** * Further properties of [image.py] *)

(** ** [parse_log], in full *)

Module ParseLogMore.
Import Text TextFacts ParseLog ParseLogFacts Py Image Doubles.

Lemma parse_log_nonempty logdata :
  logdata <> "" ->
  parse_log logdata
    = Some (join (String nl "") (extract (split_lines logdata))).
Proof.
  intros Hne. unfold parse_log.
  destruct (String.eqb_spec logdata "") as [->|_]; [contradiction|].
  now rewrite loop_closed_form.
Qed.

(** X1: [parse_log] gives [None] for the empty text and for no other;
    for every other text it gives, joined by newlines, the lines that
    come after the first line starting with ["! "], up to the first
    later line that starts with ["No pages of"] or ["Output written"],
    leaving out every line that starts with ["! "]. *)
Theorem parse_log_closed_form logdata :
  (parse_log logdata = None <-> logdata = "") /\
  (logdata <> "" ->
   parse_log logdata
     = Some (join (String nl "") (extract (split_lines logdata)))).
Proof.
  split; [|apply parse_log_nonempty].
  destruct (String.eqb_spec logdata "") as [->|Hne].
  - split; reflexivity.
  - rewrite (parse_log_nonempty logdata Hne).
    split; [discriminate|contradiction].
Qed.

Lemma parse_log_closed_form_witness :
  parse_log halted_log
    = Some (join (String nl "") (extract (split_lines halted_log))).
Proof.
  apply (parse_log_closed_form halted_log). vm_compute. discriminate.
Defined.

Lemma after_first_marker_none lines :
  Forall (fun l => startswith l "! " = false) lines ->
  after_first_marker lines = [].
Proof.
  induction 1 as [|l ls Hl _ IH]; [reflexivity|].
  simpl. unfold is_marker. now rewrite Hl.
Qed.

Lemma call_message_nonempty cmd data : call_message cmd data <> "".
Proof. unfold call_message. discriminate. Qed.

(** X2: a text without any line starting with ["! "] has the empty
    extract; so when the command line and the output of a failed
    [latex] contain no such line, the error that [create_dvi] builds
    has an empty message. *)
Theorem no_marker_no_message :
  (forall logdata,
     logdata <> "" ->
     Forall (fun l => startswith l "! " = false) (split_lines logdata) ->
     parse_log logdata = Some "") /\
  (forall cmd data,
     Forall (fun l => startswith l "! " = false)
       (split_lines (call_message cmd data)) ->
     latex_error (SubprocessError (call_message cmd data))
       = SubprocessError "").
Proof.
  assert (forall logdata,
     logdata <> "" ->
     Forall (fun l => startswith l "! " = false) (split_lines logdata) ->
     parse_log logdata = Some "") as Hfirst.
  { intros logdata Hne Hno.
    rewrite (parse_log_nonempty logdata Hne).
    unfold extract. now rewrite after_first_marker_none. }
  split; [exact Hfirst|].
  intros cmd data Hno. unfold latex_error. cbn [args].
  now rewrite (Hfirst _ (call_message_nonempty cmd data) Hno).
Qed.

(** The only line of the output is glued to the command line, and is
    no marker line there. *)
Lemma no_marker_no_message_witness :
  latex_error
    (SubprocessError (call_message (latex_cmd "f.dvi") ["! Emergency stop."]))
    = SubprocessError "".
Proof.
  apply (proj2 no_marker_no_message).
  vm_compute. repeat constructor.
Defined.

End ParseLogMore.

(** ** [call] and [remove_all], in full *)

Module CallMore.
Import Py OS Image Doubles OSFacts RemoveAllFacts CallFacts CreatePngFacts.

Lemma well_formed_cases proc :
  (Utf8.well_formed (out_stdout proc) = true
   /\ Utf8.well_formed (out_stderr proc) = true)
  \/ (Utf8.well_formed (out_stdout proc) = false
      \/ Utf8.well_formed (out_stderr proc) = false).
Proof.
  destruct (Utf8.well_formed (out_stdout proc));
    destruct (Utf8.well_formed (out_stderr proc)); auto.
Qed.

Section WithMachine.
Variable exec : list string -> world -> option outcome.

(** X3: the four ways [call] can end.  It raises [OSError] exactly
    when the program cannot be started, and then the world is as
    before; [UnicodeDecodeError] exactly when the program ran and one
    of its streams is not UTF-8; [SubprocessError] exactly when it ran,
    both streams decode and the status is not 0; and it returns exactly
    when it ran, both streams decode and the status is 0.  Once the
    program ran, the world is what it left, with the working directory
    of the caller. *)
Theorem call_outcomes cmd w :
  match exec cmd w with
  | None => call exec cmd w = (Raise OSError, w)
  | Some proc =>
      snd (call exec cmd w) = left_by proc w /\
      fst (call exec cmd w) =
        if Utf8.well_formed (out_stdout proc)
           && Utf8.well_formed (out_stderr proc)
        then if (out_status proc =? 0)%Z
             then Ok (kept_streams proc)
             else Raise (SubprocessError
                           (call_message cmd (kept_streams proc)))
        else Raise UnicodeDecodeError
  end /\
  (fst (call exec cmd w) = Raise OSError <-> exec cmd w = None).
Proof.
  destruct (exec cmd w) as [proc|] eqn:H.
  - assert (snd (call exec cmd w) = left_by proc w /\
      fst (call exec cmd w) =
        if Utf8.well_formed (out_stdout proc)
           && Utf8.well_formed (out_stderr proc)
        then if (out_status proc =? 0)%Z
             then Ok (kept_streams proc)
             else Raise (SubprocessError
                           (call_message cmd (kept_streams proc)))
        else Raise UnicodeDecodeError) as Hran.
    { split; [now apply call_world|].
      destruct (well_formed_cases proc) as [[Ho He]|Hbad].
      - rewrite (call_decoded exec cmd w proc H Ho He), Ho, He. reflexivity.
      - rewrite (call_undecodable exec cmd w proc H Hbad).
        destruct Hbad as [-> | ->]; [reflexivity|].
        now rewrite andb_false_r. }
    split; [exact Hran|]. split; [|discriminate].
    destruct Hran as [_ ->].
    destruct (_ && _); [|discriminate].
    destruct (out_status proc =? 0)%Z; discriminate.
  - rewrite (call_not_started exec cmd w H). repeat split.
Qed.

End WithMachine.

(** X4: when the names given to [remove_all] denote files that all
    exist and are pairwise different, every one of them is removed. *)
Theorem remove_all_removes_existing_files fs :
  forall w,
    NoDup (map (resolve w) fs) ->
    (forall f, In f fs -> is_Some (files w !! resolve w f)) ->
    forall f, In f fs ->
      files (snd (remove_all fs w)) !! resolve w f = None.
Proof.
  intros w Hnd Hex f Hf. rewrite remove_all_eq. cbn [snd].
  revert w Hnd Hex Hf.
  induction fs as [|g rest IH]; intros w Hnd Hex Hf; [destruct Hf|].
  simpl map in Hnd. apply NoDup_cons in Hnd as [Hg Hnd].
  destruct (Hex g (or_introl eq_refl)) as [c Hc].
  rewrite remove_each_cons, remove_result, Hc.
  set (w' := set_files (delete (resolve w g) (files w)) w).
  destruct Hf as [<-|Hf].
  - apply remove_each_shrinks. apply lookup_delete_eq.
  - apply (IH w'); [exact Hnd| |exact Hf].
    intros h Hh. unfold w', resolve. simpl.
    rewrite lookup_delete_ne.
    + now apply Hex; right.
    + intros E. apply Hg. rewrite list_elem_of_In. apply in_map_iff.
      exists h. split; [symmetry; exact E|exact Hh].
Qed.

Lemma remove_all_removes_existing_files_witness :
  files (snd (remove_all ["f.tex"; "f.aux"]
                (set_files {[ "/work/f.tex" := "t"; "/work/f.aux" := "a" ]}
                   empty_disk)))
    !! "/work/f.aux" = None.
Proof.
  refine (remove_all_removes_existing_files ["f.tex"; "f.aux"]
            (set_files {[ "/work/f.tex" := "t"; "/work/f.aux" := "a" ]}
               empty_disk) _ _ "f.aux" _).
  - apply NoDup_cons. split.
    + rewrite list_elem_of_In. intros [E|[]]. discriminate E.
    + apply NoDup_cons. split; [apply not_elem_of_nil|apply NoDup_nil_2].
  - intros f [<-|[<-|[]]]; vm_compute; eauto.
  - simpl. auto.
Defined.

Lemma remove_subset p w a v :
  files (snd (OS.remove p w)) !! a = Some v -> files w !! a = Some v.
Proof.
  rewrite remove_result.
  destruct (files w !! resolve w p) eqn:E; simpl; [|auto].
  intros H. apply lookup_delete_Some in H. tauto.
Qed.

Lemma remove_each_subset fs a v :
  forall w, files (snd (remove_each fs w)) !! a = Some v ->
            files w !! a = Some v.
Proof.
  induction fs as [|f rest IH]; intros w; [auto|].
  rewrite remove_each_cons. pose proof (remove_subset f w a v) as Hs.
  destruct (OS.remove f w) as [[[]|e] w']; simpl in *; [|assumption].
  intros H. apply Hs. now apply IH.
Qed.

(** X5: [remove_all] only deletes.  It never raises; a file that
    exists afterwards existed before with the same content, a file
    whose name is not in the list is untouched, the directories and
    the working directory are as before, and calling it again with the
    same list changes nothing more. *)
Theorem remove_all_only_deletes fs w :
  fst (remove_all fs w) = Ok tt /\
  (forall a v, files (snd (remove_all fs w)) !! a = Some v ->
               files w !! a = Some v) /\
  (forall a, (forall f, In f fs -> a <> resolve w f) ->
             files (snd (remove_all fs w)) !! a = files w !! a) /\
  dirs (snd (remove_all fs w)) = dirs w /\
  cwd (snd (remove_all fs w)) = cwd w /\
  remove_all fs (snd (remove_all fs w)) = (Ok tt, snd (remove_all fs w)).
Proof.
  rewrite !remove_all_eq. cbn [fst snd].
  split; [reflexivity|].
  split; [intros a v; apply remove_each_subset|].
  split; [intros a; apply remove_each_other|].
  split; [apply remove_each_keeps_dirs|].
  split; [apply remove_each_keeps_cwd|].
  f_equal.
  destruct fs as [|f rest]; [reflexivity|].
  pose proof (remove_each_head_absent f rest w) as Hgone.
  set (w' := snd (remove_each (f :: rest) w)) in *.
  assert (resolve w' f = resolve w f) as Hr.
  { unfold resolve, w'. now rewrite remove_each_keeps_cwd. }
  rewrite remove_each_cons, remove_result, Hr, Hgone. reflexivity.
Qed.

Lemma remove_all_only_deletes_witness :
  files (snd (remove_all ["f.tex"]
                (set_files {[ "/work/f.tex" := "t"; "/work/f.png" := "p" ]}
                   empty_disk)))
    !! "/work/f.png" = Some "p".
Proof.
  destruct (remove_all_only_deletes ["f.tex"]
              (set_files {[ "/work/f.tex" := "t"; "/work/f.png" := "p" ]}
                 empty_disk)) as (_ & _ & Hother & _).
  rewrite Hother; [reflexivity|].
  intros f [<-|[]]. vm_compute. discriminate.
Defined.

End CallMore.

(** ** The options of an instance *)

Module OptionsMore.
Import Py OS Image Doubles Reach SetterFacts.

Lemma isinstance_bool v :
  isinstance v (PyType TBool) =
    Ok (match v with PyBool _ => true | _ => false end).
Proof. now destruct v. Qed.

(** X6: [set_transparency] accepts the two booleans and nothing else:
    [True] makes the background ["transparent"], [False] makes it
    ["rgb 1 1 1"], and that text is the argument of [-bg] in the
    [dvipng] command; every other value, the integers [0] and [1]
    included, is rejected with a [ValueError]. *)
Theorem set_transparency_accepts_exactly_bool str_other self :
  (forall b,
     set_transparency self (PyBool b)
       = Ok (set_background (if b then "transparent" else "rgb 1 1 1") self)) /\
  (forall v, (forall b, v <> PyBool b) ->
     set_transparency self v
       = Raise (ValueError "Argument must be of type bool!")) /\
  (forall v self' dvi_fn,
     set_transparency self v = Ok self' ->
     nth_error (dvipng_cmd str_other self' dvi_fn) 5 = Some (background self')
     /\ (background self' = "transparent" \/ background self' = "rgb 1 1 1")).
Proof.
  split; [intros b; reflexivity|]. split.
  - intros v Hb. unfold set_transparency. rewrite isinstance_bool.
    destruct v; try reflexivity. destruct (Hb b). reflexivity.
  - intros v self' dvi_fn. unfold set_transparency. rewrite isinstance_bool.
    destruct v; try discriminate. simpl. intros [= <-].
    split; [reflexivity|]. destruct b; simpl; auto.
Qed.

Lemma set_transparency_accepts_exactly_bool_witness :
  set_transparency formula (PyInt 1)
    = Raise (ValueError "Argument must be of type bool!") /\
  nth_error
    (dvipng_cmd no_str (set_background "rgb 1 1 1" formula) "f.dvi") 5
    = Some "rgb 1 1 1".
Proof.
  destruct (set_transparency_accepts_exactly_bool no_str formula)
    as (Hbool & Hother & Hcmd).
  split.
  - apply Hother. discriminate.
  - destruct (Hcmd (PyBool false) (set_background "rgb 1 1 1" formula)
                "f.dvi" (Hbool false)) as [Hbg _].
    exact Hbg.
Defined.

Section WithMachine.
Variable str_other : pyval -> string.
Variable encode : string -> string -> result string.
Variable exec : list string -> world -> option outcome.
Variable decimal : N -> bool.

Lemma convert_keeps_options self w :
  forall t o e,
    configured t o e self ->
    configured t o e (snd (fst (convert str_other encode exec decimal self w))).
Proof.
  intros t o e H. unfold convert.
  destruct (try_except _ _ w) as [[found|err] w']; simpl; exact H.
Qed.

Lemma step_keeps_options m st t o e :
  configured t o e (fst st) ->
  configured t o e (fst (step str_other encode exec decimal m st)).
Proof.
  destruct st as [self w]. simpl fst. intros H.
  destruct m; simpl; try exact H.
  - unfold set_dpi. destruct (isinstance v (PyType TInt)) as [[]|] eqn:E;
      simpl; try exact H.
    rewrite isinstance_int in E. injection E as E.
    destruct H as (H1 & H2 & H3 & H4 & H5 & H6 & _).
    repeat split; try assumption. simpl. destruct v; try discriminate E;
      reflexivity.
  - unfold set_transparency.
    destruct (isinstance v (PyType TBool)) as [[]|]; simpl; try exact H.
    destruct H as (H1 & H2 & H3 & H4 & H5 & _ & H7).
    repeat split; try assumption. simpl. destruct (truthy v); auto.
  - pose proof (convert_keeps_options self w t o e H) as Hc.
    destruct (convert str_other encode exec decimal self w) as [[r self'] w'].
    exact Hc.
Qed.

(** X7: whatever methods are called on an instance, in whatever order
    and with whatever arguments and outcomes, its document, output name
    and encoding are those given to the constructor, the keep-logs
    attribute is off, the foreground is ["rgb 0 0 0"], the background
    is ["transparent"] or ["rgb 1 1 1"], and the resolution is an
    instance of [int]. *)
Theorem options_stay_within_bounds tex_document output_fn encoding w ms :
  configured tex_document output_fn encoding
    (fst (run str_other encode exec decimal ms
            (init tex_document output_fn encoding, w))).
Proof.
  assert (forall st,
            configured tex_document output_fn encoding (fst st) ->
            configured tex_document output_fn encoding
              (fst (run str_other encode exec decimal ms st))) as Hrun.
  { induction ms as [|m ms IH]; intros st H; [exact H|].
    simpl. apply IH. now apply step_keeps_options. }
  apply Hrun. repeat split. left. reflexivity.
Qed.

End WithMachine.
End OptionsMore.

(** ** [create_dvi] and [convert], further *)

Module ConvertMore.
Import Py OS Image Doubles Reach Text.
Import TextFacts OSFacts RemoveAllFacts CallFacts CreatePngFacts.
Import CreateDviFacts ConvertFacts.

Lemma write_text_keeps_place encode p enc text w :
  cwd (snd (write_text encode p enc text w)) = cwd w /\
  dirs (snd (write_text encode p enc text w)) = dirs w.
Proof.
  unfold write_text. destruct (_ && _); [|split; reflexivity].
  destruct (encode enc text); split; reflexivity.
Qed.

(** Entering the directory returns the directory it started from, or
    raises and leaves the world as it was. *)
Lemma enter_directory_cases path w1 :
  (exists w2, enter_directory path w1 = (Ok (cwd w1), w2)
              /\ dirs w2 = dirs w1 /\ files w2 = files w1)
  \/ enter_directory path w1 = (Raise OSError, w1).
Proof.
  unfold enter_directory. rewrite iobind_eq. unfold getcwd.
  rewrite iobind_eq.
  destruct (negb (cwd w1 =? path)%string && negb (path =? "")%string).
  - unfold chdir. destruct (_ && _).
    + left. eexists. repeat split.
    + right. reflexivity.
  - left. exists w1. repeat split.
Qed.

Lemma chdir_back v home :
  PosixPath.isabs home = true -> home ∈ dirs v ->
  chdir home v = (Ok tt, set_cwd home v).
Proof.
  intros Habs Hin. unfold chdir, resolve.
  rewrite (join_absolute _ _ Habs), bool_decide_eq_true_2 by assumption.
  destruct home; [discriminate Habs|reflexivity].
Qed.

Section WithMachine.
Variable str_other : pyval -> string.
Variable encode : string -> string -> result string.
Variable exec : list string -> world -> option outcome.
Variable decimal : N -> bool.

Lemma run_latex_dirs_any self dvi_fn w2 :
  (forall proc, exec (latex_cmd dvi_fn) w2 = Some proc ->
                dirs (snd (run_latex exec self dvi_fn w2)) = out_dirs proc) /\
  (exec (latex_cmd dvi_fn) w2 = None ->
   dirs (snd (run_latex exec self dvi_fn w2)) = dirs w2).
Proof.
  split.
  - intros proc H. now apply run_latex_dirs.
  - intros H. now rewrite (run_latex_not_started exec self dvi_fn w2 H).
Qed.

Lemma create_dvi_keeps_cwd self dvi_fn w :
  PosixPath.isabs (cwd w) = true ->
  cwd w ∈ dirs w ->
  (forall w2 proc,
     dirs w2 = dirs w ->
     exec (latex_cmd dvi_fn) w2 = Some proc -> cwd w ∈ out_dirs proc) ->
  cwd (snd (create_dvi encode exec self dvi_fn w)) = cwd w.
Proof.
  intros Habs Hhome Htool.
  destruct (write_text_keeps_place encode (tex_fn dvi_fn) (encoding self)
              (tex_document self) w) as [Hc1 Hd1].
  destruct (write_text encode (tex_fn dvi_fn) (encoding self)
              (tex_document self) w) as [[[]|e] w1] eqn:Hw; simpl in Hc1, Hd1.
  2: { unfold create_dvi. rewrite iobind_eq, Hw. exact Hc1. }
  destruct (enter_directory_cases (fst (PosixPath.split dvi_fn)) w1)
    as [(w2 & He & Hd2 & _)|He].
  2: { unfold create_dvi. rewrite iobind_eq, Hw, iobind_eq, He. exact Hc1. }
  rewrite (create_dvi_run encode exec self dvi_fn w w1 w2 Hw He). cbv zeta.
  set (wh := snd (run_latex exec self dvi_fn w2)).
  set (w3 := snd (remove_each [tex_fn dvi_fn; aux_fn dvi_fn] wh)).
  assert (cwd w ∈ dirs w3) as Hin.
  { unfold w3. rewrite remove_each_keeps_dirs. unfold wh.
    destruct (run_latex_dirs_any self dvi_fn w2) as [Hsome Hnone].
    destruct (exec (latex_cmd dvi_fn) w2) as [proc|] eqn:Hx.
    - rewrite (Hsome proc eq_refl). apply (Htool w2 proc); congruence.
    - rewrite (Hnone eq_refl). congruence. }
  rewrite Hc1, (chdir_back w3 (cwd w) Habs Hin).
  destruct (fst (run_latex exec self dvi_fn w2)); cbn [snd].
  - now rewrite remove_each_keeps_cwd.
  - reflexivity.
Qed.

Lemma create_png_keeps_cwd self dvi_fn w :
  cwd (snd (create_png str_other exec decimal self dvi_fn w)) = cwd w.
Proof.
  destruct (exec (dvipng_cmd str_other self dvi_fn) w) as [proc|] eqn:H.
  - destruct (decode_each [out_stdout proc; out_stderr proc])
      as [data|e] eqn:Hd.
    + destruct (Z.eq_dec (out_status proc) 0%Z) as [Hs|Hs].
      * rewrite (create_png_exit_zero _ _ _ self dvi_fn w proc data H Hd Hs).
        cbn [snd]. now rewrite remove_each_keeps_cwd.
      * rewrite (create_png_exit_nonzero _ _ _ self dvi_fn w proc data H Hd Hs).
        cbn [snd]. now rewrite !remove_each_keeps_cwd.
    + rewrite (create_png_undecodable _ _ _ self dvi_fn w proc e H Hd).
      cbn [snd]. now rewrite remove_each_keeps_cwd.
  - rewrite (create_png_not_started _ _ _ self dvi_fn w H).
    cbn [snd]. now rewrite remove_each_keeps_cwd.
Qed.

(** [convert], step by step. *)
Lemma convert_world self w :
  snd (convert str_other encode exec decimal self w) =
    match create_dvi encode exec self (dvi_name self) w with
    | (Ok _, w1) =>
        match create_png str_other exec decimal self (dvi_name self) w1 with
        | (Ok _, w2) => w2
        | (Raise e, w2) =>
            if is_OSError e then snd (remove_each [output_name self] w2)
            else w2
        end
    | (Raise e, w1) =>
        if is_OSError e then snd (remove_each [output_name self] w1) else w1
    end.
Proof.
  unfold convert, try_except. rewrite iobind_eq.
  destruct (create_dvi encode exec self (dvi_name self) w) as [[[]|e] w1].
  - destruct (create_png str_other exec decimal self (dvi_name self) w1)
      as [[found|e] w2]; [reflexivity|].
    destruct (is_OSError e); [|reflexivity].
    now rewrite iobind_eq, remove_all_eq.
  - destruct (is_OSError e); [|reflexivity].
    now rewrite iobind_eq, remove_all_eq.
Qed.

(** X8: [create_dvi] and [convert] give the working directory back.
    When the working directory is absolute and exists, and [latex]
    does not remove it, the working directory after the call is the
    one before it, however the call ends. *)
Theorem working_directory_is_restored self w :
  PosixPath.isabs (cwd w) = true ->
  cwd w ∈ dirs w ->
  (forall dvi_fn w2 proc,
     dirs w2 = dirs w ->
     exec (latex_cmd dvi_fn) w2 = Some proc -> cwd w ∈ out_dirs proc) ->
  (forall dvi_fn,
     cwd (snd (create_dvi encode exec self dvi_fn w)) = cwd w) /\
  cwd (snd (convert str_other encode exec decimal self w)) = cwd w.
Proof.
  intros Habs Hhome Htool.
  assert (forall dvi_fn,
            cwd (snd (create_dvi encode exec self dvi_fn w)) = cwd w) as Hdvi.
  { intros dvi_fn. apply create_dvi_keeps_cwd; try assumption.
    apply Htool. }
  split; [exact Hdvi|].
  rewrite convert_world. specialize (Hdvi (dvi_name self)).
  destruct (create_dvi encode exec self (dvi_name self) w) as [[[]|e] w1];
    simpl in Hdvi.
  - pose proof (create_png_keeps_cwd self (dvi_name self) w1) as Hpng.
    destruct (create_png str_other exec decimal self (dvi_name self) w1)
      as [[found|e] w2]; simpl in Hpng; [congruence|].
    destruct (is_OSError e); [|congruence].
    rewrite remove_each_keeps_cwd. congruence.
  - destruct (is_OSError e); [|assumption].
    now rewrite remove_each_keeps_cwd.
Qed.

(** X9: a [convert] that raises [OSError] (a program that cannot be
    started, a directory that is missing) leaves no output image
    behind, and leaves the object as it was. *)
Theorem convert_removes_image_on_OSError self w self' w' :
  convert str_other encode exec decimal self w = (Raise OSError, self', w') ->
  self' = self /\ files w' !! resolve w' (output_name self) = None.
Proof.
  intros H. split; [exact (convert_raises _ _ _ _ self w _ self' w' H)|].
  pose proof (convert_world self w) as Hw. rewrite H in Hw. cbn [snd] in Hw.
  assert (forall v, files (snd (remove_each [output_name self] v))
                      !! resolve (snd (remove_each [output_name self] v))
                           (output_name self) = None) as Hgone.
  { intros v. unfold resolve. rewrite remove_each_keeps_cwd.
    apply (remove_each_head_absent (output_name self) [] v). }
  unfold convert, try_except in H. rewrite iobind_eq in H.
  destruct (create_dvi encode exec self (dvi_name self) w) as [[[]|e] w1].
  - destruct (create_png str_other exec decimal self (dvi_name self) w1)
      as [[found|e] w2]; [discriminate H|].
    destruct e; simpl in H, Hw; try discriminate H.
    rewrite Hw. apply Hgone.
  - destruct e; simpl in H, Hw; try discriminate H.
    rewrite Hw. apply Hgone.
Qed.

End WithMachine.

Lemma working_directory_is_restored_witness :
  cwd (snd (create_dvi utf8_codec (machine latex_lost dvipng_ok) formula
              "out/f.dvi" disk_with_out)) = "/work" /\
  cwd (snd (convert no_str utf8_codec (machine latex_ok dvipng_ok) unicode_digit formula
              empty_disk)) = "/work".
Proof.
  split.
  - apply (working_directory_is_restored no_str utf8_codec
             (machine latex_lost dvipng_ok) unicode_digit formula disk_with_out);
      [reflexivity|vm_compute; set_solver|].
    intros dvi_fn w2 proc Hd [= <-]. simpl. rewrite Hd. vm_compute. set_solver.
  - apply (working_directory_is_restored no_str utf8_codec
             (machine latex_ok dvipng_ok) unicode_digit formula empty_disk);
      [reflexivity|vm_compute; set_solver|].
    intros dvi_fn w2 proc Hd [= <-]. simpl. rewrite Hd. vm_compute. set_solver.
Defined.

Lemma convert_removes_image_on_OSError_witness :
  files (snd (convert no_str utf8_codec no_tools unicode_digit formula disk_with_image))
    !! "/work/f.png" = None.
Proof.
  refine (proj2 (convert_removes_image_on_OSError no_str utf8_codec no_tools unicode_digit
                   formula disk_with_image formula
                   (snd (convert no_str utf8_codec no_tools unicode_digit formula
                           disk_with_image)) _)).
  vm_compute. reflexivity.
Defined.

End ConvertMore.

(** ** What the two steps leave on disk and report *)

Module StepsMore.
Import Py OS Image Doubles Reach Text ParseLog.
Import TextFacts ParseLogFacts OSFacts RemoveAllFacts CallFacts CreatePngFacts.
Import CreateDviFacts ConvertFacts ParseLogMore ConvertMore.

(** The message that [create_dvi] puts in its error is the extract of
    the message of [call]. *)
Lemma latex_error_message cmd data :
  latex_error (SubprocessError (call_message cmd data))
    = SubprocessError
        (join (String nl "")
           (extract (split_lines (call_message cmd data)))).
Proof.
  unfold latex_error. cbn [args].
  rewrite (parse_log_nonempty _ (call_message_nonempty cmd data)).
  destruct (String.eqb_spec
              (join (String nl "")
                 (extract (split_lines (call_message cmd data))))
              "") as [->|_]; reflexivity.
Qed.

Section WithMachine.
Variable str_other : pyval -> string.
Variable encode : string -> string -> result string.
Variable exec : list string -> world -> option outcome.
Variable decimal : N -> bool.

Lemma decoded proc :
  Utf8.well_formed (out_stdout proc) = true ->
  Utf8.well_formed (out_stderr proc) = true ->
  decode_each [out_stdout proc; out_stderr proc] = Ok (kept_streams proc).
Proof.
  intros Ho He. apply decode_each_well_formed. repeat constructor; assumption.
Qed.

Lemma isabs_rstrip s :
  PosixPath.isabs (PosixPath.rstrip s) = true -> PosixPath.isabs s = true.
Proof.
  destruct s as [|a r]; [discriminate|]. simpl PosixPath.rstrip.
  destruct (PosixPath.rstrip r).
  - destruct (Ascii.eqb a PosixPath.sep); [discriminate|].
    now rewrite !isabs_cons.
  - now rewrite !isabs_cons.
Qed.

Lemma isabs_upto i s :
  PosixPath.isabs (PosixPath.upto i s) = true -> PosixPath.isabs s = true.
Proof.
  unfold PosixPath.upto. destruct s as [|a r]; [now destruct (Z.to_nat i)|].
  destruct (Z.to_nat i); [discriminate|]. simpl. now rewrite !isabs_cons.
Qed.

(** A path in an absolute directory is absolute. *)
Lemma isabs_dirname p :
  PosixPath.isabs (fst (PosixPath.split p)) = true -> PosixPath.isabs p = true.
Proof.
  unfold PosixPath.split. cbn [fst].
  destruct (_ && _); intros H; [apply isabs_rstrip in H|];
    now apply isabs_upto in H.
Qed.

(** With an absolute working directory, and a [dvi_fn] that is a bare
    file name or lies in an absolute directory, [dvi_fn] means the same
    file before and after the change of directory. *)
Lemma stable_dvi_name self dvi_fn w w1 w2 :
  PosixPath.isabs (cwd w) = true ->
  fst (PosixPath.split dvi_fn) = ""
  \/ PosixPath.isabs (fst (PosixPath.split dvi_fn)) = true ->
  write_text encode (tex_fn dvi_fn) (encoding self) (tex_document self) w
    = (Ok tt, w1) ->
  enter_directory (fst (PosixPath.split dvi_fn)) w1 = (Ok (cwd w1), w2) ->
  resolve w2 dvi_fn = resolve w dvi_fn.
Proof.
  intros Habs Hpath Hw He.
  destruct (write_text_ok _ _ _ _ _ _ Hw) as [Hc1 _].
  destruct Hpath as [Hp|Hp].
  - rewrite Hp in He. unfold enter_directory in He.
    rewrite iobind_eq in He. unfold getcwd in He. rewrite iobind_eq in He.
    replace (negb (cwd w1 =? "")%string && negb ("" =? "")%string)
      with false in He by (now rewrite andb_false_r).
    injection He as <-. unfold resolve. now rewrite Hc1.
  - now rewrite !resolve_absolute by now apply isabs_dirname.
Qed.

(** X10: a [latex] that ends with a status other than 0 makes
    [create_dvi] raise a [SubprocessError] whose message is the
    extract, as [parse_log] makes it, of ["Error while executing "]
    followed by the command line and the output; no [.dvi] file is
    left, and the working directory is the one before the call.  This
    is for an absolute working directory that is still there after the
    run, a [dvi_fn] that is a bare file name or lies in an absolute
    directory, and output in UTF-8. *)
Theorem create_dvi_reports_a_failed_run self dvi_fn w w1 w2 proc :
  PosixPath.isabs (cwd w) = true ->
  fst (PosixPath.split dvi_fn) = ""
  \/ PosixPath.isabs (fst (PosixPath.split dvi_fn)) = true ->
  write_text encode (tex_fn dvi_fn) (encoding self) (tex_document self) w
    = (Ok tt, w1) ->
  enter_directory (fst (PosixPath.split dvi_fn)) w1 = (Ok (cwd w1), w2) ->
  exec (latex_cmd dvi_fn) w2 = Some proc ->
  Utf8.well_formed (out_stdout proc) = true ->
  Utf8.well_formed (out_stderr proc) = true ->
  out_status proc <> 0%Z ->
  cwd w ∈ out_dirs proc ->
  fst (create_dvi encode exec self dvi_fn w)
    = Raise (SubprocessError
               (join (String nl "")
                  (extract
                     (split_lines
                        (call_message (latex_cmd dvi_fn)
                           (kept_streams proc))))))
  /\ files (snd (create_dvi encode exec self dvi_fn w)) !! resolve w dvi_fn
     = None
  /\ cwd (snd (create_dvi encode exec self dvi_fn w)) = cwd w.
Proof.
  intros Habs Hpath Hw He Hx Ho Herr Hs Hhome.
  destruct (write_text_ok _ _ _ _ _ _ Hw) as [Hc1 _].
  rewrite <- (stable_dvi_name self dvi_fn w w1 w2 Habs Hpath Hw He).
  rewrite (create_dvi_run encode exec self dvi_fn w w1 w2 Hw He). cbv zeta.
  rewrite (run_latex_exit_nonzero exec self dvi_fn w2 proc _ Hx
             (decoded proc Ho Herr) Hs).
  cbn [fst snd].
  set (wh := if keep_log self then _ else _).
  set (w3 := snd (remove_each [tex_fn dvi_fn; aux_fn dvi_fn] wh)).
  assert (dirs wh = out_dirs proc /\ files wh !! resolve w2 dvi_fn = None)
    as [Hdirs Hgone].
  { pose proof (remove_each_head_absent dvi_fn [] (left_by proc w2)) as Ha.
    unfold wh. destruct (keep_log self).
    - split; [now rewrite remove_each_keeps_dirs|exact Ha].
    - split; [now rewrite !remove_each_keeps_dirs|].
      now apply remove_each_shrinks. }
  assert (cwd w ∈ dirs w3) as Hin.
  { unfold w3. now rewrite remove_each_keeps_dirs, Hdirs. }
  rewrite Hc1, (chdir_back w3 (cwd w) Habs Hin), latex_error_message.
  split; [reflexivity|]. cbn [snd]. split; [|reflexivity].
  unfold w3. now apply remove_each_shrinks.
Qed.

(** X11: a [latex] that ends with status 0 makes [create_dvi] return,
    and the clean-up touches nothing but the [.tex], [.aux] and [.log]
    files: every other file, the [.dvi] file among them, is as [latex]
    left it.  (Same suppositions, and a [dvi_fn] that is a bare file
    name or lies in an absolute directory.) *)
Theorem create_dvi_keeps_what_latex_made self dvi_fn w w1 w2 proc :
  PosixPath.isabs (cwd w) = true ->
  fst (PosixPath.split dvi_fn) = ""
  \/ PosixPath.isabs (fst (PosixPath.split dvi_fn)) = true ->
  write_text encode (tex_fn dvi_fn) (encoding self) (tex_document self) w
    = (Ok tt, w1) ->
  enter_directory (fst (PosixPath.split dvi_fn)) w1 = (Ok (cwd w1), w2) ->
  exec (latex_cmd dvi_fn) w2 = Some proc ->
  Utf8.well_formed (out_stdout proc) = true ->
  Utf8.well_formed (out_stderr proc) = true ->
  out_status proc = 0%Z ->
  cwd w ∈ out_dirs proc ->
  fst (create_dvi encode exec self dvi_fn w) = Ok tt /\
  forall a,
    a <> resolve w (tex_fn dvi_fn) ->
    a <> resolve w (aux_fn dvi_fn) ->
    a <> resolve w (log_fn dvi_fn) ->
    files (snd (create_dvi encode exec self dvi_fn w)) !! a
      = out_files proc !! a.
Proof.
  intros Habs Hpath Hw He Hx Ho Herr Hs Hhome.
  destruct (stable_names encode self dvi_fn w w1 w2 Habs Hpath Hw He)
    as [Hc1 Hst].
  rewrite (create_dvi_run encode exec self dvi_fn w w1 w2 Hw He). cbv zeta.
  rewrite (run_latex_exit_zero exec self dvi_fn w2 proc _ Hx
             (decoded proc Ho Herr) Hs).
  cbn [fst snd].
  set (w3 := snd (remove_each [tex_fn dvi_fn; aux_fn dvi_fn]
                    (left_by proc w2))).
  assert (cwd w ∈ dirs w3) as Hin.
  { unfold w3. now rewrite remove_each_keeps_dirs. }
  rewrite Hc1, (chdir_back w3 (cwd w) Habs Hin).
  split; [reflexivity|]. intros a Htex Haux Hlog. cbn [snd].
  rewrite remove_each_other.
  - simpl files. unfold w3. rewrite remove_each_other; [reflexivity|].
    intros f [<-|[<-|[]]].
    + intros ->. apply Htex. apply (Hst (left_by proc w2) ".tex"). now left.
    + intros ->. apply Haux. apply (Hst (left_by proc w2) ".aux"). now left.
  - intros f [<-|[]].
    intros ->. apply Hlog. apply (Hst (set_cwd (cwd w) w3) ".log"). now right.
Qed.

(** X12: [create_png] deletes at most two files.  Whatever [dvipng]
    does, a file other than [dvi_fn] and the output image is afterwards
    as [dvipng] left it; and when [dvipng] ended with status 0 this
    holds for the output image too, unless it is [dvi_fn] itself. *)
Theorem create_png_keeps_what_dvipng_made self dvi_fn w proc :
  exec (dvipng_cmd str_other self dvi_fn) w = Some proc ->
  (forall a,
     a <> resolve w dvi_fn -> a <> resolve w (output_name self) ->
     files (snd (create_png str_other exec decimal self dvi_fn w)) !! a
       = out_files proc !! a) /\
  (out_status proc = 0%Z ->
   forall a,
     a <> resolve w dvi_fn ->
     files (snd (create_png str_other exec decimal self dvi_fn w)) !! a
       = out_files proc !! a).
Proof.
  intros H.
  assert (forall f a, a <> resolve w f ->
            files (snd (remove_each [f] (left_by proc w))) !! a
              = out_files proc !! a) as Hone.
  { intros f a Ha. rewrite remove_each_other; [reflexivity|].
    intros g [<-|[]]. exact Ha. }
  destruct (decode_each [out_stdout proc; out_stderr proc]) as [data|e] eqn:Hd.
  - destruct (Z.eq_dec (out_status proc) 0%Z) as [Hs|Hs].
    + rewrite (create_png_exit_zero _ _ _ self dvi_fn w proc data H Hd Hs).
      cbn [snd]. split; [intros a Ha _|intros _ a Ha]; now apply Hone.
    + rewrite (create_png_exit_nonzero _ _ _ self dvi_fn w proc data H Hd Hs).
      cbn [snd]. split; [|intros Hz; destruct (Hs Hz)].
      intros a Ha Hout. rewrite remove_each_other.
      * now apply Hone.
      * intros g [<-|[]]. unfold resolve. rewrite remove_each_keeps_cwd.
        exact Ha.
  - rewrite (create_png_undecodable _ _ _ self dvi_fn w proc e H Hd).
    cbn [snd]. split; [intros a Ha _|intros _ a Ha]; now apply Hone.
Qed.

End WithMachine.

Lemma create_dvi_reports_a_failed_run_witness :
  fst (create_dvi utf8_codec (machine latex_fails dvipng_ok) formula "f.dvi"
         empty_disk)
    = Raise (SubprocessError (unlines ["l.3 $\foo"; "         $"])).
Proof.
  pose (w1 := set_files {[ "/work/f.tex" := "\documentclass{article}" ]}
                empty_disk).
  destruct (create_dvi_reports_a_failed_run utf8_codec
              (machine latex_fails dvipng_ok) formula "f.dvi" empty_disk
              w1 w1 (latex_fails w1) eq_refl (or_introl eq_refl) eq_refl
              eq_refl eq_refl eq_refl eq_refl
              ltac:(vm_compute; discriminate) eq_refl)
    as [Hraised _].
  rewrite Hraised. vm_compute. reflexivity.
Defined.

Lemma create_dvi_keeps_what_latex_made_witness :
  files (snd (create_dvi utf8_codec (machine latex_ok dvipng_ok) formula
                "f.dvi" empty_disk)) !! "/work/f.dvi" = Some "dvi".
Proof.
  pose (w1 := set_files {[ "/work/f.tex" := "\documentclass{article}" ]}
                empty_disk).
  destruct (create_dvi_keeps_what_latex_made utf8_codec
              (machine latex_ok dvipng_ok) formula "f.dvi" empty_disk
              w1 w1 (latex_ok w1) eq_refl (or_introl eq_refl) eq_refl eq_refl
              eq_refl eq_refl eq_refl eq_refl eq_refl)
    as [_ Hkept].
  rewrite Hkept; [reflexivity| | |]; vm_compute; discriminate.
Defined.

Lemma create_png_keeps_what_dvipng_made_witness :
  files (snd (create_png no_str (machine latex_ok dvipng_ok) unicode_digit formula "f.dvi"
                (set_files {[ "/work/f.dvi" := "dvi" ]} empty_disk)))
    !! "/work/f.png" = Some "png".
Proof.
  destruct (create_png_keeps_what_dvipng_made no_str
              (machine latex_ok dvipng_ok) unicode_digit formula "f.dvi"
              (set_files {[ "/work/f.dvi" := "dvi" ]} empty_disk)
              (dvipng_ok (set_files {[ "/work/f.dvi" := "dvi" ]} empty_disk))
              eq_refl) as [_ Hkept].
  rewrite Hkept; [reflexivity|reflexivity|]. vm_compute. discriminate.
Defined.

End StepsMore.

(** ** The geometry pattern as a function of the line *)

Module RegexMore.
Import DvipngRegex DvipngRegexFacts.

Section WithDigits.
Variable decimal : N -> bool.

(** X13: [DVIPNG_REGEX.search] settles every line one way: either the
    line does not start as the pattern says and nothing is found, or
    three groups are found, and they are the only depth, height and
    width with which the line can be read (the width taken with all
    its digits).  A digit is any decimal digit of Unicode. *)
Theorem search_settles_every_line (line : string) :
  (search decimal line = None /\ unmatched decimal line)
  \/ exists d h w,
       search decimal line = Some [d; h; w] /\ reads decimal line d h w /\
       forall d' h' w',
         reads decimal line d' h' w' -> d' = d /\ h' = h /\ w' = w.
Proof.
  destruct (search decimal line) as [groups|] eqn:E.
  - right. destruct (search_sound decimal line groups E)
      as (d & h & w & tail & -> & _ & _ & _).
    exists d, h, w. split; [reflexivity|]. split; [now apply search_reads|].
    intros d' h' w' H. apply search_reads in H. rewrite E in H.
    now injection H as -> -> ->.
  - left. split; [reflexivity|now apply search_none].
Qed.

End WithDigits.

End RegexMore.

(** * Properties of [gladtex.py] *)

Module GladtexFacts.
Import OS Gladtex GladtexNotions AsciiPattern Text.
Import TextFacts AsciiPatternFacts.

(** ** [format_ordinal] *)

(** X14: [format_ordinal] returns for every integer, and the ending it
    appends to the decimal numeral depends on the last digit alone:
    [st], [nd] and [rd] after 1, 2 and 3 (so also after 11, 12 and 13),
    [th] otherwise.  For a negative number the last digit is that of
    the floored remainder: [-1] is followed by [th]. *)
Theorem format_ordinal_goes_by_last_digit (number : Z) :
  format_ordinal number
    = Return (Py.str_of_Z number
                +:+ (if (number mod 10 =? 1)%Z then "st"
                     else if (number mod 10 =? 2)%Z then "nd"
                     else if (number mod 10 =? 3)%Z then "rd"
                     else "th")).
Proof.
  unfold format_ordinal.
  pose proof (Z.mod_pos_bound number 10 ltac:(lia)) as Hm.
  remember (number mod 10)%Z as m eqn:E. clear E.
  assert (m = 0 \/ m = 1 \/ m = 2 \/ m = 3 \/ m = 4 \/ m = 5 \/ m = 6
          \/ m = 7 \/ m = 8 \/ m = 9)%Z as Hcase by lia.
  repeat (destruct Hcase as [->|Hcase]); try subst m; reflexivity.
Qed.

(** ** The colour pattern *)

Lemma number_cons c r :
  number (String c r) =
    if is_digit c then
      match r with
      | String p r' =>
          if Ascii.eqb p "."%char then
            match group r' with
            | Some (_, rest) => Some rest
            | None => Some r
            end
          else Some r
      | EmptyString => Some r
      end
    else None.
Proof. reflexivity. Qed.

(** What [number] takes off the head of a text is a decimal. *)
Lemma number_sound s r :
  number s = Some r -> exists x, is_decimal x /\ s = x +:+ r.
Proof.
  destruct s as [|c t]; [discriminate|]. rewrite number_cons.
  destruct (is_digit c) eqn:Hc; [|discriminate].
  assert (is_decimal (String c "") /\ String c t = String c "" +:+ t) as Hone.
  { split; [|reflexivity]. exists c. split; [assumption|now left]. }
  destruct t as [|p t']; [intros [= <-]; now exists (String c "")|].
  destruct (Ascii.eqb_spec p "."%char) as [->|Hp];
    [|intros [= <-]; now exists (String c "")].
  destruct (group t') as [[d rest]|] eqn:Hg;
    [|intros [= <-]; now exists (String c "")].
  intros [= <-]. apply ascii_group_spec in Hg as (-> & Hd & _).
  exists (String c ("." +:+ d)). split.
  - exists c. split; [assumption|]. right. now exists d.
  - now rewrite !append_cons, append_assoc.
Qed.

(** A decimal before a comma is taken whole. *)
Lemma number_comma x rest :
  is_decimal x -> number (x +:+ "," +:+ rest) = Some ("," +:+ rest).
Proof.
  intros (c & Hc & [->|(frac & Hf & ->)]).
  - change (String c "" +:+ "," +:+ rest) with (String c (String "," rest)).
    rewrite number_cons, Hc. reflexivity.
  - change (String c ("." +:+ frac) +:+ "," +:+ rest)
      with (String c (String "." (frac +:+ String "," rest))).
    rewrite number_cons, Hc.
    assert (group (frac +:+ String "," rest) = Some (frac, String "," rest))
      as Hg by (apply ascii_group_spec; repeat split; assumption).
    simpl Ascii.eqb. cbv iota. rewrite Hg. reflexivity.
Qed.

(** A decimal at the head of a text is always found. *)
Lemma number_some x tail :
  is_decimal x -> exists r, number (x +:+ tail) = Some r.
Proof.
  intros (c & Hc & [->|(frac & Hf & ->)]).
  - change (String c "" +:+ tail) with (String c tail).
    rewrite number_cons, Hc.
    destruct tail as [|p t]; [now eexists|].
    destruct (Ascii.eqb p "."); [|now eexists].
    destruct (group t) as [[d r]|]; now eexists.
  - change (String c ("." +:+ frac) +:+ tail)
      with (String c (String "." (frac +:+ tail))).
    rewrite number_cons, Hc. simpl Ascii.eqb. cbv iota.
    destruct (ascii_group_greedy frac tail Hf) as (more & r & Hg & _).
    rewrite Hg. now eexists.
Qed.

(** The matcher decides the pattern. *)
Lemma color_regex_match_iff s :
  color_regex_match s = true <-> color_matches s.
Proof.
  unfold color_regex_match. split.
  - destruct (_ ≫= _) as [r5|] eqn:E; [intros _|discriminate].
    apply bind_Some in E as (r1 & H1 & E).
    apply bind_Some in E as (r2 & H2 & E).
    apply bind_Some in E as (r3 & H3 & E).
    apply bind_Some in E as (r4 & H4 & H5).
    apply number_sound in H1 as (r & Hr & ->).
    apply literal_spec in H2 as ->.
    apply number_sound in H3 as (g & Hg & ->).
    apply literal_spec in H4 as ->.
    apply number_sound in H5 as (b & Hb & ->).
    exists r, g, b, r5. repeat split; assumption.
  - intros (r & g & b & tail & Hr & Hg & Hb & ->).
    rewrite (number_comma r _ Hr), option_bind_Some.
    rewrite literal_append, option_bind_Some.
    rewrite (number_comma g _ Hg), option_bind_Some.
    rewrite literal_append, option_bind_Some.
    destruct (number_some b tail Hb) as (r5 & ->). reflexivity.
Qed.


(** ** [validate_options] *)

Lemma rejected_iff v : rejected v = false <-> accepted v.
Proof.
  destruct v as [s|]; simpl; [|tauto].
  destruct (String.eqb_spec s "") as [->|Hs]; simpl.
  - split; [now left|reflexivity].
  - rewrite negb_false_iff, color_regex_match_iff.
    split; [now right|]. intros [H|H]; [contradiction|assumption].
Qed.

Lemma rejected_not v : rejected v = true <-> ~ accepted v.
Proof.
  rewrite <- rejected_iff. destruct (rejected v); split; congruence.
Qed.

(** X15: for colour options in ASCII, [validate_options] returns,
    leaving both streams as they are, exactly when each of the two
    options is absent, empty or starts with three decimals separated by
    commas, a decimal being one digit, alone or followed by a dot and
    digits.  Otherwise it prints the message of the first offending
    option on the standard output (nothing on the error stream) and
    exits: with status 12 for the background, and with status 13 for
    the foreground when the background passed. *)
Theorem validate_options_outcome opts c :
  plain (background_color opts) ->
  plain (foreground_color opts) ->
  let r := validate_options opts c in
  (fst r = Return tt <->
     accepted (background_color opts) /\ accepted (foreground_color opts)) /\
  (fst r = Stop (SystemExit 12) <-> ~ accepted (background_color opts)) /\
  (fst r = Stop (SystemExit 13) <->
     accepted (background_color opts) /\ ~ accepted (foreground_color opts)) /\
  stderr (snd r) = stderr c /\
  stdout (snd r)
    = stdout c
        +:+ (if rejected (background_color opts)
             then color_message "-b" +:+ String nl ""
             else if rejected (foreground_color opts)
             then color_message "-c" +:+ String nl ""
             else "").
Proof.
  intros _ _.
  unfold validate_options, bind, print, write_stdout, sys_exit, stopping, ret.
  pose proof (rejected_iff (background_color opts)) as Hb1.
  pose proof (rejected_not (background_color opts)) as Hb2.
  pose proof (rejected_iff (foreground_color opts)) as Hf1.
  pose proof (rejected_not (foreground_color opts)) as Hf2.
  destruct (rejected (background_color opts));
    [|destruct (rejected (foreground_color opts))];
    cbn [fst snd stdout stderr];
    (split; [|split; [|split; [|split]]]);
    try reflexivity; try (intuition congruence).
  destruct c as [o e]. cbn [stdout]. now rewrite append_nil_r.
Qed.

(** X16: neither the range of the numbers nor what follows them is
    examined: three digits separated by commas pass whatever the
    digits are (the message asks for numbers between 0 and 1) and
    whatever text comes after them. *)
Theorem validate_options_checks_no_range a b c tail opts cons :
  is_digit a = true -> is_digit b = true -> is_digit c = true ->
  background_color opts
    = Some (String a ("," +:+ String b ("," +:+ String c tail))) ->
  foreground_color opts = background_color opts ->
  validate_options opts cons = (Return tt, cons).
Proof.
  intros Ha Hb Hc Hbg Hfg.
  assert (forall d, is_digit d = true -> is_decimal (String d "")) as Hdec.
  { intros d Hd. exists d. split; [assumption|now left]. }
  assert (rejected (background_color opts) = false) as Hr.
  { apply rejected_iff. rewrite Hbg. right.
    exists (String a ""), (String b ""), (String c ""), tail.
    repeat split; auto. }
  unfold validate_options, bind, ret. now rewrite Hfg, Hr.
Qed.

Lemma validate_options_outcome_witness :
  fst (validate_options
         (GladtexNotions.with_colors (Some "1,0.5,0") (Some "red")
            (GladtexNotions.just "a.htex")) GladtexNotions.quiet)
    = Stop (SystemExit 13).
Proof.
  apply (validate_options_outcome
           (GladtexNotions.with_colors (Some "1,0.5,0") (Some "red")
              (GladtexNotions.just "a.htex")) GladtexNotions.quiet
           eq_refl eq_refl).
  split.
  - apply rejected_iff. reflexivity.
  - apply rejected_not. reflexivity.
Defined.

Lemma validate_options_checks_no_range_witness :
  validate_options
    (GladtexNotions.with_colors (Some "9,9,9 and more") (Some "9,9,9 and more")
       (GladtexNotions.just "a.htex")) GladtexNotions.quiet
    = (Return tt, GladtexNotions.quiet).
Proof.
  apply (validate_options_checks_no_range "9" "9" "9" " and more");
    reflexivity.
Defined.


(** ** [Main.exit] *)

Lemma endswith_cons a r suffix :
  endswith (String a r) suffix
    = String.eqb (String a r) suffix || endswith r suffix.
Proof. reflexivity. Qed.

(** Whether a text that ends with a non-empty piece ends with a newline
    is decided by the piece. *)
Lemma endswith_append s b r :
  endswith (s +:+ String b r) (String nl "")
    = endswith (String b r) (String nl "").
Proof.
  induction s as [|a s IH]; [reflexivity|].
  rewrite append_cons, endswith_cons, IH.
  replace (String a (s +:+ String b r) =? String nl "")%string with false;
    [reflexivity|].
  symmetry. apply String.eqb_neq. intros [= _ E].
  destruct s; discriminate E.
Qed.

Lemma exit_eq {A} text status c :
  @exit A text status c
    = (Stop (SystemExit status),
       Console (stdout c)
         (stderr c +:+ text
            +:+ (if endswith text (String nl "") then "" else String nl ""))).
Proof.
  unfold exit, bind, write_stderr, ret, sys_exit, stopping.
  destruct (endswith text (String nl "")); cbn [stdout stderr];
    [now rewrite append_nil_r|now rewrite append_assoc].
Qed.

(** X17: [Main.exit] always ends the program with the given status,
    writes nothing on the standard output, and what it adds to the
    error stream is the text, with a newline added exactly when the
    text does not end with one; so what is added always ends with a
    newline, also for the empty text. *)
Theorem exit_ends_the_line (text : string) (status : Z) (c : console) :
  exists written,
    @exit unit text status c
      = (Stop (SystemExit status),
         Console (stdout c) (stderr c +:+ written)) /\
    endswith written (String nl "") = true /\
    written = (if endswith text (String nl "") then text
               else text +:+ String nl "").
Proof.
  rewrite exit_eq.
  destruct (endswith text (String nl "")) eqn:E.
  - exists text. rewrite append_nil_r. repeat split. assumption.
  - exists (text +:+ String nl ""). repeat split.
    rewrite endswith_append. reflexivity.
Qed.


(** ** Paths *)

Lemma rfind_cons c a r :
  PosixPath.rfind c (String a r) =
    if (0 <=? PosixPath.rfind c r)%Z then (PosixPath.rfind c r + 1)%Z
    else if Ascii.eqb a c then 0%Z else (-1)%Z.
Proof. reflexivity. Qed.

Lemma rfind_lower c s : (-1 <= PosixPath.rfind c s)%Z.
Proof.
  induction s as [|a r IH]; [simpl; lia|].
  rewrite rfind_cons.
  destruct (Z.leb_spec 0 (PosixPath.rfind c r)); [lia|].
  destruct (Ascii.eqb a c); lia.
Qed.

Lemma substring_whole s : String.substring 0 (String.length s) s = s.
Proof. induction s as [|a r IH]; [reflexivity|]. simpl. now rewrite IH. Qed.

Lemma from_cons i a r :
  (0 <= i)%Z ->
  PosixPath.from (i + 1) (String a r) = PosixPath.from i r.
Proof.
  intros Hi. unfold PosixPath.from.
  replace (Z.to_nat (i + 1)) with (S (Z.to_nat i)) by lia.
  reflexivity.
Qed.

Lemma from_zero s : PosixPath.from 0 s = s.
Proof.
  unfold PosixPath.from. change (Z.to_nat 0) with 0.
  rewrite Nat.sub_0_r. apply substring_whole.
Qed.

(** What follows the last occurrence of a character does not contain
    it. *)
Lemma rfind_from c s :
  PosixPath.rfind c (PosixPath.from (PosixPath.rfind c s + 1) s) = (-1)%Z.
Proof.
  induction s as [|a r IH]; [reflexivity|].
  pose proof (rfind_lower c r) as Hl.
  rewrite rfind_cons.
  destruct (Z.leb_spec 0 (PosixPath.rfind c r)) as [H|H].
  - rewrite from_cons by lia. exact IH.
  - assert (PosixPath.rfind c r = (-1)%Z) as Hr by lia.
    destruct (Ascii.eqb a c) eqn:Hac.
    + change (0 + 1)%Z with (0 + 1)%Z. rewrite from_cons by lia.
      now rewrite from_zero.
    + change (-1 + 1)%Z with 0%Z. rewrite from_zero, rfind_cons, Hr, Hac.
      reflexivity.
Qed.

Lemma basename_has_no_separator p :
  PosixPath.rfind PosixPath.sep (basename p) = (-1)%Z.
Proof. unfold basename, PosixPath.split. cbn [snd]. apply rfind_from. Qed.

Lemma split_char_nonempty c s : exists a p, split_char c s = a :: p.
Proof.
  induction s as [|x r (a & p & IH)]; [now eexists _, _|].
  simpl. destruct (Ascii.eqb x c); [now eexists _, _|].
  rewrite IH. now eexists _, _.
Qed.

(** [split_lines] is the split at newlines. *)
Lemma split_lines_split_char s : split_lines s = split_char nl s.
Proof.
  induction s as [|x r IH]; [reflexivity|]. simpl. now rewrite IH.
Qed.

(** ** [get_input_output] *)

Section WithTextLayer.
Variable text_of : string -> string + string.

Lemma read_document_keeps_console opts w stdin c data c' :
  read_document text_of opts w stdin c = (Return data, c') -> c' = c.
Proof.
  unfold read_document, lift.
  destruct (String.eqb (input opts) "-"); [now intros [= _ <-]|].
  destruct (read_file text_of opts w) as [d|[]];
    rewrite ?exit_eq; try discriminate; now intros [= _ <-].
Qed.

(** The base path that an option value gives: its pieces between
    backslashes, joined as a POSIX path. *)
Lemma strip_base_path_given opts d base_path :
  directory opts = Some d ->
  given base_path = true ->
  strip_base_path opts base_path
    = Return (Some (posixpath_join (hd "" (split_char backslash d))
                      (tl (split_char backslash d)))).
Proof.
  intros Hd Hb. unfold strip_base_path. rewrite Hb, Hd.
  destruct (split_char_nonempty backslash d) as (a & p & ->). reflexivity.
Qed.

Lemma get_input_output_eq opts w stdin c data c' :
  read_document text_of opts w stdin c = (Return data, c') ->
  get_input_output text_of opts w stdin c
    = match guess_base_path opts (output_of opts) with
      | Return guessed =>
          match strip_base_path opts guessed with
          | Return base_path =>
              (Return (data, base_path,
                       (if pandocfilter opts then "pandocfilter" else "html"),
                       basename (output_of opts)), c)
          | Stop e => (Stop e, c)
          end
      | Stop e => (Stop e, c)
      end.
Proof.
  intros Hr. pose proof (read_document_keeps_console _ _ _ _ _ _ Hr) as ->.
  unfold get_input_output, bind. rewrite Hr. unfold lift, ret.
  destruct (guess_base_path opts (output_of opts)) as [g|e]; [|reflexivity].
  destruct (strip_base_path opts g); reflexivity.
Qed.

Lemma get_input_output_stops opts w stdin c e c' :
  read_document text_of opts w stdin c = (Stop e, c') ->
  get_input_output text_of opts w stdin c = (Stop e, c').
Proof. intros Hr. unfold get_input_output, bind. now rewrite Hr. Qed.

(** Without a usable [-d] option the guess is either the directory of
    the [-o] name, which is then not empty, or no change. *)
Lemma guess_base_path_cases opts g :
  given (directory opts) = false ->
  guess_base_path opts (output_of opts) = Return g ->
  (given g = true /\ given (output opts) = true
   /\ dirname (default "" (output opts)) <> "")
  \/ g = directory opts.
Proof.
  intros Hd. unfold guess_base_path, output_of. rewrite Hd. cbn [negb].
  destruct (output opts) as [o|] eqn:Ho; cbn [given default]; unfold id.
  - destruct (String.eqb_spec o "") as [->|Hne]; cbn [negb andb].
    + destruct (_ && _); [discriminate|]. intros [= <-]. now right.
    + destruct (String.eqb_spec (dirname o) "") as [He|He]; cbn [negb].
      * destruct (_ && _); [discriminate|]. intros [= <-]. now right.
      * intros [= <-]. left. split; [|split; [reflexivity|assumption]].
        cbn [given]. now apply negb_true_iff, String.eqb_neq.
  - cbn [andb]. destruct (_ && _); [discriminate|]. intros [= <-]. now right.
Qed.

(** X18: when [get_input_output] returns, nothing was written, the
    base path comes from the [-d] option alone (its pieces between
    backslashes joined with [/]; [None] without the option), and the
    output name is the last component of the name chosen on lines
    156-159, so it contains no [/]. *)
Theorem get_input_output_result opts w stdin c data base_path fmt out c' :
  get_input_output text_of opts w stdin c
    = (Return (data, base_path, fmt, out), c') ->
  c' = c /\
  base_path
    = match directory opts with
      | Some d => Some (posixpath_join (hd "" (split_char backslash d))
                          (tl (split_char backslash d)))
      | None => None
      end /\
  fmt = (if pandocfilter opts then "pandocfilter" else "html") /\
  out = basename (output_of opts) /\
  PosixPath.rfind PosixPath.sep out = (-1)%Z.
Proof.
  destruct (read_document text_of opts w stdin c) as [[d|e] c1] eqn:Hr;
    [|rewrite (get_input_output_stops _ _ _ _ _ _ Hr); discriminate].
  rewrite (get_input_output_eq _ _ _ _ _ _ Hr).
  destruct (guess_base_path opts (output_of opts)) as [g|e] eqn:Hg;
    [|discriminate].
  destruct (strip_base_path opts g) as [b|e] eqn:Hs; [|discriminate].
  intros [= <- <- <- <- <-].
  repeat split; [|apply basename_has_no_separator].
  destruct (given g) eqn:Hgiven.
  - destruct (directory opts) as [dir|] eqn:Hd.
    + rewrite (strip_base_path_given opts dir g Hd Hgiven) in Hs.
      now injection Hs as <-.
    + unfold strip_base_path in Hs. rewrite Hgiven, Hd in Hs. discriminate.
  - unfold strip_base_path in Hs. rewrite Hgiven in Hs. injection Hs as <-.
    destruct (given (directory opts)) eqn:Hdir.
    + unfold guess_base_path in Hg. rewrite Hdir in Hg. cbn [negb] in Hg.
      injection Hg as <-. congruence.
    + destruct (guess_base_path_cases opts g Hdir Hg) as [(Hg' & _)| ->];
        [congruence|].
      destruct (directory opts) as [dir|]; [|reflexivity].
      simpl in Hdir. apply negb_false_iff, String.eqb_eq in Hdir.
      now subst dir.
Qed.

End WithTextLayer.


Section GuessingAndReading.
Variable text_of : string -> string + string.

(** X19: when the [-d] option is not given, the base path is never
    derived from the names of the files, as lines 161-165 set out to
    do.  Once the document is read: an [-o] name with a directory part
    ends in an [AttributeError] (line 167 splits [options.directory],
    which is [None]); otherwise an input name with a directory part
    ends in a [TypeError] (line 165 passes the built-in [input]); and
    when neither name has a directory part the call returns, with no
    base path. *)
Theorem get_input_output_cannot_guess_the_directory
    opts w stdin c data c' :
  read_document text_of opts w stdin c = (Return data, c') ->
  directory opts = None ->
  (given (output opts) = true ->
   dirname (default "" (output opts)) <> "" ->
   fst (get_input_output text_of opts w stdin c)
     = Stop (AttributeError none_has_no_split)) /\
  (given (output opts) = false \/ dirname (default "" (output opts)) = "" ->
   dirname (input opts) <> "" ->
   fst (get_input_output text_of opts w stdin c)
     = Stop (TypeError not_a_path)) /\
  (given (output opts) = false \/ dirname (default "" (output opts)) = "" ->
   dirname (input opts) = "" ->
   fst (get_input_output text_of opts w stdin c)
     = Return (data, None,
               (if pandocfilter opts then "pandocfilter" else "html"),
               basename (output_of opts))).
Proof.
  intros Hr Hnone. rewrite (get_input_output_eq _ _ _ _ _ _ _ Hr).
  unfold guess_base_path. rewrite Hnone. cbn [given negb].
  split; [|split].
  - intros Ho Hdir. rewrite Ho.
    apply String.eqb_neq in Hdir. rewrite Hdir. cbn [negb andb].
    unfold strip_base_path. rewrite Hnone.
    assert (given (Some (dirname (output_of opts))) = true) as ->;
      [|reflexivity].
    unfold output_of. rewrite Ho.
    destruct (output opts) as [o|]; [|discriminate Ho].
    cbn [default given] in *. unfold id in *. now rewrite Hdir.
  - intros Hout Hin.
    assert (given (output opts)
            && negb (dirname (default "" (output opts)) =? "")%string = false)
      as ->.
    { destruct Hout as [->| ->]; [reflexivity|]. apply andb_false_r. }
    assert (input opts <> "") as Hne
      by (intros E; rewrite E in Hin; now apply Hin).
    apply String.eqb_neq in Hne, Hin. rewrite Hne, Hin. reflexivity.
  - intros Hout Hin.
    assert (given (output opts)
            && negb (dirname (default "" (output opts)) =? "")%string = false)
      as ->.
    { destruct Hout as [->| ->]; [reflexivity|]. apply andb_false_r. }
    rewrite Hin. rewrite andb_false_r.
    unfold strip_base_path. reflexivity.
Qed.

Lemma read_document_file opts w stdin :
  input opts <> "-" ->
  read_document text_of opts w stdin
    = match read_file text_of opts w with
      | Stop (UnicodeDecodeError reason) =>
          exit ("Error while reading from " +:+ input opts +:+ ": "
                  +:+ reason +:+ String nl encoding_hint)
            88
      | Stop IsADirectoryError =>
          exit ("Error: cannot open " +:+ input opts
                  +:+ " for reading: is a directory.") 19
      | Stop FileNotFoundError =>
          exit ("Error: file " +:+ input opts +:+ " not found.") 20
      | r => lift r
      end.
Proof.
  intros Hne. unfold read_document.
  apply String.eqb_neq in Hne. now rewrite Hne.
Qed.

Lemma passed_bare n p :
  PosixPath.rfind PosixPath.sep p = (-1)%Z -> passed n p = [].
Proof.
  intros H. destruct n as [|n]; [reflexivity|].
  cbn [passed]. unfold PosixPath.split. rewrite H.
  change (-1 + 1)%Z with 0%Z. unfold PosixPath.upto.
  change (Z.to_nat 0) with 0%nat.
  now destruct p.
Qed.

Lemma endswith_sep_bare p :
  PosixPath.rfind PosixPath.sep p = (-1)%Z -> PosixPath.endswith_sep p = false.
Proof.
  intros H. unfold PosixPath.endswith_sep. rewrite H.
  destruct p as [|a p]; [reflexivity|].
  apply andb_false_iff. left. apply Z.eqb_neq.
  cbn [String.length]. lia.
Qed.

(** A name without separator is looked up in the working
    directory. *)
Lemma open_read_bare w p :
  PosixPath.rfind PosixPath.sep p = (-1)%Z ->
  open_read w p
    = if bool_decide (resolve w p ∈ dirs w) then Stop IsADirectoryError
      else match files w !! resolve w p with
           | Some content => Return content
           | None => Stop FileNotFoundError
           end.
Proof.
  intros H. unfold open_read.
  now rewrite (passed_bare _ _ H), (endswith_sep_bare _ H).
Qed.

(** What is read is the content of the file of that name. *)
Lemma open_read_returns w p content :
  open_read w p = Return content ->
  (resolve w p ∉ dirs w) /\ files w !! resolve w p = Some content.
Proof.
  unfold open_read.
  destruct (existsb _ _); [discriminate|].
  destruct (_ && _).
  - destruct (bool_decide _); [discriminate|].
    destruct (exists_file _ _); discriminate.
  - destruct (bool_decide_reflect (resolve w p ∈ dirs w)) as [Hd|Hd];
      [discriminate|].
    destruct (files w !! resolve w p) as [c0|]; [|discriminate].
    intros [= ->]. now split.
Qed.

Lemma bare_name_sep p :
  bare_name p = true -> PosixPath.rfind PosixPath.sep p = (-1)%Z.
Proof.
  unfold bare_name. intros H.
  apply andb_true_iff in H as [H _]. apply andb_true_iff in H as [H _].
  apply andb_true_iff in H as [H _]. now apply Z.eqb_eq.
Qed.

Lemma read_file_cases opts w :
  PosixPath.rfind PosixPath.sep (input opts) = (-1)%Z ->
  read_file text_of opts w
    = if bool_decide (resolve w (input opts) ∈ dirs w)
      then Stop IsADirectoryError
      else match files w !! resolve w (input opts) with
           | Some content =>
               if given (encoding opts) || pandocfilter opts
               then match text_of content with
                    | inl text => Return (Text text)
                    | inr reason => Stop (UnicodeDecodeError reason)
                    end
               else Return (Bytes content)
           | None => Stop FileNotFoundError
           end.
Proof.
  intros H. unfold read_file, read_text. rewrite (open_read_bare _ _ H).
  destruct (bool_decide _); [reflexivity|].
  destruct (files w !! _); reflexivity.
Qed.

Lemma guessing_does_not_exit opts output e :
  guess_base_path opts output = Stop e ->
  forall status, e <> SystemExit status.
Proof.
  unfold guess_base_path.
  destruct (negb _); [|discriminate].
  destruct (_ && _); [discriminate|].
  destruct (_ && _); [|discriminate]. now intros [= <-].
Qed.

Lemma stripping_does_not_exit opts base_path e :
  strip_base_path opts base_path = Stop e ->
  forall status, e <> SystemExit status.
Proof.
  unfold strip_base_path.
  destruct (given base_path); [|discriminate].
  destruct (directory opts) as [d|]; [|now intros [= <-]].
  destruct (split_char backslash d); [|discriminate]. now intros [= <-].
Qed.

(** An exit of [get_input_output] is an exit of the reading. *)
Lemma exit_comes_from_reading opts w stdin c status :
  fst (get_input_output text_of opts w stdin c) = Stop (SystemExit status) ->
  get_input_output text_of opts w stdin c
    = (Stop (SystemExit status), snd (read_document text_of opts w stdin c))
  /\ fst (read_document text_of opts w stdin c) = Stop (SystemExit status).
Proof.
  destruct (read_document text_of opts w stdin c) as [[d|e] c1] eqn:Hr.
  - rewrite (get_input_output_eq _ _ _ _ _ _ _ Hr).
    destruct (guess_base_path opts (output_of opts)) as [g|e] eqn:Hg.
    + destruct (strip_base_path opts g) as [b|e] eqn:Hs; [discriminate|].
      cbn [fst]. intros [= ->].
      destruct (stripping_does_not_exit _ _ _ Hs status eq_refl).
    + cbn [fst]. intros [= ->].
      destruct (guessing_does_not_exit _ _ _ Hg status eq_refl).
  - rewrite (get_input_output_stops _ _ _ _ _ _ _ Hr). cbn [fst snd].
    intros [= ->]. now split.
Qed.

Lemma ends_without_newline (s : string) b r :
  endswith (String b r) (String nl "") = false ->
  endswith (s +:+ String b r) (String nl "") = false.
Proof. intros H. now rewrite endswith_append. Qed.

Ltac newline_is_added :=
  match goal with
  | |- context [endswith ?m (String nl "")] =>
      let H := fresh in
      assert (endswith m (String nl "") = false) as H
        by (rewrite <- ?append_assoc; apply ends_without_newline;
            reflexivity);
      rewrite H; reflexivity
  end.

(** X20: for an input file named in the working directory,
    [get_input_output] exits in three situations only: with status 19
    when the name is a directory, with status 20 when there is nothing
    of that name, and with status 88 when the file is read as text
    (under [-E] or [-P]) and does not decode.  Each time a message that
    ends with a newline is added to the error stream, and nothing to
    the standard output: one line for 19 and 20, and for 88 the line
    with the reason followed by the line of advice. *)
Theorem get_input_output_exit_status opts w stdin c status :
  bare_name (input opts) = true ->
  let r := get_input_output text_of opts w stdin c in
  let a := resolve w (input opts) in
  (fst r = Stop (SystemExit status) <->
   input opts <> "-" /\
   ((status = 19%Z /\ a ∈ dirs w)
    \/ (status = 20%Z /\ (a ∉ dirs w) /\ files w !! a = None)
    \/ (status = 88%Z /\ (a ∉ dirs w) /\
        (given (encoding opts) || pandocfilter opts) = true /\
        exists content reason,
          files w !! a = Some content /\ text_of content = inr reason))) /\
  (fst r = Stop (SystemExit status) ->
   exists message,
     snd r = Console (stdout c) (stderr c +:+ message +:+ String nl "") /\
     (status = 19%Z ->
      message = "Error: cannot open " +:+ input opts
                  +:+ " for reading: is a directory.") /\
     (status = 20%Z ->
      message = "Error: file " +:+ input opts +:+ " not found.") /\
     (status = 88%Z ->
      exists reason,
        message = "Error while reading from " +:+ input opts +:+ ": "
                    +:+ reason +:+ String nl encoding_hint)).
Proof.
  intros Hbare. apply bare_name_sep in Hbare. cbv zeta.
  assert (fst (get_input_output text_of opts w stdin c)
            = Stop (SystemExit status) <->
          fst (read_document text_of opts w stdin c)
            = Stop (SystemExit status)) as Hiff.
  { split; [intros H; exact (proj2 (exit_comes_from_reading _ _ _ _ _ H))|].
    intros H.
    destruct (read_document text_of opts w stdin c) as [[d|e] c1] eqn:Hr;
      [discriminate H|].
    rewrite (get_input_output_stops _ _ _ _ _ _ _ Hr).
    cbn [fst] in H |- *. now injection H as ->. }
  assert (fst (get_input_output text_of opts w stdin c)
            = Stop (SystemExit status) ->
          snd (get_input_output text_of opts w stdin c)
            = snd (read_document text_of opts w stdin c)) as Hsnd.
  { intros H. now destruct (exit_comes_from_reading _ _ _ _ _ H) as [-> _]. }
  destruct (String.eqb_spec (input opts) "-") as [Hin|Hin].
  - assert (fst (read_document text_of opts w stdin c)
              <> Stop (SystemExit status)) as Hno.
    { unfold read_document, lift, read_text. rewrite Hin.
      cbn [String.eqb Ascii.eqb Bool.eqb].
      destruct (text_of stdin); discriminate. }
    split; [|intros H; now apply Hiff in H].
    rewrite Hiff. split; [contradiction|]. intros [Hne _]. contradiction.
  - rewrite Hiff.
    assert (forall P : Prop, (input opts <> "-" /\ P) <-> P) as Hdrop by tauto.
    rewrite Hdrop. clear Hdrop.
    split; [|intros H; rewrite (Hsnd (proj2 Hiff H)); revert H];
      rewrite (read_document_file opts w stdin Hin),
        (read_file_cases opts w Hbare);
      destruct (bool_decide_reflect (resolve w (input opts) ∈ dirs w))
        as [Hd|Hd].
    + rewrite exit_eq. cbn [fst]. split.
      * intros [= <-]. left. now split.
      * intros [[-> _]|[(_ & Hn & _)|(_ & Hn & _)]];
          [reflexivity|contradiction|contradiction].
    + destruct (files w !! resolve w (input opts)) as [content|] eqn:Hf.
      * destruct (given (encoding opts) || pandocfilter opts) eqn:Hm.
        -- destruct (text_of content) as [text|reason] eqn:Ht.
           ++ cbn [lift fst]. split; [discriminate|].
              intros [[_ Hy]|[(_ & _ & Hy)|(_ & _ & _ & c0 & r0 & Hy & Hz)]];
                [contradiction|discriminate|congruence].
           ++ rewrite exit_eq. cbn [fst]. split.
              ** intros [= <-]. right. right.
                 repeat split; try assumption. now exists content, reason.
              ** now intros [[_ Hy]|[(_ & _ & Hy)|(-> & _)]];
                   [contradiction|discriminate|].
        -- cbn [lift fst]. split; [discriminate|].
           intros [[_ Hy]|[(_ & _ & Hy)|(_ & _ & Hy & _)]];
             [contradiction|discriminate|discriminate].
      * rewrite exit_eq. cbn [fst]. split.
        -- intros [= <-]. right. left. now repeat split.
        -- now intros [[_ Hy]|[(-> & _)|(_ & _ & _ & c0 & r0 & Hy & _)]];
             [contradiction| |discriminate].
    + rewrite exit_eq. cbn [fst snd]. intros [= <-].
      eexists. split; [|split; [reflexivity|split; discriminate]].
      newline_is_added.
    + destruct (files w !! resolve w (input opts)) as [content|] eqn:Hf.
      * destruct (given (encoding opts) || pandocfilter opts) eqn:Hm;
          [|discriminate].
        destruct (text_of content) as [text|reason] eqn:Ht; [discriminate|].
        rewrite exit_eq. cbn [fst snd]. intros [= <-].
        eexists.
        split; [|split; [discriminate|split; [discriminate|]]].
        -- newline_is_added.
        -- intros _. now exists reason.
      * rewrite exit_eq. cbn [fst snd]. intros [= <-].
        eexists.
        split; [|split; [discriminate|split; [reflexivity|discriminate]]].
        newline_is_added.
Qed.

End GuessingAndReading.

(** X21: without [-E] and [-P] a named input file is not decoded: the
    text layer plays no part in the outcome, and the document that is
    returned is the content of the file as [bytes]. *)
Theorem file_is_read_as_bytes text_of opts w stdin c :
  input opts <> "-" ->
  given (encoding opts) = false ->
  pandocfilter opts = false ->
  (forall other,
     get_input_output text_of opts w stdin c
       = get_input_output other opts w stdin c) /\
  (forall data base_path fmt out c',
     get_input_output text_of opts w stdin c
       = (Return (data, base_path, fmt, out), c') ->
     exists content,
       files w !! resolve w (input opts) = Some content
       /\ data = Bytes content).
Proof.
  intros Hin He Hp.
  assert (forall t,
            read_document t opts w stdin
              = match open_read w (input opts) with
                | Return content => lift (Return (Bytes content))
                | Stop (UnicodeDecodeError reason) =>
                    exit ("Error while reading from " +:+ input opts +:+ ": "
                            +:+ reason +:+ String nl encoding_hint) 88
                | Stop IsADirectoryError =>
                    exit ("Error: cannot open " +:+ input opts
                            +:+ " for reading: is a directory.") 19
                | Stop FileNotFoundError =>
                    exit ("Error: file " +:+ input opts +:+ " not found.") 20
                | Stop e => lift (Stop e)
                end) as Hread.
  { intros t. rewrite (read_document_file t opts w stdin Hin).
    unfold read_file. rewrite He, Hp. cbn [orb].
    destruct (open_read w (input opts)) as [content|[]]; reflexivity. }
  split.
  - intros other. unfold get_input_output. now rewrite !Hread.
  - intros data base_path fmt out c' H.
    destruct (read_document text_of opts w stdin c) as [[d|e] c1] eqn:Hr;
      [|rewrite (get_input_output_stops _ _ _ _ _ _ _ Hr) in H;
        discriminate H].
    rewrite (get_input_output_eq _ _ _ _ _ _ _ Hr) in H.
    destruct (guess_base_path _ _) as [g|]; [|discriminate H].
    destruct (strip_base_path _ _); [|discriminate H].
    injection H as <- _ _ _ _.
    rewrite Hread in Hr.
    destruct (open_read w (input opts)) as [content|e] eqn:Ho.
    + injection Hr as <- _. exists content.
      split; [exact (proj2 (open_read_returns _ _ _ Ho))|reflexivity].
    + destruct e; rewrite ?exit_eq in Hr; discriminate Hr.
Qed.

(** X22: the value of [-E] is not used for reading: the option only
    makes the file be opened in text mode, with the encoding of the
    locale.  Two values that are both given, or both not, lead to the
    same outcome. *)
Theorem encoding_value_is_not_used text_of opts e1 e2 w stdin c :
  given e1 = given e2 ->
  get_input_output text_of (with_encoding e1 opts) w stdin c
    = get_input_output text_of (with_encoding e2 opts) w stdin c.
Proof.
  intros H.
  unfold get_input_output, read_document, read_file, output_of,
    guess_base_path, strip_base_path, with_encoding.
  cbn [input output directory encoding pandocfilter].
  now rewrite H.
Qed.

(** Names with separators on the disk of the examples: a directory
    named with a separator behind it is a directory, and a name that
    passes through a regular file raises [NotADirectoryError], which
    [get_input_output] does not catch. *)
Example open_read_follows_the_separators :
  open_read disk_with_pages "sub/" = Stop IsADirectoryError /\
  open_read disk_with_pages "a.htex/" = Stop NotADirectoryError /\
  open_read disk_with_pages "a.htex/x" = Stop NotADirectoryError /\
  open_read disk_with_pages "none/" = Stop FileNotFoundError /\
  open_read disk_with_pages "sub/b.htex" = Return "<p><eq>y</eq></p>" /\
  fst (get_input_output utf8_text (just "sub/") disk_with_pages "" quiet)
    = Stop (SystemExit 19) /\
  fst (get_input_output utf8_text (just "a.htex/") disk_with_pages "" quiet)
    = Stop NotADirectoryError.
Proof. repeat split; vm_compute; reflexivity. Qed.

Lemma get_input_output_result_witness :
  Some "out/img"
    = Some (posixpath_join (hd "" (split_char backslash "out\img"))
              (tl (split_char backslash "out\img")))
  /\ PosixPath.rfind PosixPath.sep "a.html" = (-1)%Z.
Proof.
  destruct (get_input_output_result utf8_text
              (with_directory (Some "out\img") (just "a.htex"))
              disk_with_pages "" quiet
              (Bytes "<p><eq>x^2</eq></p>") (Some "out/img") "html" "a.html"
              quiet eq_refl) as (_ & Hbase & _ & _ & Hsep).
  split; assumption.
Defined.

Lemma get_input_output_cannot_guess_the_directory_witness :
  fst (get_input_output utf8_text (just "sub/b.htex") disk_with_pages ""
         quiet)
    = Stop (TypeError not_a_path)
  /\ fst (get_input_output utf8_text
            (with_output (Some "sub/a.html") (just "a.htex"))
            disk_with_pages "" quiet)
     = Stop (AttributeError none_has_no_split).
Proof.
  split.
  - refine (proj1 (proj2 (get_input_output_cannot_guess_the_directory
                            utf8_text (just "sub/b.htex") disk_with_pages ""
                            quiet (Bytes "<p><eq>y</eq></p>") quiet
                            eq_refl eq_refl)) _ _);
      [now left|vm_compute; discriminate].
  - refine (proj1 (get_input_output_cannot_guess_the_directory
                     utf8_text
                     (with_output (Some "sub/a.html") (just "a.htex"))
                     disk_with_pages "" quiet (Bytes "<p><eq>x^2</eq></p>")
                     quiet eq_refl eq_refl) eq_refl _).
    vm_compute. discriminate.
Defined.

Lemma get_input_output_exit_status_witness :
  fst (get_input_output utf8_text (just "missing.htex") disk_with_pages ""
         quiet) = Stop (SystemExit 20)
  /\ fst (get_input_output utf8_text
            (with_encoding (Some "latin-1") (just "latin1.htex"))
            disk_with_pages "" quiet) = Stop (SystemExit 88).
Proof.
  split.
  - apply (proj1 (get_input_output_exit_status utf8_text
                    (just "missing.htex") disk_with_pages "" quiet 20
                    eq_refl)).
    split; [discriminate|]. right. left.
    split; [reflexivity|]. split; [|reflexivity].
    refine (proj1 (bool_decide_eq_false _) _). reflexivity.
  - apply (proj1 (get_input_output_exit_status utf8_text
                    (with_encoding (Some "latin-1") (just "latin1.htex"))
                    disk_with_pages "" quiet 88 eq_refl)).
    split; [discriminate|]. right. right.
    split; [reflexivity|]. split; [|split; [reflexivity|]].
    + refine (proj1 (bool_decide_eq_false _) _). reflexivity.
    + exists Doubles.bad_byte, "'utf-8' codec can't decode bytes".
      split; reflexivity.
Defined.

Lemma file_is_read_as_bytes_witness :
  get_input_output utf8_text (just "latin1.htex") disk_with_pages "" quiet
    = get_input_output (fun _ => inr "never asked") (just "latin1.htex")
        disk_with_pages "" quiet.
Proof.
  apply (file_is_read_as_bytes utf8_text (just "latin1.htex")
           disk_with_pages "" quiet);
    [discriminate|reflexivity|reflexivity].
Defined.

Lemma encoding_value_is_not_used_witness :
  get_input_output utf8_text
    (with_encoding (Some "latin-1") (just "latin1.htex"))
    disk_with_pages "" quiet
  = get_input_output utf8_text
      (with_encoding (Some "utf-8") (just "latin1.htex"))
      disk_with_pages "" quiet.
Proof.
  apply (encoding_value_is_not_used utf8_text (just "latin1.htex")
           (Some "latin-1") (Some "utf-8")).
  reflexivity.
Defined.

(** ** [main] *)

Lemma index_head {A} (x : A) (l : list A) : index (x :: l) 0 = Return x.
Proof.
  unfold index. cbn [Z.ltb Z.compare List.length].
  replace ((0 <=? 0)%Z && (0 <? Z.of_nat (S (List.length l)))%Z) with true
    by (symmetry; apply andb_true_intro; split;
        [reflexivity|apply Z.ltb_lt; lia]).
  reflexivity.
Qed.

(** X23: with [GLADTEX_ARGS] in the environment the arguments of the
    command line are not looked at: what [main] passes on is the
    program name followed by the pieces of the variable between
    blanks.  The list that is passed always contains [-P]: when the
    switch is missing it is put in front and the input name [-] is
    put at the end.  An empty [sys.argv] ends in an [IndexError]. *)
Theorem main_args_from_environment environ v :
  environ !! "GLADTEX_ARGS" = Some v ->
  main_args [] environ = Stop (IndexError "list index out of range") /\
  forall argv0 rest,
    main_args (argv0 :: rest) environ = main_args [argv0] environ /\
    exists args,
      main_args (argv0 :: rest) environ = Return (argv0 :: args) /\
      "-P" ∈ argv0 :: args /\
      args = (if bool_decide ("-P" ∈ argv0 :: split_char " " v)
              then split_char " " v
              else "-P" :: split_char " " v ++ ["-"]).
Proof.
  intros Hv. unfold main_args. rewrite Hv. split; [reflexivity|].
  intros argv0 rest. rewrite !index_head. split; [reflexivity|].
  cbn [app]. rewrite index_head.
  destruct (bool_decide_reflect ("-P" ∈ argv0 :: split_char " " v))
    as [Hin|Hout]; cbn [negb tl].
  - eexists. split; [reflexivity|]. split; [assumption|reflexivity].
  - eexists. split; [reflexivity|]. split; [|reflexivity].
    apply elem_of_cons. right. apply elem_of_cons. now left.
Qed.

Lemma main_args_from_environment_witness :
  main_args ["gladtex"; "-d"; "img"; "page.htex"]
    {[ "GLADTEX_ARGS" := "-d img" ]}
  = main_args ["gladtex"] {[ "GLADTEX_ARGS" := "-d img" ]}.
Proof.
  assert (({[ "GLADTEX_ARGS" := "-d img" ]} : gmap string string)
            !! "GLADTEX_ARGS" = Some "-d img") as Hset by reflexivity.
  destruct (main_args_from_environment _ _ Hset) as [_ Hall].
  exact (proj1 (Hall "gladtex" ["-d"; "img"; "page.htex"])).
Defined.


(** ** [set_options] *)

Section WithConverter.
Variable conv : Type.
Variable pyfloat : Type.
Variable set_option : string -> optval pyfloat -> conv -> answer conv.
Variable set_replace_nonascii : bool -> conv -> answer conv.
Variable float : string -> answer pyfloat.
Variable call_image : string -> pyfloat -> answer pyfloat.

Lemma then_do_stops {A B} (r : answer A) (k : A -> answer B) :
  (forall a, exists e, k a = Stop e) -> exists e, then_do r k = Stop e.
Proof. intros H. destruct r as [a|e]; [apply H|now exists e]. Qed.

(** The four options that are applied before the resolution. *)
Lemma early_options_agree (set_option' : string -> optval pyfloat -> conv
                                          -> answer conv) :
  (forall name v c0,
     name ∈ ["preamble"; "latex_maths_env"; "svg"; "keep_latex_source"] ->
     set_option' name v c0 = set_option name v c0) ->
  (forall name o c0,
     name ∈ ["preamble"; "latex_maths_env"] ->
     query_text conv pyfloat set_option' name o c0
       = query_text conv pyfloat set_option name o c0) /\
  (forall name b c0,
     name ∈ ["svg"; "keep_latex_source"] ->
     query_switch conv pyfloat set_option' name b c0
       = query_switch conv pyfloat set_option name b c0).
Proof.
  intros Hsame. split.
  - intros name o c0 Hn. unfold query_text.
    assert (name ∈ ["preamble"; "latex_maths_env"; "svg";
                    "keep_latex_source"]) as Hin.
    { repeat (apply elem_of_cons in Hn as [->|Hn];
                [repeat ((now left) || right)|]).
      now apply elem_of_nil in Hn. }
    destruct o as [s|]; [|reflexivity].
    destruct (negb _); [|reflexivity].
    destruct (bool_decide _); now apply Hsame.
  - intros name b c0 Hn. unfold query_switch.
    assert (name ∈ ["preamble"; "latex_maths_env"; "svg";
                    "keep_latex_source"]) as Hin.
    { repeat (apply elem_of_cons in Hn as [->|Hn];
                [repeat ((now left) || right)|]).
      now apply elem_of_nil in Hn. }
    destruct b; [now apply Hsame|reflexivity].
Qed.

(** X24: a resolution given as a font size, [-r] with a value that
    ends in [pt], cannot be set: [set_options] looks up
    [fontsize2dpi] in [gleetex.image], which has no such name, so it
    never returns.  When the converter accepts the options before it,
    the exception is the [AttributeError] of the lookup.  Nothing but
    the four options [preamble], [latex_maths_env], [svg] and
    [keep_latex_source] is passed on: the outcome is the same whatever
    the converter does with the option [dpi] and with any other, and
    whatever [float] and the functions of [gleetex.image] do. *)
Theorem set_options_knows_no_font_size opts c :
  endswith (dpi opts) "pt" = true ->
  (exists e, Gladtex.set_options conv pyfloat set_option set_replace_nonascii
     float call_image c opts = Stop e) /\
  ((forall name v c0, exists c1, set_option name v c0 = Return c1) ->
   Gladtex.set_options conv pyfloat set_option set_replace_nonascii
     float call_image c opts
     = Stop (AttributeError (no_attribute "fontsize2dpi"))) /\
  (forall set_option' set_replace_nonascii' float' call_image',
     (forall name v c0,
        name ∈ ["preamble"; "latex_maths_env"; "svg"; "keep_latex_source"] ->
        set_option' name v c0 = set_option name v c0) ->
     Gladtex.set_options conv pyfloat set_option' set_replace_nonascii'
       float' call_image' c opts
     = Gladtex.set_options conv pyfloat set_option set_replace_nonascii
         float call_image c opts).
Proof.
  intros Hpt. unfold Gladtex.set_options. rewrite Hpt.
  change (image_getattr "fontsize2dpi")
    with (@Stop string
            (AttributeError (no_attribute "fontsize2dpi"))).
  cbn [then_do]. split; [|split].
  - repeat (apply then_do_stops; intros ?). now eexists.
  - intros Hok.
    assert (forall name o c0, exists c1,
              query_text conv pyfloat set_option name o c0 = Return c1)
      as Htext.
    { intros name o c0. unfold query_text.
      destruct o as [s|]; [|now eexists].
      destruct (negb _); [|now eexists].
      destruct (bool_decide _); apply Hok. }
    assert (forall name b c0, exists c1,
              query_switch conv pyfloat set_option name b c0 = Return c1)
      as Hswitch.
    { intros name b c0. unfold query_switch.
      destruct b; [apply Hok|now eexists]. }
    destruct (Htext "preamble" (preamble opts) c) as (c1 & ->).
    cbn [then_do].
    destruct (Htext "latex_maths_env" (latex_maths_env opts) c1) as (c2 & ->).
    cbn [then_do].
    destruct (Hswitch "svg" (svg opts) c2) as (c3 & ->). cbn [then_do].
    destruct (Hswitch "keep_latex_source" (keep_latex_source opts) c3)
      as (c4 & ->).
    reflexivity.
  - intros set_option' set_replace_nonascii' float' call_image' Hsame.
    destruct (early_options_agree set_option' Hsame) as [Htext Hswitch].
    rewrite (Htext "preamble") by (now left).
    destruct (query_text conv pyfloat set_option "preamble" _ c) as [c1|];
      [cbn [then_do]|reflexivity].
    rewrite (Htext "latex_maths_env") by (right; now left).
    destruct (query_text conv pyfloat set_option "latex_maths_env" _ c1)
      as [c2|]; [cbn [then_do]|reflexivity].
    rewrite (Hswitch "svg") by (now left).
    destruct (query_switch conv pyfloat set_option "svg" _ c2) as [c3|];
      [cbn [then_do]|reflexivity].
    rewrite (Hswitch "keep_latex_source") by (right; now left).
    destruct (query_switch conv pyfloat set_option "keep_latex_source" _ c3);
      reflexivity.
Qed.

(** X25: of the texts [True], [False], [true] and [false] as value of
    [-p] only the first is passed on as true: the other three, [true]
    among them, reach the converter as the boolean [False].  After
    that the options are applied as without [-p]. *)
Theorem set_options_reads_true_as_false opts c s :
  preamble opts = Some s ->
  s ∈ ["False"; "true"; "false"] ->
  Gladtex.set_options conv pyfloat set_option set_replace_nonascii
     float call_image c opts
    = then_do (set_option "preamble" (OBool pyfloat false) c)
        (fun c =>
           Gladtex.set_options conv pyfloat set_option set_replace_nonascii
             float call_image c (with_preamble None opts)).
Proof.
  intros Hp Hs. unfold Gladtex.set_options, with_preamble.
  cbn [preamble latex_maths_env svg keep_latex_source dpi foreground_color
       background_color replace_nonascii].
  rewrite Hp. unfold query_text at 1.
  assert (s = "False" \/ s = "true" \/ s = "false") as Hcases.
  { repeat (apply elem_of_cons in Hs as [Hs|Hs]; [tauto|]).
    now apply elem_of_nil in Hs. }
  destruct Hcases as [->|[->| ->]]; reflexivity.
Qed.

End WithConverter.

Lemma set_options_knows_no_font_size_witness :
  Gladtex.set_options recorder Z record_option record_replace float_115
    no_function [] (with_dpi "12pt" (just "a.htex"))
  = Stop (AttributeError (no_attribute "fontsize2dpi")).
Proof.
  refine (proj1 (proj2 (set_options_knows_no_font_size recorder Z
                          record_option record_replace float_115 no_function
                          (with_dpi "12pt" (just "a.htex")) [] eq_refl)) _).
  intros name v c0. now eexists.
Defined.

Lemma set_options_reads_true_as_false_witness :
  Gladtex.set_options recorder Z record_option record_replace float_115
    no_function [] (with_preamble (Some "true") (just "a.htex"))
  = Return [("preamble", OBool Z false); ("dpi", OFloat Z 115%Z)].
Proof.
  rewrite (set_options_reads_true_as_false recorder Z record_option
             record_replace float_115 no_function
             (with_preamble (Some "true") (just "a.htex")) [] "true"
             eq_refl).
  - reflexivity.
  - apply elem_of_cons. right. apply elem_of_cons. now left.
Defined.


End GladtexFacts.
